(** * otel-go: the CEP-to-weather lookup pipeline

    A shallow embedding of the two services of the repository:

    - svc-b (the internal service): [handlers] ([GetWeatherByCEP],
      [GetWeatherByCEPPost], [processWeatherRequest], the two error
      mappers) and [services] ([ViaCEPService.GetCityByCEP],
      [WeatherAPIService.GetTemperature], [round]);
    - svc-a (the edge service): [HandleWeatherRequest], [isValidCEP],
      [callServiceB].

    Go strings are byte strings, so they are [string] (a list of [ascii]);
    [int] is [Z]; [float64] is the kernel's binary64 [float]; the network,
    the environment and [time.Sleep] live in a [World] that is threaded
    through every effectful function.  Tracing spans and log lines only
    observe the computation and are left out. *)

From Stdlib Require Import ZArith List String Ascii Bool Lia DecimalString.
From Stdlib Require Import Floats.PrimFloat Floats.FloatOps Floats.SpecFloat.
Import ListNotations.

Set Warnings "-inexact-float".
Local Open Scope string_scope.
Local Open Scope Z_scope.

(* ================================================================== *)
(** * Part I. Definitions *)
(* ================================================================== *)

(** ** Bytes and strings *)

Module GoString.

(** The numeric value of a byte. *)
Definition code (c : ascii) : Z := Z.of_N (N_of_ascii c).

(** Go's [len] on a string: the number of bytes. *)
Definition len (s : string) : Z := Z.of_nat (String.length s).

Definition quote : string := String "034"%char EmptyString.
Definition backslash : string := String "092"%char EmptyString.

(** An [int] printed in decimal, as [%v] and [strconv.Itoa] print it. *)
Definition Itoa (n : Z) : string := NilZero.string_of_int (Z.to_int n).

(** [strings.ReplaceAll s old new] for a non-empty [old]: the
    non-overlapping occurrences of [old], scanned left to right, are
    replaced by [new].  [skip] counts the bytes of a matched occurrence
    that are still to be dropped.  (An empty [old] is never passed by
    this program and is returned unchanged here.) *)
Fixpoint replace_from (skip : nat) (s old new : string) : string :=
  match s with
  | EmptyString => EmptyString
  | String c rest =>
      match skip with
      | S k => replace_from k rest old new
      | O =>
          if String.prefix old s
          then new ++ replace_from (String.length old - 1) rest old new
          else String c (replace_from O rest old new)
      end
  end.

Definition ReplaceAll (s old new : string) : string :=
  match old with
  | EmptyString => s
  | _ => replace_from O s old new
  end.

(** *** UTF-8, as [for _, c := range s] sees it *)

Definition RuneError : Z := 65533.

Definition in_range (lo hi b : Z) : bool := (lo <=? b) && (b <=? hi).

(** The code point that starts [s] and its width in bytes; an invalid
    or truncated sequence yields [RuneError] with width 1
    ([utf8.DecodeRuneInString]). *)
Definition decode_rune (s : string) : Z * nat :=
  match s with
  | EmptyString => (RuneError, 0%nat)
  | String c0 t0 =>
      let b0 := code c0 in
      if b0 <? 128 then (b0, 1%nat)
      else if in_range 194 223 b0 then
        match t0 with
        | String c1 _ =>
            let b1 := code c1 in
            if in_range 128 191 b1
            then ((b0 - 192) * 64 + (b1 - 128), 2%nat)
            else (RuneError, 1%nat)
        | _ => (RuneError, 1%nat)
        end
      else if in_range 224 239 b0 then
        match t0 with
        | String c1 (String c2 _) =>
            let b1 := code c1 in
            let b2 := code c2 in
            let lo := if b0 =? 224 then 160 else 128 in
            let hi := if b0 =? 237 then 159 else 191 in
            if in_range lo hi b1 && in_range 128 191 b2
            then ((b0 - 224) * 4096 + (b1 - 128) * 64 + (b2 - 128), 3%nat)
            else (RuneError, 1%nat)
        | _ => (RuneError, 1%nat)
        end
      else if in_range 240 244 b0 then
        match t0 with
        | String c1 (String c2 (String c3 _)) =>
            let b1 := code c1 in
            let b2 := code c2 in
            let b3 := code c3 in
            let lo := if b0 =? 240 then 144 else 128 in
            let hi := if b0 =? 244 then 143 else 191 in
            if in_range lo hi b1 && in_range 128 191 b2 && in_range 128 191 b3
            then ((b0 - 240) * 262144 + (b1 - 128) * 4096
                  + (b2 - 128) * 64 + (b3 - 128), 4%nat)
            else (RuneError, 1%nat)
        | _ => (RuneError, 1%nat)
        end
      else (RuneError, 1%nat)
  end.

(** The runes a [range] loop over [s] visits, in order. *)
Fixpoint runes_from (skip : nat) (s : string) : list Z :=
  match s with
  | EmptyString => []
  | String _ rest =>
      match skip with
      | S k => runes_from k rest
      | O => fst (decode_rune s) :: runes_from (snd (decode_rune s) - 1) rest
      end
  end.

Definition range_runes (s : string) : list Z := runes_from O s.

(** *** [url.QueryEscape] *)

Definition hex_upper (n : Z) : ascii :=
  ascii_of_N (Z.to_N (if n <? 10 then 48 + n else 55 + n)).

Definition hex_lower (n : Z) : ascii :=
  ascii_of_N (Z.to_N (if n <? 10 then 48 + n else 87 + n)).

Definition is_alnum (b : Z) : bool :=
  in_range 48 57 b || in_range 65 90 b || in_range 97 122 b.

(** Unreserved in a query component: letters, digits, [-], [_], [.], [~]. *)
Definition unreserved (b : Z) : bool :=
  is_alnum b || (b =? 45) || (b =? 95) || (b =? 46) || (b =? 126).

Fixpoint QueryEscape (s : string) : string :=
  match s with
  | EmptyString => EmptyString
  | String c rest =>
      let b := code c in
      if b =? 32 then String "+"%char (QueryEscape rest)
      else if unreserved b then String c (QueryEscape rest)
      else String "%"%char
             (String (hex_upper (b / 16))
                (String (hex_upper (b mod 16)) (QueryEscape rest)))
  end.

(** *** [fmt.Sprintf] with string operands

    The formats of this program use the verb [%s] only ([%%] is the
    literal percent sign); a missing operand prints [%!s(MISSING)] and
    operands left over print the [%!(EXTRA ...)] suffix. *)
Fixpoint extra_operands (args : list string) : string :=
  match args with
  | [] => EmptyString
  | [a] => "string=" ++ a
  | a :: more => "string=" ++ a ++ ", " ++ extra_operands more
  end.

Fixpoint Sprintf (format : string) (args : list string) : string :=
  match format with
  | EmptyString =>
      match args with
      | [] => EmptyString
      | _ => "%!(EXTRA " ++ extra_operands args ++ ")"
      end
  | String "%"%char (String "s"%char rest) =>
      match args with
      | a :: args' => a ++ Sprintf rest args'
      | [] => "%!s(MISSING)" ++ Sprintf rest []
      end
  | String "%"%char (String "%"%char rest) => String "%"%char (Sprintf rest args)
  | String c rest => String c (Sprintf rest args)
  end.

(** *** [encoding/json]: a Go string as a JSON string

    With HTML escaping on, as [json.Marshal] and [Encoder.Encode] have
    it: the quote and the backslash get a backslash, control bytes and
    [<], [>], [&] become [\u00XX] (with the short forms for backspace,
    form feed, newline, carriage return and tab), an invalid UTF-8 byte
    becomes the escape of U+FFFD, U+2028 and U+2029 are written as escapes, and
    every other character is copied.  [skip] counts the continuation
    bytes of the character being copied ([copy]) or dropped. *)
Definition escape_ascii (c : ascii) : string :=
  let b := code c in
  if b =? 34 then backslash ++ quote
  else if b =? 92 then backslash ++ backslash
  else if b =? 8 then backslash ++ "b"
  else if b =? 12 then backslash ++ "f"
  else if b =? 10 then backslash ++ "n"
  else if b =? 13 then backslash ++ "r"
  else if b =? 9 then backslash ++ "t"
  else if (b <? 32) || (b =? 60) || (b =? 62) || (b =? 38)
       then backslash ++ "u00"
              ++ String (hex_lower (b / 16)) (String (hex_lower (b mod 16)) EmptyString)
  else String c EmptyString.

Fixpoint json_escape_from (skip : nat) (copy : bool) (s : string) : string :=
  match s with
  | EmptyString => EmptyString
  | String c rest =>
      match skip with
      | S k =>
          if copy then String c (json_escape_from k copy rest)
          else json_escape_from k copy rest
      | O =>
          if code c <? 128 then escape_ascii c ++ json_escape_from O true rest
          else
            let (r, width) := decode_rune s in
            if (r =? RuneError) && Nat.eqb width 1
            then backslash ++ "ufffd" ++ json_escape_from O true rest
            else if r =? 8232
            then backslash ++ "u2028" ++ json_escape_from (width - 1) false rest
            else if r =? 8233
            then backslash ++ "u2029" ++ json_escape_from (width - 1) false rest
            else String c (json_escape_from (width - 1) true rest)
      end
  end.

Definition json_string (s : string) : string :=
  quote ++ json_escape_from O true s ++ quote.

End GoString.

(** ** Errors *)

Module GoError.

(** An [error] value of the program: a package-level value made by
    [errors.New], an error handed out by a library ([net/http],
    [net/url], [io], [encoding/json]), or a [fmt.Errorf] value whose
    format has one [%w]. *)
Inductive error : Type :=
| Sentinel (text : string)
| External (text : string)
| Wrap (text : string) (inner : error).

(** [err.Error()]. *)
Definition Error (e : error) : string :=
  match e with
  | Sentinel t => t
  | External t => t
  | Wrap t _ => t
  end.

(** [fmt.Errorf(before + "%w" + after, err)]. *)
Definition Errorf_w (before : string) (err : error) (after : string) : error :=
  Wrap (before ++ Error err ++ after) err.

(** [==] on errors against a package-level value: the same pointer. *)
Definition same (e target : error) : bool :=
  match e, target with
  | Sentinel a, Sentinel b => String.eqb a b
  | _, _ => false
  end.

(** [errors.Is]: [target] is met somewhere down the [Unwrap] chain. *)
Fixpoint errors_Is (e target : error) : bool :=
  same e target ||
  match e with
  | Wrap _ inner => errors_Is inner target
  | _ => false
  end.

End GoError.
Export GoError.

(** ** The outside world: environment, network, clock *)

Module Net.

(** An outbound [*http.Request] as the program builds it.  [URL] is the
    string the program handed to [http.NewRequestWithContext]: the
    request is told apart by the text it was built from, not by the
    bytes of its request line, which [net/url] encodes anew (a space
    goes out as [%20], and what follows a [#] is not sent at all). *)
Record Request : Type := mkRequest {
  Method : string;
  URL : string;
  ReqHeader : list (string * string);
  ReqBody : string
}.

(** [Header.Set(key, value)] on a header map kept as a list of entries:
    the value takes the place of whatever the key had. *)
Definition Header_replace (key value : string) (entries : list (string * string))
  : list (string * string) :=
  (key, value) :: filter (fun entry => negb (String.eqb (fst entry) key)) entries.

(** [req.Header.Set(key, value)]. *)
Definition Request_Header_Set (key value : string) (req : Request) : Request :=
  mkRequest (Method req) (URL req) (Header_replace key value (ReqHeader req))
    (ReqBody req).

(** An [io.Reader] holding a body: the bytes it delivers and the error,
    if any, that ends the reading. *)
Record Reader : Type := mkReader {
  data : string;
  fault : option string
}.

Record Response : Type := mkResponse {
  StatusCode : Z;
  Body : Reader
}.

(** What [Do] hands back.  A nil error comes with a response; an error
    comes with a nil response, or (a failed redirect policy) with the
    last response. *)
Inductive DoResult : Type :=
| DoOk (resp : Response)
| DoErr (resp : option Response) (err : string).

Inductive event : Type :=
| EvDo (req : Request) (res : DoResult)
| EvSleep (ms : Z).

(** [trace] lists what the process has done so far, latest first; the
    network answers a request knowing everything that happened before
    it (so it may fail twice and then answer, time out, and so on). *)
Record World : Type := mkWorld {
  environ : string -> string;
  upstream : list event -> Request -> DoResult;
  trace : list event
}.

Definition record (e : event) (w : World) : World :=
  {| environ := environ w; upstream := upstream w; trace := e :: trace w |}.

(** A Go computation: it returns or panics, and changes the world. *)
Inductive outcome (A : Type) : Type :=
| Normal (a : A)
| Panicked (reason : string).
Arguments Normal {A} a.
Arguments Panicked {A} reason.

Definition Go (A : Type) : Type := World -> outcome A * World.

Definition ret {A : Type} (a : A) : Go A := fun w => (Normal a, w).

Definition bind {A B : Type} (m : Go A) (k : A -> Go B) : Go B :=
  fun w =>
    match m w with
    | (Normal a, w') => k a w'
    | (Panicked r, w') => (Panicked r, w')
    end.

Definition panic {A : Type} (reason : string) : Go A :=
  fun w => (Panicked reason, w).

Definition nil_dereference : string :=
  "runtime error: invalid memory address or nil pointer dereference".

Definition os_Getenv (key : string) : Go string :=
  fun w => (Normal (environ w key), w).

Definition time_Sleep (ms : Z) : Go unit :=
  fun w => (Normal tt, record (EvSleep ms) w).

(** [Do] of [http.Client]: the request goes out and the answer comes back. *)
Definition net_Do (req : Request) : Go DoResult :=
  fun w =>
    let res := upstream w (trace w) req in
    (Normal res, record (EvDo req res) w).

(** [io.ReadAll]. *)
Definition io_ReadAll (r : Reader) : string * option error :=
  (data r, option_map External (fault r)).

(** The requests handed to the network, oldest first, with their answers. *)
Fixpoint answers_latest_first (t : list event) : list DoResult :=
  match t with
  | [] => []
  | EvDo _ res :: t' => res :: answers_latest_first t'
  | EvSleep _ :: t' => answers_latest_first t'
  end.

Definition answers (t : list event) : list DoResult :=
  rev (answers_latest_first t).

Fixpoint sleeps_latest_first (t : list event) : list Z :=
  match t with
  | [] => []
  | EvSleep ms :: t' => ms :: sleeps_latest_first t'
  | EvDo _ _ :: t' => sleeps_latest_first t'
  end.

Definition failed (r : DoResult) : bool :=
  match r with
  | DoOk _ => false
  | DoErr _ _ => true
  end.

(** An event that is not a request the network answered. *)
Definition unanswered (e : event) : bool :=
  match e with
  | EvDo _ (DoOk _) => false
  | _ => true
  end.

End Net.
Export Net.

Declare Scope go_scope.
Delimit Scope go_scope with go.
Notation "x <- m ;; k" := (bind m (fun x => k))
  (at level 61, m at next level, right associativity) : go_scope.
Notation "m ;;; k" := (bind m (fun _ => k))
  (at level 61, right associativity) : go_scope.
Local Open Scope go_scope.

(** ** float64 and its conversions *)

Module Float64.

Definition MinInt64 : Z := - 2 ^ 63.
Definition MaxInt64 : Z := 2 ^ 63 - 1.

(** Go's [int(f)] for a [float64] [f]: the fraction is discarded
    (truncation towards zero).  For a NaN, an infinity or a value
    outside [int]'s range the language leaves the result to the
    implementation; on amd64, the architecture the services are built
    for, the conversion yields the smallest [int]. *)
Definition int_of_float (f : float) : Z :=
  match Prim2SF f with
  | S754_zero _ => 0
  | S754_finite s m e =>
      let magnitude :=
        if 0 <=? e then Z.shiftl (Zpos m) e else Z.shiftr (Zpos m) (- e) in
      let z := if s then - magnitude else magnitude in
      if (MinInt64 <=? z) && (z <=? MaxInt64) then z else MinInt64
  | S754_infinity _ => MinInt64
  | S754_nan => MinInt64
  end.

(** Go's [float64(n)] for an [int] [n]: the nearest binary64 value. *)
Definition float_of_int (n : Z) : float :=
  SF2Prim (binary_normalize prec emax n 0 false).

(** [x != 0] on float64 (a NaN differs from zero, minus zero does not). *)
Definition nonzero (x : float) : bool := negb (PrimFloat.eqb x 0).

Definition is_finite (x : float) : bool :=
  negb (PrimFloat.is_nan x || PrimFloat.is_infinity x).

End Float64.

(** ** Package models and the wire formats *)

Module models.

(** [models.Temperature]. *)
Record Temperature : Type := mkTemperature {
  TempC : float;
  TempF : float;
  TempK : float
}.

End models.

(** The JSON shapes the two upstream services answer with, and the body
    of the POST requests.  To keep namesakes apart, the fields [TempC]
    and [TempF] of [Current] go by their JSON keys, the field [Error]
    of the weather answer is [Error_], and the field [Cep] of the
    request is [cep_field]. *)
Record ViaCEPResponse : Type := mkViaCEPResponse {
  Cep : string;
  Logradouro : string;
  Complemento : string;
  Bairro : string;
  Localidade : string;
  UF : string;
  Erro : bool
}.

Record WeatherAPICurrent : Type := mkCurrent {
  temp_c : float;
  temp_f : float
}.

Record WeatherAPIError : Type := mkAPIError {
  Code : Z;
  Message : string
}.

Record WeatherAPIResponse : Type := mkWeatherAPIResponse {
  Current : WeatherAPICurrent;
  Error_ : WeatherAPIError
}.

Record CepRequest : Type := mkCepRequest {
  cep_field : string
}.

(** What the program takes from its libraries as given: whether
    [net/url] can parse a URL (the error text when it cannot), the
    [encoding/json] decoders for the three input shapes, and the
    printing of a finite float64 in a JSON document. *)
Record Platform : Type := mkPlatform {
  url_Parse_error : string -> option string;
  Unmarshal_ViaCEPResponse : string -> ViaCEPResponse + error;
  Decode_WeatherAPIResponse : Reader -> WeatherAPIResponse + error;
  Unmarshal_CepRequest : string -> CepRequest + error;
  FormatFloat : float -> string
}.

(** [http.NewRequestWithContext] with a valid method and a live context:
    it fails exactly when the URL does not parse.  The request it
    returns is kept by the text of that URL (see [Request]). *)
Definition NewRequestWithContext (P : Platform) (method url body : string)
  : Request + error :=
  match url_Parse_error P url with
  | Some text => inr (External text)
  | None => inl (mkRequest method url [] body)
  end.

(** ** svc-b/services *)

Module services.

(** The three interfaces of the package. *)
Class HTTPClient (C : Type) : Type :=
  Do : C -> Request -> Go DoResult.

Class CEPService (S : Type) : Type :=
  GetCityByCEP : S -> string -> Go (string * option error).

Class WeatherService (S : Type) : Type :=
  GetTemperature : S -> string -> Go (option models.Temperature * option error).

(** [*http.Client], the client the services run with. *)
Record http_Client : Type := mkClient {
  Timeout : Z
}.

#[export] Instance http_Client_Do : HTTPClient http_Client :=
  fun _ req => net_Do req.

Definition ErrInvalidZipCode : error := Sentinel "invalid zipcode".
Definition ErrZipCodeNotFound : error := Sentinel "can not find zipcode".
Definition ErrInternalServer : error := Sentinel "internal server error".

Definition ErrAPIKeyNotConfigured : error := Sentinel "weather API key not configured".
Definition ErrWeatherAPIFailed : error := Sentinel "weather API request failed".
Definition ErrCityNotFound : error := Sentinel "city not found".

Definition StatusOK : Z := 200.

Module ViaCEP.

Record ViaCEPService (C : Type) : Type := mkViaCEPService {
  client : C;
  baseURL : string
}.
Arguments client {C} _.
Arguments baseURL {C} _.
Arguments mkViaCEPService {C} _ _.

Definition NewViaCEPService {C : Type} (client : C) : ViaCEPService C :=
  mkViaCEPService client "https://viacep.com.br/ws/%s/json/".

Section GetCityByCEP.
Context (P : Platform) {C : Type} `{HTTPClient C}.

Definition GetCityByCEP (s : ViaCEPService C) (cep : string)
  : Go (string * option error) :=
  let cep := GoString.ReplaceAll cep "-" "" in
  let cep := GoString.ReplaceAll cep "." "" in
  if negb (GoString.len cep =? 8) then ret ("", Some ErrInvalidZipCode)
  else
    let url := GoString.Sprintf (baseURL s) [cep] in
    match NewRequestWithContext P "GET" url "" with
    | inr err => ret ("", Some (Errorf_w "failed to create request: " err ""))
    | inl req =>
        r <- Do (client s) req ;;
        match r with
        | DoErr _ err =>
            ret ("", Some (Errorf_w "failed to send request: " (External err) ""))
        | DoOk resp =>
            if negb (StatusCode resp =? StatusOK)
            then ret ("", Some ErrZipCodeNotFound)
            else
              match io_ReadAll (Body resp) with
              | (_, Some _) => ret ("", Some ErrInternalServer)
              | (bodyBytes, None) =>
                  match Unmarshal_ViaCEPResponse P bodyBytes with
                  | inr _ => ret ("", Some ErrInternalServer)
                  | inl viacepResponse =>
                      if Erro viacepResponse
                      then ret ("", Some ErrZipCodeNotFound)
                      else if String.eqb (Localidade viacepResponse) ""
                      then ret ("", Some ErrZipCodeNotFound)
                      else ret (Localidade viacepResponse, None)
                  end
              end
        end
    end.

End GetCityByCEP.

(** [*ViaCEPService] implements [CEPService]. *)
Definition ViaCEPService_CEPService (P : Platform) {C : Type} `{HTTPClient C}
  : CEPService (ViaCEPService C) := GetCityByCEP P.

End ViaCEP.

Module WeatherAPI.

Record WeatherAPIService (C : Type) : Type := mkWeatherAPIService {
  client : C;
  baseURL : string
}.
Arguments client {C} _.
Arguments baseURL {C} _.
Arguments mkWeatherAPIService {C} _ _.

Definition NewWeatherAPIService {C : Type} (client : C) : WeatherAPIService C :=
  mkWeatherAPIService client "https://api.weatherapi.com/v1/current.json".

(** [round]: the loop builds [factor = 10^places]; the result is
    [float64(int(num*factor+0.5)) / factor]. *)
Fixpoint factor_loop (iterations : nat) (factor : float) : float :=
  match iterations with
  | O => factor
  | S n => factor_loop n (factor * 10)%float
  end.

Definition round (num : float) (places : Z) : float :=
  let factor := factor_loop (Z.to_nat places) 1%float in
  (Float64.float_of_int (Float64.int_of_float (num * factor + 0.5)) / factor)%float.

Definition maxRetries : Z := 3.

Section GetTemperature.
Context (P : Platform) {C : Type} `{HTTPClient C}.

(** The retry loop of [GetTemperature], with [remaining] iterations to
    go, so that [attempt = maxRetries - remaining + 1].  [resp] and
    [err] are the two variables declared before the loop.  Inside the
    body, [req, err := http.NewRequestWithContext(...)] declares a new
    [err] for the iteration, and it is this inner variable that
    [resp, err = s.client.Do(req)] assigns: the outer [err] is passed
    along unchanged. *)
Fixpoint retry_loop (client : C) (reqURL : string) (remaining : nat)
  (resp : option Response) (err : option error)
  : Go (option Response * option error) :=
  match remaining with
  | O => ret (resp, err)
  | S k =>
      let attempt := maxRetries - Z.of_nat k in
      match NewRequestWithContext P "GET" reqURL "" with
      | inr _ =>
          time_Sleep (attempt * 100) ;;;
          retry_loop client reqURL k resp err
      | inl req =>
          r <- Do client req ;;
          match r with
          | DoOk resp' => ret (Some resp', err)
          | DoErr resp' _ =>
              (if attempt <? maxRetries then time_Sleep (attempt * 100) else ret tt) ;;;
              retry_loop client reqURL k resp' err
          end
      end
  end.

Definition GetTemperature (s : WeatherAPIService C) (city : string)
  : Go (option models.Temperature * option error) :=
  apiKey <- os_Getenv "WEATHER_API_KEY" ;;
  if String.eqb apiKey "" then ret (None, Some ErrAPIKeyNotConfigured)
  else
    let encodedCity := GoString.QueryEscape city in
    let reqURL := GoString.Sprintf "%s?key=%s&q=%s" [baseURL s; apiKey; encodedCity] in
    after <- retry_loop (client s) reqURL (Z.to_nat maxRetries) None None ;;
    match after with
    | (_, Some err) =>
        ret (None, Some (Errorf_w "all weather API requests failed: " err ""))
    | (None, None) => panic nil_dereference
    | (Some resp, None) =>
        match Decode_WeatherAPIResponse P (Body resp) with
        | inr err =>
            ret (None, Some (Errorf_w "failed to decode API response: " err ""))
        | inl weatherResp =>
            if negb (StatusCode resp =? StatusOK) then
              if Code (Error_ weatherResp) =? 1006
              then ret (None, Some ErrCityNotFound)
              else ret (None, Some (Errorf_w "" ErrWeatherAPIFailed
                                      (": " ++ Message (Error_ weatherResp))))
            else
              let tempC := temp_c (Current weatherResp) in
              let tempF :=
                if Float64.nonzero (temp_f (Current weatherResp))
                then temp_f (Current weatherResp)
                else (tempC * 1.8 + 32)%float in
              let tempK := (tempC + 273.15)%float in
              ret (Some (models.mkTemperature
                           (round tempC 2) (round tempF 2) (round tempK 2)),
                   None)
        end
    end.

End GetTemperature.

(** [*WeatherAPIService] implements [WeatherService]. *)
Definition WeatherAPIService_WeatherService (P : Platform) {C : Type} `{HTTPClient C}
  : WeatherService (WeatherAPIService C) := GetTemperature P.

End WeatherAPI.

End services.

(** ** The response side of an HTTP handler *)

Module HTTP.

(** An [http.ResponseWriter] as the handler sees it: the headers set,
    the status of the response once it is fixed, the bytes of the body.
    The record describes the one response the client is left with; an
    interim response (see [WriteHeader_checked]) is not kept in it. *)
Record ResponseWriter : Type := mkResponseWriter {
  header : list (string * string);
  status : option Z;
  written : string
}.

Definition fresh : ResponseWriter := mkResponseWriter [] None "".

(** [w.Header().Set(key, value)]. *)
Definition Header_Set (key value : string) (w : ResponseWriter) : ResponseWriter :=
  mkResponseWriter (Header_replace key value (header w)) (status w) (written w).

Definition StatusSwitchingProtocols : Z := 101.
Definition StatusOK : Z := 200.
Definition StatusNoContent : Z := 204.
Definition StatusNotModified : Z := 304.
Definition StatusBadRequest : Z := 400.
Definition StatusNotFound : Z := 404.
Definition StatusMethodNotAllowed : Z := 405.
Definition StatusUnprocessableEntity : Z := 422.
Definition StatusInternalServerError : Z := 500.

Definition MethodPost : string := "POST".
Definition MethodGet : string := "GET".

(** [WriteHeader] with a status code that [net/http] takes as the
    status of the response, which every status constant above is: the
    first call fixes the status.  What [net/http] does with a code that
    is not such a constant is in [WriteHeader_checked]. *)
Definition WriteHeader (code : Z) (w : ResponseWriter) : ResponseWriter :=
  match status w with
  | Some _ => w
  | None => mkResponseWriter (header w) (Some code) (written w)
  end.

(** [checkWriteHeaderCode]: a status code that does not have three
    digits is refused by a panic. *)
Definition checkWriteHeaderCode (code : Z) : Go unit :=
  if (code <? 100) || (code >? 999)
  then panic ("invalid WriteHeader code " ++ GoString.Itoa code)
  else ret tt.

(** [w.WriteHeader(code)] in full, for a code that comes from outside
    the program.  Once the status is fixed the call changes nothing.
    Otherwise the code is checked; an informational code other than 101
    goes out as an interim response at once and leaves the status of
    the response open; any other code becomes the status. *)
Definition WriteHeader_checked (code : Z) (w : ResponseWriter) : Go ResponseWriter :=
  match status w with
  | Some _ => ret w
  | None =>
      checkWriteHeaderCode code ;;;
      if (100 <=? code) && (code <=? 199) && negb (code =? StatusSwitchingProtocols)
      then ret w
      else ret (WriteHeader code w)
  end.

(** [bodyAllowedForStatus]. *)
Definition bodyAllowedForStatus (status : Z) : bool :=
  if (100 <=? status) && (status <=? 199) then false
  else if status =? StatusNoContent then false
  else if status =? StatusNotModified then false
  else true.

Definition bodyAllowed (w : ResponseWriter) : bool :=
  match status w with
  | Some code => bodyAllowedForStatus code
  | None => false
  end.

(** [Write]: writes the status 200 first when none was written; the
    bytes are dropped (the call returns [ErrBodyNotAllowed], which no
    handler here looks at) when the status allows no body. *)
Definition Write (b : string) (w : ResponseWriter) : ResponseWriter :=
  let w := WriteHeader StatusOK w in
  if bodyAllowed w
  then mkResponseWriter (header w) (status w) (written w ++ b)
  else w.

End HTTP.
Export HTTP.

(** A JSON object member key, with its colon. *)
Definition json_key (name : string) : string :=
  GoString.quote ++ name ++ GoString.quote ++ ":".

(** ** svc-b/handlers *)

Module handlers.
Import services.

(** The two values handed to [respondWithJSON]. *)
Inductive payload : Type :=
| ErrorResponse (Error : string)
| WeatherResponse (City : string) (TempC TempF TempK : float).

Record WeatherHandler (CS WS : Type) : Type := mkWeatherHandler {
  cepService : CS;
  weatherService : WS
}.
Arguments cepService {CS WS} _.
Arguments weatherService {CS WS} _.
Arguments mkWeatherHandler {CS WS} _ _.

Section Handlers.
Context (P : Platform).

(** [json.Marshal] on the two payloads; it refuses a float that is not
    a finite number. *)
Definition json_Marshal (v : payload) : string + error :=
  match v with
  | ErrorResponse message =>
      inl ("{" ++ json_key "error" ++ GoString.json_string message ++ "}")
  | WeatherResponse city tempC tempF tempK =>
      if Float64.is_finite tempC && Float64.is_finite tempF && Float64.is_finite tempK
      then inl ("{" ++ json_key "city" ++ GoString.json_string city
                 ++ "," ++ json_key "temp_C" ++ FormatFloat P tempC
                 ++ "," ++ json_key "temp_F" ++ FormatFloat P tempF
                 ++ "," ++ json_key "temp_K" ++ FormatFloat P tempK ++ "}")
      else inr (External "json: unsupported value")
  end.

Definition respondWithJSON (w : ResponseWriter) (code : Z) (v : payload)
  : ResponseWriter :=
  match json_Marshal v with
  | inr _ =>
      Write ("{" ++ json_key "error" ++ GoString.json_string "internal server error" ++ "}")
        (WriteHeader StatusInternalServerError w)
  | inl response => Write response (WriteHeader code w)
  end.

Definition respondWithError (w : ResponseWriter) (code : Z) (message : string)
  : ResponseWriter :=
  respondWithJSON w code (ErrorResponse message).

Definition handleCEPError (w : ResponseWriter) (err : error) : ResponseWriter :=
  if errors_Is err ErrInvalidZipCode
  then respondWithError w StatusUnprocessableEntity "invalid zipcode"
  else if errors_Is err ErrZipCodeNotFound
  then respondWithError w StatusNotFound "can not find zipcode"
  else respondWithError w StatusInternalServerError "internal server error".

Definition handleWeatherError (w : ResponseWriter) (err : error) : ResponseWriter :=
  if errors_Is err ErrAPIKeyNotConfigured
  then respondWithError w StatusInternalServerError "weather service configuration error"
  else if errors_Is err ErrCityNotFound
  then respondWithError w StatusNotFound "city not found in weather service"
  else respondWithError w StatusInternalServerError "failed to get weather data".

Context {CS WS : Type} `{CEPService CS} `{WeatherService WS}.

Definition processWeatherRequest (h : WeatherHandler CS WS)
  (w : ResponseWriter) (cep : string) : Go ResponseWriter :=
  if negb (GoString.len cep =? 8)
  then ret (respondWithError w StatusUnprocessableEntity "invalid zipcode")
  else
    r <- GetCityByCEP (cepService h) cep ;;
    match r with
    | (_, Some err) => ret (handleCEPError w err)
    | (city, None) =>
        t <- GetTemperature (weatherService h) city ;;
        match t with
        | (_, Some err) => ret (handleWeatherError w err)
        | (None, None) => panic nil_dereference
        | (Some temp, None) =>
            ret (respondWithJSON w StatusOK
                   (WeatherResponse city (models.TempC temp)
                      (models.TempF temp) (models.TempK temp)))
        end
    end.

(** [GET /weather/{cep}]; [cep] is the path variable. *)
Definition GetWeatherByCEP (h : WeatherHandler CS WS)
  (w : ResponseWriter) (cep : string) : Go ResponseWriter :=
  let w := Header_Set "Content-Type" "application/json" w in
  let cep := GoString.ReplaceAll cep "-" "" in
  let cep := GoString.ReplaceAll cep "." "" in
  processWeatherRequest h w cep.

(** [POST /weather]; [body] is the request body. *)
Definition GetWeatherByCEPPost (h : WeatherHandler CS WS)
  (w : ResponseWriter) (body : Reader) : Go ResponseWriter :=
  let w := Header_Set "Content-Type" "application/json" w in
  match io_ReadAll body with
  | (_, Some _) => ret (respondWithError w StatusBadRequest "invalid request body")
  | (bytes, None) =>
      match Unmarshal_CepRequest P bytes with
      | inr _ => ret (respondWithError w StatusBadRequest "invalid request format")
      | inl req =>
          let cep := GoString.ReplaceAll (cep_field req) "-" "" in
          let cep := GoString.ReplaceAll cep "." "" in
          processWeatherRequest h w cep
      end
  end.

End Handlers.

End handlers.

(** ** svc-a: the edge service *)

Module svc_a.
Import services.

Record Config : Type := mkConfig {
  Port : string;
  ZipkinURL : string;
  ServiceBURL : string;
  ServiceName : string;
  Timeout : Z
}.

Record App : Type := mkApp {
  config : Config
}.

(** The part of the inbound [*http.Request] the handler reads. *)
Record Inbound : Type := mkInbound {
  InMethod : string;
  InBody : Reader
}.

(** [respondWithError]: [Encoder.Encode] ends the document with a newline. *)
Definition respondWithError (w : ResponseWriter) (code : Z) (message : string)
  : ResponseWriter :=
  let w := Header_Set "Content-Type" "application/json" w in
  let w := WriteHeader code w in
  Write ("{" ++ json_key "error" ++ GoString.json_string message ++ "}"
           ++ String "010"%char EmptyString) w.

(** The loop of [isValidCEP] over the runes of the string. *)
Fixpoint only_digits (runes : list Z) : bool :=
  match runes with
  | [] => true
  | c :: rest =>
      if (c <? GoString.code "0"%char) || (c >? GoString.code "9"%char)
      then false
      else only_digits rest
  end.

Definition isValidCEP (cep : string) : bool :=
  if negb (GoString.len cep =? 8) then false
  else only_digits (GoString.range_runes cep).

Section Edge.
Context (P : Platform).

(** [json.Marshal(CepRequest{Cep: cep})]; it cannot fail. *)
Definition Marshal_CepRequest (cep : string) : string :=
  "{" ++ json_key "cep" ++ GoString.json_string cep ++ "}".

Definition callServiceB (app : App) (cep : string)
  : Go (string * Z * option error) :=
  let reqBody := Marshal_CepRequest cep in
  match NewRequestWithContext P MethodPost (ServiceBURL (config app)) reqBody with
  | inr err => ret ("", 0, Some (Errorf_w "failed to create request: " err ""))
  | inl req =>
      let req := Request_Header_Set "Content-Type" "application/json" req in
      let client := mkClient (Timeout (config app)) in
      r <- Do client req ;;
      match r with
      | DoErr _ err =>
          ret ("", 0, Some (Errorf_w "request failed: " (External err) ""))
      | DoOk resp =>
          match io_ReadAll (Body resp) with
          | (_, Some err) =>
              ret ("", 0, Some (Errorf_w "failed to read response: " err ""))
          | (respBody, None) => ret (respBody, StatusCode resp, None)
          end
      end
  end.

Definition HandleWeatherRequest (app : App) (w : ResponseWriter) (r : Inbound)
  : Go ResponseWriter :=
  if negb (String.eqb (InMethod r) MethodPost)
  then ret (respondWithError w StatusMethodNotAllowed "only POST method is allowed")
  else
    let w := Header_Set "Content-Type" "application/json" w in
    match io_ReadAll (InBody r) with
    | (_, Some _) => ret (respondWithError w StatusBadRequest "invalid request body")
    | (body, None) =>
        match Unmarshal_CepRequest P body with
        | inr _ => ret (respondWithError w StatusBadRequest "invalid request format")
        | inl req =>
            let cep := cep_field req in
            if negb (isValidCEP cep)
            then ret (respondWithError w StatusUnprocessableEntity "invalid zipcode")
            else
              r <- callServiceB app cep ;;
              match r with
              | (_, _, Some err) =>
                  ret (respondWithError w StatusInternalServerError
                         ("error calling service B: " ++ Error err))
              | (response, statusCode, None) =>
                  w <- WriteHeader_checked statusCode w ;;
                  ret (Write response w)
              end
        end
    end.

End Edge.

End svc_a.

(** ** Vocabulary of the statements *)

(** The normalisation that both entry points of svc-b (and
    [GetCityByCEP] once more) apply to the postal code. *)
Definition normalize (cep : string) : string :=
  GoString.ReplaceAll (GoString.ReplaceAll cep "-" "") "." "".

(** The validation of svc-b, read off its handlers: the normalisation
    followed by the guard that opens [processWeatherRequest]. *)
Definition passes_validation (raw : string) : bool :=
  GoString.len (normalize raw) =? 8.

(** [s] without the byte [c]. *)
Fixpoint strip (c : ascii) (s : string) : string :=
  match s with
  | EmptyString => EmptyString
  | String a rest =>
      if Ascii.eqb a c then strip c rest else String a (strip c rest)
  end.

Definition is_digit (c : ascii) : bool :=
  GoString.in_range 48 57 (GoString.code c).

Fixpoint all_digits (s : string) : bool :=
  match s with
  | EmptyString => true
  | String c rest => is_digit c && all_digits rest
  end.

(** The JSON document of an error reply. *)
Definition error_body (message : string) : string :=
  "{" ++ GoString.quote ++ "error" ++ GoString.quote ++ ":"
      ++ GoString.quote ++ message ++ GoString.quote ++ "}".

(** [f] answers with status [code] and body [body] on a writer nothing
    was written to yet, and leaves its headers alone. *)
Definition replies (f : ResponseWriter -> ResponseWriter) (code : Z) (body : string)
  : Prop :=
  forall rw, status rw = None ->
    status (f rw) = Some code
    /\ written (f rw) = written rw ++ body
    /\ header (f rw) = header rw.

(** The events a run added to the trace, latest first. *)
Definition added (w w' : World) (new : list event) : Prop :=
  trace w' = (new ++ trace w)%list.

(** The outcomes of the geocoding step: not found, or an internal
    failure (an error that is neither of the two errors the handler
    singles out). *)
Definition geo_not_found (r : string * option error) : Prop :=
  r = ("", Some services.ErrZipCodeNotFound).

Definition geo_internal_failure (r : string * option error) : Prop :=
  exists err, r = ("", Some err)
    /\ errors_Is err services.ErrInvalidZipCode = false
    /\ errors_Is err services.ErrZipCodeNotFound = false.

(** The body of a geocoding answer was read to its end and decoded to [v]. *)
Definition geo_parsed (P : Platform) (resp : Response) (v : ViaCEPResponse) : Prop :=
  fault (Body resp) = None
  /\ Unmarshal_ViaCEPResponse P (data (Body resp)) = inl v.

(** The body could not be read to its end, or it does not decode. *)
Definition geo_unparsable (P : Platform) (resp : Response) : Prop :=
  (exists text, fault (Body resp) = Some text)
  \/ (fault (Body resp) = None
      /\ exists e, Unmarshal_ViaCEPResponse P (data (Body resp)) = inr e).

(** The URL [GetTemperature] asks for. *)
Definition weather_URL (base apiKey city : string) : string :=
  GoString.Sprintf "%s?key=%s&q=%s" [base; apiKey; GoString.QueryEscape city].

(** ** svc-b as it is wired, and sample surroundings *)

Module svc_b.
Import services.

Definition client : http_Client := mkClient 0.

Definition cep_service : ViaCEP.ViaCEPService http_Client :=
  ViaCEP.NewViaCEPService client.

Definition weather_service : WeatherAPI.WeatherAPIService http_Client :=
  WeatherAPI.NewWeatherAPIService client.

Definition handler
  : handlers.WeatherHandler (ViaCEP.ViaCEPService http_Client)
                            (WeatherAPI.WeatherAPIService http_Client) :=
  handlers.mkWeatherHandler cep_service weather_service.

Definition GET (P : Platform) (w : ResponseWriter) (cep : string) : Go ResponseWriter :=
  @handlers.GetWeatherByCEP P _ _
    (ViaCEP.ViaCEPService_CEPService P)
    (WeatherAPI.WeatherAPIService_WeatherService P) handler w cep.

Definition POST (P : Platform) (w : ResponseWriter) (body : Reader) : Go ResponseWriter :=
  @handlers.GetWeatherByCEPPost P _ _
    (ViaCEP.ViaCEPService_CEPService P)
    (WeatherAPI.WeatherAPIService_WeatherService P) handler w body.

End svc_b.

Module Sample.
Import services.

Definition viacep_rio : string :=
  "{" ++ json_key "localidade" ++ GoString.json_string "Rio de Janeiro" ++ "}".

Definition viacep_erro : string := "{" ++ json_key "erro" ++ "true}".

Definition weather_doc (c f : string) : string :=
  "{" ++ json_key "current" ++ "{" ++ json_key "temp_c" ++ c ++ ","
      ++ json_key "temp_f" ++ f ++ "}}".

Definition weather_doc_celsius (c : string) : string :=
  "{" ++ json_key "current" ++ "{" ++ json_key "temp_c" ++ c ++ "}}".

Definition weather_no_match : string :=
  "{" ++ json_key "error" ++ "{" ++ json_key "code" ++ "1006,"
      ++ json_key "message" ++ GoString.json_string "No matching location found." ++ "}}".

Definition weather_key_disabled : string :=
  "{" ++ json_key "error" ++ "{" ++ json_key "code" ++ "2008,"
      ++ json_key "message" ++ GoString.json_string "API key has been disabled." ++ "}}".

Definition no_error : WeatherAPIError := mkAPIError 0 "".

(** A decoder that knows the sample documents. *)
Definition decode_viacep (b : string) : ViaCEPResponse + error :=
  if String.eqb b viacep_rio
  then inl (mkViaCEPResponse "" "" "" "" "Rio de Janeiro" "" false)
  else if String.eqb b viacep_erro
  then inl (mkViaCEPResponse "" "" "" "" "" "" true)
  else inr (External "invalid character").

Definition decode_weather (r : Reader) : WeatherAPIResponse + error :=
  match fault r with
  | Some text => inr (External text)
  | None =>
      let b := data r in
      if String.eqb b (weather_doc "25.0" "77.0")
      then inl (mkWeatherAPIResponse (mkCurrent 25 77) no_error)
      else if String.eqb b (weather_doc "25.0" "100.0")
      then inl (mkWeatherAPIResponse (mkCurrent 25 100) no_error)
      else if String.eqb b (weather_doc_celsius "-20.0")
      then inl (mkWeatherAPIResponse (mkCurrent (-20) 0) no_error)
      else if String.eqb b (weather_doc "-0.3" "31.5")
      then inl (mkWeatherAPIResponse (mkCurrent (-0.3) 31.5) no_error)
      else if String.eqb b (weather_doc "0.005" "32.0")
      then inl (mkWeatherAPIResponse (mkCurrent 0.005 32) no_error)
      else if String.eqb b weather_no_match
      then inl (mkWeatherAPIResponse (mkCurrent 0 0)
                  (mkAPIError 1006 "No matching location found."))
      else if String.eqb b weather_key_disabled
      then inl (mkWeatherAPIResponse (mkCurrent 0 0)
                  (mkAPIError 2008 "API key has been disabled."))
      else inr (External "invalid character")
  end.

(** The body of a POST: the member [cep] between the two fixed ends. *)
Definition decode_cep (b : string) : CepRequest + error :=
  let opening := "{" ++ json_key "cep" ++ GoString.quote in
  let closing := GoString.quote ++ "}" in
  let n := (String.length b - String.length opening - String.length closing)%nat in
  if String.prefix opening b
     && String.eqb (substring (String.length opening + n) (String.length closing) b) closing
  then inl (mkCepRequest (substring (String.length opening) n b))
  else inr (External "invalid character").

Definition print_float (x : float) : string :=
  if PrimFloat.eqb x 25 then "25"
  else if PrimFloat.eqb x 77 then "77"
  else if PrimFloat.eqb x 298.15 then "298.15"
  else "0".

Definition platform : Platform :=
  mkPlatform (fun _ => None) decode_viacep decode_weather decode_cep print_float.

(** A platform on which no URL parses. *)
Definition no_url_platform : Platform :=
  mkPlatform (fun _ => Some "parse: invalid URL")
    decode_viacep decode_weather decode_cep print_float.

Definition env (key : string) : string -> string :=
  fun name => if String.eqb name "WEATHER_API_KEY" then key else "".

(** Every request fails to be sent. *)
Definition down : list event -> Request -> DoResult :=
  fun _ _ => DoErr None "dial tcp: connection refused".

(** The geocoder knows one postal code and finds malformed ones bad
    requests; the weather service answers every city with [weather]. *)
Definition internet (weather : Response) : list event -> Request -> DoResult :=
  fun _ req =>
    if String.prefix "https://viacep.com.br/ws/" (URL req)
    then if String.eqb (URL req) "https://viacep.com.br/ws/35780000/json/"
         then DoOk (mkResponse 200 (mkReader viacep_rio None))
         else if String.eqb (URL req) "https://viacep.com.br/ws/99999999/json/"
         then DoOk (mkResponse 200 (mkReader viacep_erro None))
         else DoOk (mkResponse 400 (mkReader "<h2>Bad Request (400)</h2>" None))
    else DoOk weather.

(** The network fails twice and then answers. *)
Definition flaky (weather : Response) : list event -> Request -> DoResult :=
  fun history req =>
    if (List.length (answers history) <? 2)%nat
    then DoErr None "read: connection reset by peer"
    else DoOk weather.

Definition ok (body : string) : Response := mkResponse 200 (mkReader body None).

Definition world (key : string) (net : list event -> Request -> DoResult) : World :=
  mkWorld (env key) net [].




End Sample.

(** ** svc-a: configuration from the environment *)

Module svc_a_config.

(** [int64] arithmetic wraps around. *)
Definition wrap64 (z : Z) : Z := (z + 2 ^ 63) mod 2 ^ 64 - 2 ^ 63.

(** [time.Second], in nanoseconds. *)
Definition Second : Z := 1000000000.

Section Config.
(** [fmt.Sscanf(s, "%d", &result)], taken from the library as given:
    the integer scanned, or the error. *)
Context (Sscanf_d : string -> Z + error).

Definition getEnv (key defaultValue : string) : Go string :=
  value <- os_Getenv key ;;
  if negb (String.eqb value "") then ret value else ret defaultValue.

Definition getIntFromString (s : string) : Z * option error :=
  match Sscanf_d s with
  | inl result => (result, None)
  | inr err => (0, Some err)
  end.

Definition getEnvAsInt (key : string) (defaultValue : Z) : Go Z :=
  value <- os_Getenv key ;;
  if negb (String.eqb value "") then
    match getIntFromString value with
    | (intVal, None) => ret intVal
    | (_, Some _) => ret defaultValue
    end
  else ret defaultValue.

Definition LoadConfig : Go svc_a.Config :=
  port <- getEnv "PORT" "8080" ;;
  zipkin <- getEnv "ZIPKIN_URL" "http://zipkin:9411/api/v2/spans" ;;
  serviceB <- getEnv "SERVICE_B_URL" "http://svc-b:8081/weather" ;;
  name <- getEnv "SERVICE_NAME" "svc-a" ;;
  seconds <- getEnvAsInt "TIMEOUT_SECONDS" 10 ;;
  ret (svc_a.mkConfig port zipkin serviceB name (wrap64 (seconds * Second))).

End Config.

Definition NewApp (config : svc_a.Config) : svc_a.App := svc_a.mkApp config.

End svc_a_config.

(** ** Vocabulary of the further statements *)

(** The response an answer of the network carries, if any. *)
Definition carried (a : DoResult) : option Response :=
  match a with
  | DoOk resp => Some resp
  | DoErr resp _ => resp
  end.

(** The response of the last of the answers, [initial] when there is none. *)
Definition last_carried (initial : option Response) (a : list DoResult)
  : option Response :=
  match rev a with
  | [] => initial
  | latest :: _ => carried latest
  end.

(** The pauses of a run, oldest first. *)
Definition pauses (new : list event) : list Z := rev (sleeps_latest_first new).

Definition failures (a : list DoResult) : nat :=
  List.length (filter failed a).

(** A byte that [url.QueryEscape] may put out: unreserved, [+] or [%]. *)
Definition query_byte (c : ascii) : bool :=
  GoString.unreserved (GoString.code c)
  || (GoString.code c =? 43) || (GoString.code c =? 37).

Fixpoint every_byte (p : ascii -> bool) (s : string) : bool :=
  match s with
  | EmptyString => true
  | String c rest => p c && every_byte p rest
  end.

(** Neither of the two separators. *)
Definition no_separator (c : ascii) : bool :=
  negb (Ascii.eqb c "-"%char || Ascii.eqb c "."%char).

(** [s] without its separators: the bytes of [s] that are neither [-]
    nor [.], in the order they have in [s]. *)
Fixpoint without_separators (s : string) : string :=
  match s with
  | EmptyString => EmptyString
  | String c rest =>
      if no_separator c then String c (without_separators rest)
      else without_separators rest
  end.

(** The requests a run handed to the network, latest first. *)
Fixpoint requests (new : list event) : list Request :=
  match new with
  | [] => []
  | EvDo req _ :: rest => req :: requests rest
  | EvSleep _ :: rest => requests rest
  end.

(** The fixed replies of svc-b to a failed lookup. *)
Definition geo_error_replies : list (Z * string) :=
  [(422, "invalid zipcode"); (404, "can not find zipcode");
   (500, "internal server error")].

Definition weather_error_replies : list (Z * string) :=
  [(500, "weather service configuration error");
   (404, "city not found in weather service");
   (500, "failed to get weather data")].

(** The errors [GetTemperature] can return. *)
Definition weather_error (e : error) : Prop :=
  e = services.ErrAPIKeyNotConfigured
  \/ e = services.ErrCityNotFound
  \/ (exists cause, e = Errorf_w "failed to decode API response: " cause "")
  \/ (exists message,
        e = Errorf_w "" services.ErrWeatherAPIFailed (": " ++ message)).

(** Further surroundings for the statements above. *)
Module Sample2.

(** A scanner that knows three values of [TIMEOUT_SECONDS]. *)
Definition scan (s : string) : Z + error :=
  if String.eqb s "30" then inl 30
  else if String.eqb s "0" then inl 0
  else if String.eqb s "9223372037" then inl 9223372037
  else inr (External "expected integer").

Definition env (port timeout : string) : string -> string :=
  fun name =>
    if String.eqb name "PORT" then port
    else if String.eqb name "TIMEOUT_SECONDS" then timeout
    else "".

Definition world (port timeout : string) : World :=
  mkWorld (env port timeout) Sample.down [].





End Sample2.

(* ================================================================== *)
(** * Part II. Lemmas and theorems *)
(* ================================================================== *)

(** ** Strings *)

Section StringFacts.

Lemma prefix_empty (s : string) : String.prefix "" s = true.
Proof. destruct s; reflexivity. Qed.

Lemma prefix_single (c a : ascii) (rest : string) :
  String.prefix (String c "") (String a rest) = Ascii.eqb a c.
Proof.
  simpl. destruct (ascii_dec c a) as [E | N].
  - subst. rewrite prefix_empty. symmetry. apply Ascii.eqb_refl.
  - symmetry. apply Ascii.eqb_neq. congruence.
Qed.

(** Replacing a one-byte string by nothing removes that byte. *)
Lemma ReplaceAll_single (c : ascii) (s : string) :
  GoString.ReplaceAll s (String c "") "" = strip c s.
Proof.
  unfold GoString.ReplaceAll.
  induction s as [| a rest IH].
  - reflexivity.
  - cbn [GoString.replace_from strip]. rewrite prefix_single.
    destruct (Ascii.eqb a c).
    + cbn [String.length Nat.sub append]. exact IH.
    + now rewrite IH.
Qed.

Lemma normalize_strip (raw : string) :
  normalize raw = strip "."%char (strip "-"%char raw).
Proof.
  unfold normalize. now rewrite !ReplaceAll_single.
Qed.

Lemma is_digit_not_separator (c : ascii) :
  is_digit c = true -> Ascii.eqb c "-"%char = false /\ Ascii.eqb c "."%char = false.
Proof.
  intros D. split; apply Ascii.eqb_neq; intros ->; discriminate D.
Qed.

Lemma strip_digits (c : ascii) (s : string) :
  is_digit c = false -> all_digits s = true -> strip c s = s.
Proof.
  intros Hc. induction s as [| a rest IH]; cbn [strip all_digits]; intros D.
  - reflexivity.
  - apply andb_true_iff in D as [Da Dr].
    destruct (Ascii.eqb a c) eqn:E.
    + apply Ascii.eqb_eq in E. subst. congruence.
    + now rewrite IH.
Qed.

Lemma normalize_digits (s : string) :
  all_digits s = true -> normalize s = s.
Proof.
  intros D. rewrite normalize_strip.
  rewrite (strip_digits "-"%char s) by (reflexivity || assumption).
  now apply strip_digits.
Qed.

Lemma strip_idempotent (c : ascii) (s : string) :
  strip c (strip c s) = strip c s.
Proof.
  induction s as [| a rest IH]; cbn [strip]; [reflexivity |].
  destruct (Ascii.eqb a c) eqn:E; cbn [strip]; rewrite ?E; now rewrite IH.
Qed.

Lemma strip_commute (c d : ascii) (s : string) :
  strip c (strip d s) = strip d (strip c s).
Proof.
  induction s as [| a rest IH]; cbn [strip]; [reflexivity |].
  destruct (Ascii.eqb a d) eqn:Ed, (Ascii.eqb a c) eqn:Ec;
    cbn [strip]; rewrite ?Ed, ?Ec; now rewrite IH.
Qed.

(** Normalising twice is normalising once: the second pass of
    [GetCityByCEP] over what a handler already normalised changes
    nothing. *)
Lemma normalize_idempotent (raw : string) :
  normalize (normalize raw) = normalize raw.
Proof.
  rewrite !normalize_strip.
  rewrite (strip_commute "-"%char "."%char (strip "-"%char raw)).
  now rewrite !strip_idempotent.
Qed.

Lemma len_length (s : string) (n : nat) :
  (GoString.len s =? Z.of_nat n) = Nat.eqb (String.length s) n.
Proof.
  unfold GoString.len.
  destruct (Nat.eqb_spec (String.length s) n) as [E | N].
  - apply Z.eqb_eq. now rewrite E.
  - apply Z.eqb_neq. lia.
Qed.

Lemma len_eight (s : string) :
  (GoString.len s =? 8) = Nat.eqb (String.length s) 8.
Proof. exact (len_length s 8). Qed.

Lemma code_bounds (c : ascii) : 0 <= GoString.code c < 256.
Proof.
  unfold GoString.code.
  pose proof (N_ascii_bounded c). lia.
Qed.

End StringFacts.

(** ** UTF-8 and the digit test of the edge service *)

Ltac range_facts :=
  repeat match goal with
  | H : GoString.in_range _ _ _ = true |- _ =>
      unfold GoString.in_range in H
  | H : (_ && _)%bool = true |- _ =>
      apply andb_true_iff in H; destruct H
  | H : (_ <=? _) = true |- _ => apply Z.leb_le in H
  | H : (_ <? _) = false |- _ => apply Z.ltb_ge in H
  | H : (_ <? _) = true |- _ => apply Z.ltb_lt in H
  | H : (_ =? _) = true |- _ => apply Z.eqb_eq in H
  | H : (_ =? _) = false |- _ => apply Z.eqb_neq in H
  end.

Section Utf8Facts.

(** A byte outside ASCII never starts a rune below 128: it starts a
    code point of two to four bytes, or it is an error. *)
Lemma decode_rune_high (c0 : ascii) (t : string) :
  128 <= GoString.code c0 ->
  128 <= fst (GoString.decode_rune (String c0 t)).
Proof.
  intros High. unfold GoString.decode_rune, GoString.RuneError. cbv zeta.
  destruct (GoString.code c0 <? 128) eqn:A; [range_facts; lia |].
  destruct (GoString.in_range 194 223 (GoString.code c0)) eqn:R2.
  { destruct t as [| c1 t1]; cbn [fst]; [lia |].
    destruct (GoString.in_range 128 191 (GoString.code c1)) eqn:C1;
      cbn [fst]; range_facts; lia. }
  destruct (GoString.in_range 224 239 (GoString.code c0)) eqn:R3.
  { destruct t as [| c1 [| c2 t2]]; cbn [fst]; try lia.
    destruct (GoString.code c0 =? 224) eqn:E0;
      destruct (GoString.code c0 =? 237) eqn:E1;
      match goal with
      | |- context [if ?b then _ else _] => destruct b eqn:C
      end; cbn [fst]; range_facts; lia. }
  destruct (GoString.in_range 240 244 (GoString.code c0)) eqn:R4.
  { destruct t as [| c1 [| c2 [| c3 t3]]]; cbn [fst]; try lia.
    destruct (GoString.code c0 =? 240) eqn:E0;
      destruct (GoString.code c0 =? 244) eqn:E1;
      match goal with
      | |- context [if ?b then _ else _] => destruct b eqn:C
      end; cbn [fst]; range_facts; lia. }
  cbn [fst]. lia.
Qed.

Lemma decode_rune_ascii (c0 : ascii) (t : string) :
  GoString.code c0 < 128 ->
  GoString.decode_rune (String c0 t) = (GoString.code c0, 1%nat).
Proof.
  intros Low. unfold GoString.decode_rune. cbv zeta.
  now rewrite (proj2 (Z.ltb_lt _ _) Low).
Qed.

(** The rune loop of [isValidCEP] accepts a string exactly when every
    byte of it is a decimal digit. *)
Lemma only_digits_runes (s : string) :
  svc_a.only_digits (GoString.range_runes s) = all_digits s.
Proof.
  unfold GoString.range_runes.
  induction s as [| c rest IH]; [reflexivity |].
  cbn [GoString.runes_from svc_a.only_digits all_digits].
  change (GoString.code "0"%char) with 48.
  change (GoString.code "9"%char) with 57.
  unfold is_digit, GoString.in_range.
  destruct (Z_lt_ge_dec (GoString.code c) 128) as [Low | High].
  - rewrite (decode_rune_ascii c rest Low). cbn [fst snd Nat.sub].
    rewrite IH.
    destruct (GoString.code c <? 48) eqn:A, (GoString.code c >? 57) eqn:B;
      destruct (48 <=? GoString.code c) eqn:A', (GoString.code c <=? 57) eqn:B';
      cbn [orb andb]; try reflexivity; exfalso;
      rewrite ?Z.gtb_ltb in *; range_facts;
      repeat match goal with
      | H : (_ <=? _) = false |- _ => apply Z.leb_gt in H
      end; lia.
  - pose proof (decode_rune_high c rest ltac:(lia)) as Hr.
    destruct (fst (GoString.decode_rune (String c rest)) <? 48) eqn:A;
      [range_facts; lia |].
    destruct (fst (GoString.decode_rune (String c rest)) >? 57) eqn:B.
    + cbn [orb].
      destruct (GoString.code c <=? 57) eqn:B'; [range_facts; lia |].
      now rewrite andb_false_r.
    + rewrite Z.gtb_ltb in B. range_facts. lia.
Qed.

(** [isValidCEP]: eight bytes, each a decimal digit, nothing stripped. *)
Lemma isValidCEP_spec (cep : string) :
  svc_a.isValidCEP cep = Nat.eqb (String.length cep) 8 && all_digits cep.
Proof.
  unfold svc_a.isValidCEP.
  rewrite len_eight, only_digits_runes.
  now destruct (Nat.eqb (String.length cep) 8).
Qed.

(** The validation of svc-b looks at the length only. *)
Lemma passes_validation_spec (raw : string) :
  passes_validation raw
  = Nat.eqb (String.length (strip "."%char (strip "-"%char raw))) 8.
Proof.
  unfold passes_validation.
  now rewrite len_eight, normalize_strip.
Qed.

End Utf8Facts.

(** ** Replies *)

Section ReplyFacts.
Context (P : Platform).

Lemma WriteHeader_unwritten (code : Z) (rw : ResponseWriter) :
  status rw = None ->
  WriteHeader code rw = mkResponseWriter (header rw) (Some code) (written rw).
Proof. intros U. unfold WriteHeader. now rewrite U. Qed.

(** A body follows a status that allows one. *)
Lemma Write_after_WriteHeader (code : Z) (b : string) (rw : ResponseWriter) :
  status rw = None ->
  bodyAllowedForStatus code = true ->
  Write b (WriteHeader code rw)
  = mkResponseWriter (header rw) (Some code) (written rw ++ b).
Proof.
  intros U A. rewrite (WriteHeader_unwritten code rw U).
  unfold Write, WriteHeader, bodyAllowed. cbn [status header written]. now rewrite A.
Qed.

(** Whether the body is kept or not, the status stands and the headers
    are left alone. *)
Lemma Write_status (code : Z) (b : string) (rw : ResponseWriter) :
  status rw = None -> status (Write b (WriteHeader code rw)) = Some code.
Proof.
  intros U. rewrite (WriteHeader_unwritten code rw U).
  unfold Write, WriteHeader, bodyAllowed. cbn [status header written].
  now destruct (bodyAllowedForStatus code).
Qed.

Lemma Write_header (b : string) (rw : ResponseWriter) :
  header (Write b rw) = header rw.
Proof.
  unfold Write, WriteHeader, bodyAllowed.
  destruct (status rw) as [code |] eqn:E; cbn [status header written].
  - rewrite E. now destruct (bodyAllowedForStatus code).
  - reflexivity.
Qed.

Lemma respondWithError_replies (code : Z) (message : string) :
  bodyAllowedForStatus code = true ->
  replies (fun rw => handlers.respondWithError P rw code message) code
    ("{" ++ json_key "error" ++ GoString.json_string message ++ "}").
Proof.
  intros A rw U.
  unfold handlers.respondWithError, handlers.respondWithJSON, handlers.json_Marshal.
  rewrite (Write_after_WriteHeader code _ rw U A). now cbn.
Qed.

Lemma Header_Set_unwritten (k v : string) (rw : ResponseWriter) :
  status rw = None -> status (Header_Set k v rw) = None.
Proof. now intros U. Qed.

(** The three answers of [handleCEPError]. *)
Lemma handleCEPError_invalid (err : error) :
  errors_Is err services.ErrInvalidZipCode = true ->
  replies (fun rw => handlers.handleCEPError P rw err)
    StatusUnprocessableEntity (error_body "invalid zipcode").
Proof.
  intros I rw U. unfold handlers.handleCEPError. rewrite I.
  exact (respondWithError_replies StatusUnprocessableEntity "invalid zipcode" eq_refl rw U).
Qed.

Lemma handleCEPError_not_found (err : error) :
  errors_Is err services.ErrInvalidZipCode = false ->
  errors_Is err services.ErrZipCodeNotFound = true ->
  replies (fun rw => handlers.handleCEPError P rw err)
    StatusNotFound (error_body "can not find zipcode").
Proof.
  intros I N rw U. unfold handlers.handleCEPError. rewrite I, N.
  exact (respondWithError_replies StatusNotFound "can not find zipcode" eq_refl rw U).
Qed.

Lemma handleCEPError_other (err : error) :
  errors_Is err services.ErrInvalidZipCode = false ->
  errors_Is err services.ErrZipCodeNotFound = false ->
  replies (fun rw => handlers.handleCEPError P rw err)
    StatusInternalServerError (error_body "internal server error").
Proof.
  intros I N rw U. unfold handlers.handleCEPError. rewrite I, N.
  exact (respondWithError_replies StatusInternalServerError "internal server error" eq_refl rw U).
Qed.

(** The three answers of [handleWeatherError]. *)
Lemma handleWeatherError_configuration (err : error) :
  errors_Is err services.ErrAPIKeyNotConfigured = true ->
  replies (fun rw => handlers.handleWeatherError P rw err)
    StatusInternalServerError (error_body "weather service configuration error").
Proof.
  intros K rw U. unfold handlers.handleWeatherError. rewrite K.
  exact (respondWithError_replies StatusInternalServerError "weather service configuration error" eq_refl rw U).
Qed.

Lemma handleWeatherError_city_not_found (err : error) :
  errors_Is err services.ErrAPIKeyNotConfigured = false ->
  errors_Is err services.ErrCityNotFound = true ->
  replies (fun rw => handlers.handleWeatherError P rw err)
    StatusNotFound (error_body "city not found in weather service").
Proof.
  intros K N rw U. unfold handlers.handleWeatherError. rewrite K, N.
  exact (respondWithError_replies StatusNotFound "city not found in weather service" eq_refl rw U).
Qed.

Lemma handleWeatherError_other (err : error) :
  errors_Is err services.ErrAPIKeyNotConfigured = false ->
  errors_Is err services.ErrCityNotFound = false ->
  replies (fun rw => handlers.handleWeatherError P rw err)
    StatusInternalServerError (error_body "failed to get weather data").
Proof.
  intros K N rw U. unfold handlers.handleWeatherError. rewrite K, N.
  exact (respondWithError_replies StatusInternalServerError "failed to get weather data" eq_refl rw U).
Qed.

(** Whatever the error, [handleWeatherError] answers 404 or 500. *)
Lemma handleWeatherError_status (err : error) (rw : ResponseWriter) :
  status rw = None ->
  status (handlers.handleWeatherError P rw err) = Some StatusNotFound
  \/ status (handlers.handleWeatherError P rw err) = Some StatusInternalServerError.
Proof.
  intros U.
  destruct (errors_Is err services.ErrAPIKeyNotConfigured) eqn:K.
  - right. exact (proj1 (handleWeatherError_configuration err K rw U)).
  - destruct (errors_Is err services.ErrCityNotFound) eqn:N.
    + left. exact (proj1 (handleWeatherError_city_not_found err K N rw U)).
    + right. exact (proj1 (handleWeatherError_other err K N rw U)).
Qed.

(** A library error, however it is wrapped, is none of the package's
    own error values. *)
Lemma wrapped_external_is_no_sentinel (before text after target : string) :
  errors_Is (Errorf_w before (External text) after) (Sentinel target) = false.
Proof. reflexivity. Qed.

End ReplyFacts.

(** ** The geocoding step *)

Section GeoFacts.
Context (P : Platform).
Import services.

(** [GetCityByCEP] on a code that normalises to eight bytes, when the
    request can be built: one request goes out and the answer decides. *)
Lemma GetCityByCEP_sent (s : ViaCEP.ViaCEPService http_Client) (cep : string)
  (w : World) (req : Request) :
  GoString.len (normalize cep) = 8 ->
  NewRequestWithContext P "GET" (GoString.Sprintf (ViaCEP.baseURL s) [normalize cep]) ""
    = inl req ->
  ViaCEP.GetCityByCEP P s cep w
  = match upstream w (trace w) req with
    | DoErr _ err =>
        ret ("", Some (Errorf_w "failed to send request: " (External err) ""))
    | DoOk resp =>
        if negb (StatusCode resp =? StatusOK)
        then ret ("", Some ErrZipCodeNotFound)
        else
          match fault (Body resp) with
          | Some _ => ret ("", Some ErrInternalServer)
          | None =>
              match Unmarshal_ViaCEPResponse P (data (Body resp)) with
              | inr _ => ret ("", Some ErrInternalServer)
              | inl v =>
                  if Erro v then ret ("", Some ErrZipCodeNotFound)
                  else if String.eqb (Localidade v) ""
                  then ret ("", Some ErrZipCodeNotFound)
                  else ret (Localidade v, None)
              end
          end
    end (record (EvDo req (upstream w (trace w) req)) w).
Proof.
  intros L B. unfold ViaCEP.GetCityByCEP. cbv zeta.
  change (GoString.ReplaceAll (GoString.ReplaceAll cep "-" "") "." "")
    with (normalize cep).
  rewrite L, B. cbn [Z.eqb Pos.eqb negb].
  unfold bind, Do, http_Client_Do, net_Do.
  destruct (upstream w (trace w) req) as [resp | resp err]; [| reflexivity].
  destruct (negb (StatusCode resp =? StatusOK)); [reflexivity |].
  unfold io_ReadAll. destruct (fault (Body resp)); reflexivity.
Qed.

Lemma GetCityByCEP_not_built (s : ViaCEP.ViaCEPService http_Client) (cep : string)
  (w : World) (err : error) :
  GoString.len (normalize cep) = 8 ->
  NewRequestWithContext P "GET" (GoString.Sprintf (ViaCEP.baseURL s) [normalize cep]) ""
    = inr err ->
  ViaCEP.GetCityByCEP P s cep w
  = (Normal ("", Some (Errorf_w "failed to create request: " err "")), w).
Proof.
  intros L B. unfold ViaCEP.GetCityByCEP. cbv zeta.
  change (GoString.ReplaceAll (GoString.ReplaceAll cep "-" "") "." "")
    with (normalize cep).
  now rewrite L, B.
Qed.

Lemma NewRequest_error_external (method url body : string) (err : error) :
  NewRequestWithContext P method url body = inr err ->
  exists text, err = External text.
Proof.
  unfold NewRequestWithContext.
  destruct (url_Parse_error P url) as [text |]; intros E; inversion E.
  now exists text.
Qed.

Lemma GetCityByCEP_too_short_or_long (s : ViaCEP.ViaCEPService http_Client)
  (cep : string) (w : World) :
  GoString.len (normalize cep) <> 8 ->
  ViaCEP.GetCityByCEP P s cep w = (Normal ("", Some ErrInvalidZipCode), w).
Proof.
  intros L. unfold ViaCEP.GetCityByCEP. cbv zeta.
  change (GoString.ReplaceAll (GoString.ReplaceAll cep "-" "") "." "")
    with (normalize cep).
  now rewrite (proj2 (Z.eqb_neq _ _) L).
Qed.

End GeoFacts.

Section GeoClassification.
Context (P : Platform).
Import services.

Lemma geo_internal_failure_wrapped (before text : string) :
  geo_internal_failure ("", Some (Errorf_w before (External text) "")).
Proof. eexists. repeat split. Qed.

Lemma geo_internal_failure_sentinel :
  geo_internal_failure ("", Some ErrInternalServer).
Proof. eexists. repeat split. Qed.

Lemma geo_outcomes_disjoint (r : string * option error) :
  geo_not_found r -> geo_internal_failure r -> False.
Proof.
  intros N (err & E & _ & F). rewrite N in E. inversion E. subst err.
  discriminate F.
Qed.

(** C6. [GetCityByCEP] on a postal code that normalises to eight bytes
    returns, and what it returns follows the answer of the geocoder:
    a request that cannot be built or sent, a body that cannot be read
    or decoded are internal failures (HTTP 500); a status other than
    200, the flag [erro], an empty [localidade] are "not found"
    (HTTP 404 with the body [{"error":"can not find zipcode"}]);
    otherwise the city is [localidade].  At most one request is sent. *)
Theorem GetCityByCEP_classification
  (s : ViaCEP.ViaCEPService http_Client) (cep : string) (w : World) :
  GoString.len (normalize cep) = 8 ->
  let built :=
    NewRequestWithContext P "GET"
      (GoString.Sprintf (ViaCEP.baseURL s) [normalize cep]) "" in
  (exists r w',
      ViaCEP.GetCityByCEP P s cep w = (Normal r, w')
      /\ (forall err, built = inr err -> geo_internal_failure r /\ w' = w)
      /\ (forall req, built = inl req ->
            let answer := upstream w (trace w) req in
            w' = record (EvDo req answer) w
            /\ (failed answer = true -> geo_internal_failure r)
            /\ (forall resp, answer = DoOk resp ->
                  (StatusCode resp <> 200 -> geo_not_found r)
                  /\ (StatusCode resp = 200 -> geo_unparsable P resp ->
                      geo_internal_failure r)
                  /\ (forall v, StatusCode resp = 200 -> geo_parsed P resp v ->
                        (Erro v = true -> geo_not_found r)
                        /\ (Localidade v = "" -> geo_not_found r)
                        /\ (Erro v = false -> Localidade v <> "" ->
                            r = (Localidade v, None))))))
  /\ replies (fun rw => handlers.handleCEPError P rw ErrZipCodeNotFound)
       404 (error_body "can not find zipcode")
  /\ (forall err,
        errors_Is err ErrInvalidZipCode = false ->
        errors_Is err ErrZipCodeNotFound = false ->
        replies (fun rw => handlers.handleCEPError P rw err)
          500 (error_body "internal server error")).
Proof.
  intros L built. split; [| split].
  2: { apply handleCEPError_not_found; reflexivity. }
  2: { intros err I N. now apply handleCEPError_other. }
  destruct built as [req | err0] eqn:B; subst built.
  - rewrite (GetCityByCEP_sent P s cep w req L B).
    destruct (upstream w (trace w) req) as [resp | oresp text] eqn:A.
    + destruct (StatusCode resp =? StatusOK) eqn:S; cbn [negb].
      * apply Z.eqb_eq in S.
        destruct (fault (Body resp)) as [ftext |] eqn:F.
        { eexists; eexists; split; [reflexivity |]. split; [discriminate |].
          intros req' E. inversion E; subst req'. cbv zeta. rewrite A.
          split; [reflexivity |]. split; [discriminate |].
          intros resp' E'. inversion E'; subst resp'.
          split; [intros NE; now elim NE |].
          split; [intros _ _; apply geo_internal_failure_sentinel |].
          intros v _ [F' _]. congruence. }
        destruct (Unmarshal_ViaCEPResponse P (data (Body resp))) as [v0 | e0] eqn:U.
        { destruct (Erro v0) eqn:Er;
            [| destruct (String.eqb (Localidade v0) "") eqn:Lo].
          all: eexists; eexists; split; [reflexivity |]; split; [discriminate |].
          all: intros req' E; inversion E; subst req'; cbv zeta; rewrite A.
          all: split; [reflexivity |]; split; [discriminate |].
          all: intros resp' E'; inversion E'; subst resp'.
          all: split; [intros NE; now elim NE |].
          all: split;
            [ intros _ [[t Ft] | [_ [e Ue]]]; congruence |].
          all: intros v _ [_ Uv]; rewrite U in Uv; inversion Uv; subst v.
          - repeat split; congruence.
          - apply String.eqb_eq in Lo. repeat split; congruence.
          - apply String.eqb_neq in Lo. repeat split; congruence. }
        { eexists; eexists; split; [reflexivity |]. split; [discriminate |].
          intros req' E. inversion E; subst req'. cbv zeta. rewrite A.
          split; [reflexivity |]. split; [discriminate |].
          intros resp' E'. inversion E'; subst resp'.
          split; [intros NE; now elim NE |].
          split; [intros _ _; apply geo_internal_failure_sentinel |].
          intros v _ [_ Uv]. congruence. }
      * apply Z.eqb_neq in S.
        eexists; eexists; split; [reflexivity |]. split; [discriminate |].
        intros req' E. inversion E; subst req'. cbv zeta. rewrite A.
        split; [reflexivity |]. split; [discriminate |].
        intros resp' E'. inversion E'; subst resp'.
        split; [reflexivity |].
        split; [intros E200; now elim S |].
        intros v E200. now elim S.
    + eexists; eexists; split; [reflexivity |]. split; [discriminate |].
      intros req' E. inversion E; subst req'. cbv zeta. rewrite A.
      split; [reflexivity |].
      split; [intros _; apply geo_internal_failure_wrapped |].
      intros resp' E'. discriminate E'.
  - rewrite (GetCityByCEP_not_built P s cep w err0 L B).
    eexists; eexists; split; [reflexivity |]. split.
    + intros err E. inversion E; subst err.
      destruct (NewRequest_error_external P _ _ _ _ B) as [text ->].
      split; [apply geo_internal_failure_wrapped | reflexivity].
    + intros req E. discriminate E.
Qed.

End GeoClassification.

(** ** The retry loop of the weather step *)

Section TraceFacts.

Lemma answers_latest_first_app (a b : list event) :
  answers_latest_first (a ++ b) = (answers_latest_first a ++ answers_latest_first b)%list.
Proof.
  induction a as [| e a IH]; [reflexivity |].
  destruct e; cbn [app answers_latest_first]; now rewrite IH.
Qed.

Lemma answers_app (a b : list event) :
  answers (a ++ b) = (answers b ++ answers a)%list.
Proof.
  unfold answers. now rewrite answers_latest_first_app, rev_app_distr.
Qed.

Lemma added_refl (w : World) : added w w [].
Proof. reflexivity. Qed.

Lemma added_record (e : event) (w : World) : added w (record e w) [e].
Proof. reflexivity. Qed.

Lemma added_trans (w1 w2 w3 : World) (a b : list event) :
  added w1 w2 a -> added w2 w3 b -> added w1 w3 (b ++ a).
Proof.
  unfold added. intros A B. rewrite B, A. apply app_assoc.
Qed.

(** One more failed request in front of a run in which only the last
    request may have been answered. *)
Lemma failed_then (r : DoResult) (l : list DoResult) :
  failed r = true ->
  Forall (fun a => failed a = true) (removelast l) ->
  Forall (fun a => failed a = true) (removelast (r :: l)).
Proof.
  intros F H. destruct l as [| x l]; [constructor |].
  change (removelast (r :: x :: l)) with (r :: removelast (x :: l)).
  now constructor.
Qed.

(** Events that are no answered request, put before a run whose only
    answered request, if any, is its latest event. *)
Lemma unanswered_then (new before : list event) :
  forallb unanswered (tl new) = true ->
  forallb unanswered before = true ->
  forallb unanswered (tl (new ++ before)) = true.
Proof.
  intros N B. destruct new as [| e new]; cbn [app tl] in *.
  - destruct before as [| b before]; [reflexivity |].
    cbn [forallb tl] in *. now apply andb_true_iff in B.
  - rewrite forallb_app. now rewrite N, B.
Qed.

End TraceFacts.

Section RetryFacts.
Context (P : Platform).
Import services.

(** The loop returns (it never panics), and the [err] declared before
    it comes out as it went in. *)
Lemma retry_loop_returns {C : Type} `{HTTPClient C}
  (client : C) (reqURL : string) (remaining : nat)
  (resp : option Response) (err : option error) (w : World) :
  (forall (req : Request) (w0 : World), exists res w1, Do client req w0 = (Normal res, w1)) ->
  exists resp' w',
    WeatherAPI.retry_loop P client reqURL remaining resp err w = (Normal (resp', err), w').
Proof.
  intros Total. revert resp w.
  induction remaining as [| k IH]; intros resp w; cbn [WeatherAPI.retry_loop].
  - now exists resp, w.
  - destruct (NewRequestWithContext P "GET" reqURL "") as [req | e].
    + unfold bind. destruct (Total req w) as (res & w1 & E). rewrite E.
      destruct res as [resp' | resp' text].
      * now exists (Some resp'), w1.
      * destruct (WeatherAPI.maxRetries - Z.of_nat k <? WeatherAPI.maxRetries);
          cbn; apply IH.
    + unfold bind. cbn. apply IH.
Qed.

Lemma Do_http_Client (client : http_Client) (req : Request) (w : World) :
  Do client req w
  = (Normal (upstream w (trace w) req), record (EvDo req (upstream w (trace w) req)) w).
Proof. reflexivity. Qed.

Lemma net_Do_total (client : http_Client) (req : Request) (w0 : World) :
  exists res w1, Do client req w0 = (Normal res, w1).
Proof. now eexists; eexists. Qed.

(** What the loop adds to the trace: at most [remaining] requests, every
    request but the last one ended in a transport error, and an
    answered request is the latest event of all. *)
Lemma retry_loop_trace (client : http_Client) (reqURL : string) (remaining : nat)
  (resp : option Response) (err : option error) (w : World) :
  exists new,
    added w (snd (WeatherAPI.retry_loop P client reqURL remaining resp err w)) new
    /\ (List.length (answers new) <= remaining)%nat
    /\ Forall (fun a => failed a = true) (removelast (answers new))
    /\ forallb unanswered (tl new) = true.
Proof.
  revert resp w.
  induction remaining as [| k IH]; intros resp w; cbn [WeatherAPI.retry_loop].
  - exists []. repeat split; [apply Nat.le_refl | constructor].
  - destruct (NewRequestWithContext P "GET" reqURL "") as [req | e].
    + unfold bind. rewrite Do_http_Client.
      destruct (upstream w (trace w) req) as [resp' | resp' text] eqn:A.
      * exists [EvDo req (DoOk resp')]. cbn.
        repeat split; [lia | constructor].
      * destruct (WeatherAPI.maxRetries - Z.of_nat k <? WeatherAPI.maxRetries).
        -- unfold time_Sleep; cbv beta iota.
           destruct (IH resp'
                       (record (EvSleep ((WeatherAPI.maxRetries - Z.of_nat k) * 100))
                          (record (EvDo req (DoErr resp' text)) w)))
             as (new & Ad & Len & Fa & Un).
           exists (new ++ [EvSleep ((WeatherAPI.maxRetries - Z.of_nat k) * 100);
                           EvDo req (DoErr resp' text)])%list.
           split; [| split; [| split]].
           ++ unfold added in *. rewrite Ad. cbn [record trace].
              now rewrite <- app_assoc.
           ++ rewrite answers_app. cbn. lia.
           ++ rewrite answers_app. now apply failed_then.
           ++ now apply unanswered_then.
        -- unfold ret; cbv beta iota.
           destruct (IH resp' (record (EvDo req (DoErr resp' text)) w))
             as (new & Ad & Len & Fa & Un).
           exists (new ++ [EvDo req (DoErr resp' text)])%list.
           split; [| split; [| split]].
           ++ unfold added in *. rewrite Ad. cbn [record trace].
              now rewrite <- app_assoc.
           ++ rewrite answers_app. cbn. lia.
           ++ rewrite answers_app. now apply failed_then.
           ++ now apply unanswered_then.
    + unfold bind, time_Sleep; cbv beta iota.
      destruct (IH resp (record (EvSleep ((WeatherAPI.maxRetries - Z.of_nat k) * 100)) w))
        as (new & Ad & Len & Fa & Un).
      exists (new ++ [EvSleep ((WeatherAPI.maxRetries - Z.of_nat k) * 100)])%list.
      split; [| split; [| split]].
      * unfold added in *. rewrite Ad. cbn [record trace].
        now rewrite <- app_assoc.
      * rewrite answers_app. cbn. lia.
      * rewrite answers_app. cbn [answers answers_latest_first rev app].
        exact Fa.
      * now apply unanswered_then.
Qed.

(** With the network down the loop ends with no response at all. *)
Lemma retry_loop_down (client : http_Client) (reqURL : string) (remaining : nat)
  (err : option error) (w : World) :
  (forall h req, exists text, upstream w h req = DoErr None text) ->
  exists w',
    WeatherAPI.retry_loop P client reqURL remaining None err w = (Normal (None, err), w').
Proof.
  revert w.
  induction remaining as [| k IH]; intros w Down; cbn [WeatherAPI.retry_loop].
  - now exists w.
  - destruct (NewRequestWithContext P "GET" reqURL "") as [req | e].
    + unfold bind. rewrite Do_http_Client.
      destruct (Down (trace w) req) as [text A]. rewrite A.
      destruct (WeatherAPI.maxRetries - Z.of_nat k <? WeatherAPI.maxRetries);
        cbn; apply IH; exact Down.
    + unfold bind. cbn. apply IH. exact Down.
Qed.

End RetryFacts.

(** ** The weather step *)

Section WeatherFacts.
Context (P : Platform).
Import services.

Lemma eqb_empty_false (s : string) : s <> "" -> String.eqb s "" = false.
Proof. intros N. now apply String.eqb_neq. Qed.

(** [GetTemperature] past the credential check: the loop runs, then its
    result is looked at. *)
Lemma GetTemperature_unfold {C : Type} `{HTTPClient C}
  (s : WeatherAPI.WeatherAPIService C) (city : string) (w : World) :
  environ w "WEATHER_API_KEY" <> "" ->
  WeatherAPI.GetTemperature P s city w
  = bind (WeatherAPI.retry_loop P (WeatherAPI.client s)
            (weather_URL (WeatherAPI.baseURL s) (environ w "WEATHER_API_KEY") city)
            (Z.to_nat WeatherAPI.maxRetries) None None)
      (fun after =>
         match after with
         | (_, Some err) =>
             ret (None, Some (Errorf_w "all weather API requests failed: " err ""))
         | (None, None) => panic nil_dereference
         | (Some resp, None) =>
             match Decode_WeatherAPIResponse P (Body resp) with
             | inr err =>
                 ret (None, Some (Errorf_w "failed to decode API response: " err ""))
             | inl weatherResp =>
                 if negb (StatusCode resp =? StatusOK) then
                   if Code (Error_ weatherResp) =? 1006
                   then ret (None, Some ErrCityNotFound)
                   else ret (None, Some (Errorf_w "" ErrWeatherAPIFailed
                                           (": " ++ Message (Error_ weatherResp))))
                 else
                   ret (Some (models.mkTemperature
                                (WeatherAPI.round (temp_c (Current weatherResp)) 2)
                                (WeatherAPI.round
                                   (if Float64.nonzero (temp_f (Current weatherResp))
                                    then temp_f (Current weatherResp)
                                    else (temp_c (Current weatherResp) * 1.8 + 32)%float) 2)
                                (WeatherAPI.round
                                   (temp_c (Current weatherResp) + 273.15)%float 2)),
                        None)
             end
         end) w.
Proof.
  intros K. unfold WeatherAPI.GetTemperature.
  unfold bind at 1. unfold os_Getenv.
  rewrite (eqb_empty_false _ K). reflexivity.
Qed.

(** The exhaustion branch after the loop is never taken: the [err] it
    tests is the one declared before the loop, which nothing assigns. *)
Lemma GetTemperature_never_reports_exhaustion
  (s : WeatherAPI.WeatherAPIService http_Client) (city : string) (w w' : World)
  (e : error) :
  WeatherAPI.GetTemperature P s city w
  <> (Normal (None, Some (Errorf_w "all weather API requests failed: " e "")), w').
Proof.
  destruct (String.eqb (environ w "WEATHER_API_KEY") "") eqn:K.
  - unfold WeatherAPI.GetTemperature, bind, os_Getenv. rewrite K.
    unfold ret. intros E. inversion E.
  - apply String.eqb_neq in K. rewrite (GetTemperature_unfold s city w K).
    unfold bind.
    destruct (retry_loop_returns P (WeatherAPI.client s)
                (weather_URL (WeatherAPI.baseURL s) (environ w "WEATHER_API_KEY") city)
                (Z.to_nat WeatherAPI.maxRetries) None None w
                (net_Do_total (WeatherAPI.client s)))
      as (resp' & w1 & E1).
    rewrite E1. destruct resp' as [resp |]; [| intros E; inversion E].
    destruct (Decode_WeatherAPIResponse P (Body resp)) as [wr | de].
    + destruct (negb (StatusCode resp =? StatusOK)).
      * destruct (Code (Error_ wr) =? 1006); intros E; inversion E.
      * intros E; inversion E.
    + intros E; inversion E.
Qed.

(** One call of [GetTemperature] only adds to the trace. *)
Lemma GetTemperature_added
  (s : WeatherAPI.WeatherAPIService http_Client) (city : string) (w : World) :
  exists new, added w (snd (WeatherAPI.GetTemperature P s city w)) new.
Proof.
  destruct (String.eqb (environ w "WEATHER_API_KEY") "") eqn:K.
  - exists []. unfold WeatherAPI.GetTemperature, bind, os_Getenv. now rewrite K.
  - apply String.eqb_neq in K. rewrite (GetTemperature_unfold s city w K).
    unfold bind.
    pose proof (retry_loop_trace P (WeatherAPI.client s)
                  (weather_URL (WeatherAPI.baseURL s) (environ w "WEATHER_API_KEY") city)
                  (Z.to_nat WeatherAPI.maxRetries) None None w)
      as (new & Ad & _).
    exists new.
    destruct (WeatherAPI.retry_loop P (WeatherAPI.client s)
                (weather_URL (WeatherAPI.baseURL s) (environ w "WEATHER_API_KEY") city)
                (Z.to_nat WeatherAPI.maxRetries) None None w) as [[[resp' err'] | reason] w1].
    + cbn [snd] in Ad.
      destruct resp' as [resp |], err' as [err |]; try exact Ad.
      destruct (Decode_WeatherAPIResponse P (Body resp)) as [wr | de]; [| exact Ad].
      destruct (negb (StatusCode resp =? StatusOK)); [| exact Ad].
      destruct (Code (Error_ wr) =? 1006); exact Ad.
    + exact Ad.
Qed.

End WeatherFacts.

Section WeatherClaims.
Context (P : Platform).
Import services.

(** C8. With no credential in the environment, [GetTemperature] fails
    with [ErrAPIKeyNotConfigured] and leaves the world as it found it:
    whatever HTTP client the service holds, it is not called.  The
    handler turns the error into HTTP 500. *)
Theorem GetTemperature_missing_key {C : Type} `{HTTPClient C}
  (s : WeatherAPI.WeatherAPIService C) (city : string) (w : World) :
  environ w "WEATHER_API_KEY" = "" ->
  WeatherAPI.GetTemperature P s city w
    = (Normal (None, Some ErrAPIKeyNotConfigured), w)
  /\ replies (fun rw => handlers.handleWeatherError P rw ErrAPIKeyNotConfigured)
       500 (error_body "weather service configuration error").
Proof.
  intros K. split.
  - unfold WeatherAPI.GetTemperature, bind, os_Getenv. now rewrite K.
  - apply handleWeatherError_configuration. reflexivity.
Qed.

(** C3, what the code does.  With a credential configured and every
    attempt failing at the transport level, [GetTemperature] does not
    return an error: it panics on the nil response, after at most three
    requests. *)
Theorem GetTemperature_panics_when_all_attempts_fail
  (s : WeatherAPI.WeatherAPIService http_Client) (city : string) (w : World) :
  environ w "WEATHER_API_KEY" <> "" ->
  (forall history req, exists text, upstream w history req = DoErr None text) ->
  exists w' new,
    WeatherAPI.GetTemperature P s city w = (Panicked nil_dereference, w')
    /\ added w w' new
    /\ (List.length (answers new) <= 3)%nat.
Proof.
  intros K Down. rewrite (GetTemperature_unfold P s city w K). unfold bind.
  pose proof (retry_loop_trace P (WeatherAPI.client s)
                (weather_URL (WeatherAPI.baseURL s) (environ w "WEATHER_API_KEY") city)
                (Z.to_nat WeatherAPI.maxRetries) None None w) as (new & Ad & Len & _ & _).
  destruct (retry_loop_down P (WeatherAPI.client s)
              (weather_URL (WeatherAPI.baseURL s) (environ w "WEATHER_API_KEY") city)
              (Z.to_nat WeatherAPI.maxRetries) None w Down) as (w' & E).
  rewrite E in *. exists w', new. repeat split; assumption.
Qed.

(** C4. Whatever the network does, one call of [GetTemperature] sends
    at most three requests; every request but the last one sent ended
    in a transport error; and a request that was answered, with
    whatever status, is the last thing the call does: no request and no
    pause follows it. *)
Theorem GetTemperature_at_most_three_requests
  (s : WeatherAPI.WeatherAPIService http_Client) (city : string) (w : World) :
  exists new,
    added w (snd (WeatherAPI.GetTemperature P s city w)) new
    /\ (List.length (answers new) <= 3)%nat
    /\ Forall (fun a => failed a = true) (removelast (answers new))
    /\ forallb unanswered (tl new) = true.
Proof.
  destruct (String.eqb (environ w "WEATHER_API_KEY") "") eqn:K.
  - exists []. unfold WeatherAPI.GetTemperature, bind, os_Getenv. rewrite K.
    repeat split; [cbn; lia | constructor].
  - apply String.eqb_neq in K. rewrite (GetTemperature_unfold P s city w K).
    unfold bind.
    pose proof (retry_loop_trace P (WeatherAPI.client s)
                  (weather_URL (WeatherAPI.baseURL s) (environ w "WEATHER_API_KEY") city)
                  (Z.to_nat WeatherAPI.maxRetries) None None w)
      as (new & Ad & Len & Fa & Un).
    exists new.
    destruct (WeatherAPI.retry_loop P (WeatherAPI.client s)
                (weather_URL (WeatherAPI.baseURL s) (environ w "WEATHER_API_KEY") city)
                (Z.to_nat WeatherAPI.maxRetries) None None w) as [[[resp' err'] | reason] w1].
    + cbn [snd] in Ad.
      split; [| repeat split; assumption].
      destruct resp' as [resp |], err' as [err |]; try exact Ad.
      destruct (Decode_WeatherAPIResponse P (Body resp)) as [wr | de]; [| exact Ad].
      destruct (negb (StatusCode resp =? StatusOK)); [| exact Ad].
      destruct (Code (Error_ wr) =? 1006); exact Ad.
    + cbn [snd] in *. repeat split; assumption.
Qed.

(** C7. Once a response is received and its body decoded, a status other
    than 200 is classified by the error code of the body: code 1006 is
    [ErrCityNotFound] (HTTP 404), any other code is an error that wraps
    [ErrWeatherAPIFailed] and carries the message of the upstream
    (HTTP 500); a status 200 is no error at all. *)
Theorem GetTemperature_error_classification {C : Type} `{HTTPClient C}
  (s : WeatherAPI.WeatherAPIService C) (city : string) (w w' : World)
  (resp : Response) (weatherResp : WeatherAPIResponse) :
  environ w "WEATHER_API_KEY" <> "" ->
  WeatherAPI.retry_loop P (WeatherAPI.client s)
    (weather_URL (WeatherAPI.baseURL s) (environ w "WEATHER_API_KEY") city)
    (Z.to_nat WeatherAPI.maxRetries) None None w
  = (Normal (Some resp, None), w') ->
  Decode_WeatherAPIResponse P (Body resp) = inl weatherResp ->
  let run := WeatherAPI.GetTemperature P s city w in
  (StatusCode resp <> 200 -> Code (Error_ weatherResp) = 1006 ->
     run = (Normal (None, Some ErrCityNotFound), w')
     /\ replies (fun rw => handlers.handleWeatherError P rw ErrCityNotFound)
          404 (error_body "city not found in weather service"))
  /\ (StatusCode resp <> 200 -> Code (Error_ weatherResp) <> 1006 ->
      exists err,
        run = (Normal (None, Some err), w')
        /\ errors_Is err ErrWeatherAPIFailed = true
        /\ errors_Is err ErrCityNotFound = false
        /\ Error err = "weather API request failed: " ++ Message (Error_ weatherResp)
        /\ replies (fun rw => handlers.handleWeatherError P rw err)
             500 (error_body "failed to get weather data"))
  /\ (StatusCode resp = 200 -> exists temp, run = (Normal (Some temp, None), w')).
Proof.
  intros K L D run. subst run.
  rewrite (GetTemperature_unfold P s city w K). unfold bind. rewrite L, D.
  split; [| split].
  - intros S E. apply Z.eqb_neq in S. apply Z.eqb_eq in E.
    unfold StatusOK. rewrite S, E. cbn [negb].
    split; [reflexivity |].
    apply handleWeatherError_city_not_found; reflexivity.
  - intros S E. apply Z.eqb_neq in S. apply Z.eqb_neq in E.
    unfold StatusOK. rewrite S, E. cbn [negb].
    eexists. split; [reflexivity |].
    split; [reflexivity |]. split; [reflexivity |]. split; [reflexivity |].
    apply handleWeatherError_other; reflexivity.
  - intros S. apply Z.eqb_eq in S. unfold StatusOK. rewrite S. cbn [negb].
    eexists. reflexivity.
Qed.

(** C10, as amended.  In every successful reading the Kelvin value is
    the rounding of the upstream Celsius value plus 273.15, whether the
    Fahrenheit value is the upstream's or derived; the Celsius value of
    the reading is the rounding of the upstream's; and a reading exists
    whose Fahrenheit value is not the one its Celsius value gives. *)
Theorem GetTemperature_kelvin_from_upstream_celsius {C : Type} `{HTTPClient C}
  (s : WeatherAPI.WeatherAPIService C) (city : string) (w w' : World)
  (resp : Response) (weatherResp : WeatherAPIResponse) :
  environ w "WEATHER_API_KEY" <> "" ->
  WeatherAPI.retry_loop P (WeatherAPI.client s)
    (weather_URL (WeatherAPI.baseURL s) (environ w "WEATHER_API_KEY") city)
    (Z.to_nat WeatherAPI.maxRetries) None None w
  = (Normal (Some resp, None), w') ->
  Decode_WeatherAPIResponse P (Body resp) = inl weatherResp ->
  StatusCode resp = 200 ->
  let c := temp_c (Current weatherResp) in
  let f := temp_f (Current weatherResp) in
  (exists temp,
      WeatherAPI.GetTemperature P s city w = (Normal (Some temp, None), w')
      /\ models.TempK temp = WeatherAPI.round (c + 273.15)%float 2
      /\ models.TempC temp = WeatherAPI.round c 2
      /\ models.TempF temp
         = WeatherAPI.round (if Float64.nonzero f then f else (c * 1.8 + 32)%float) 2)
  /\ (exists c0 f0,
        Float64.nonzero f0 = true
        /\ PrimFloat.eqb (WeatherAPI.round f0 2)
             (WeatherAPI.round (WeatherAPI.round c0 2 * 1.8 + 32)%float 2) = false
        /\ PrimFloat.eqb (WeatherAPI.round f0 2)
             (WeatherAPI.round (c0 * 1.8 + 32)%float 2) = false).
Proof.
  intros K L D S c f. split.
  - rewrite (GetTemperature_unfold P s city w K). unfold bind. rewrite L, D.
    apply Z.eqb_eq in S. unfold StatusOK. rewrite S. cbn [negb].
    eexists. split; [reflexivity |]. repeat split.
  - exists 25%float, 100%float. repeat split; vm_compute; reflexivity.
Qed.

End WeatherClaims.

(** ** The edge service *)

Section EdgeFacts.
Context (P : Platform).

Lemma svc_a_respondWithError_status (code : Z) (message : string) (rw : ResponseWriter) :
  status rw = None ->
  status (svc_a.respondWithError rw code message) = Some code.
Proof.
  intros U. unfold svc_a.respondWithError. cbv zeta.
  now apply Write_status.
Qed.

(** [callServiceB] when the request can be built: one request goes out. *)
Lemma callServiceB_sent (app : svc_a.App) (cep : string) (w : World) (out : Request) :
  NewRequestWithContext P MethodPost (svc_a.ServiceBURL (svc_a.config app))
    (svc_a.Marshal_CepRequest cep) = inl out ->
  let sent := Request_Header_Set "Content-Type" "application/json" out in
  let answer := upstream w (trace w) sent in
  svc_a.callServiceB P app cep w
  = (Normal
       match answer with
       | DoErr _ text =>
           ("", 0, Some (Errorf_w "request failed: " (External text) ""))
       | DoOk resp =>
           match fault (Body resp) with
           | Some text =>
               ("", 0, Some (Errorf_w "failed to read response: " (External text) ""))
           | None => (data (Body resp), StatusCode resp, None)
           end
       end,
     record (EvDo sent answer) w).
Proof.
  intros B sent answer. unfold svc_a.callServiceB. cbv zeta. rewrite B.
  unfold bind. rewrite Do_http_Client. fold sent. fold answer.
  destruct answer as [resp | oresp text]; [| reflexivity].
  unfold io_ReadAll. destruct (fault (Body resp)); reflexivity.
Qed.

Lemma callServiceB_not_built (app : svc_a.App) (cep : string) (w : World) (err : error) :
  NewRequestWithContext P MethodPost (svc_a.ServiceBURL (svc_a.config app))
    (svc_a.Marshal_CepRequest cep) = inr err ->
  svc_a.callServiceB P app cep w
  = (Normal ("", 0, Some (Errorf_w "failed to create request: " err "")), w).
Proof.
  intros B. unfold svc_a.callServiceB. cbv zeta. now rewrite B.
Qed.

(** The handler on a POST whose body decodes: the validation decides
    whether svc-b is called. *)
Lemma HandleWeatherRequest_decoded (app : svc_a.App) (rw : ResponseWriter)
  (r : svc_a.Inbound) (req : CepRequest) :
  svc_a.InMethod r = MethodPost ->
  fault (svc_a.InBody r) = None ->
  Unmarshal_CepRequest P (data (svc_a.InBody r)) = inl req ->
  svc_a.HandleWeatherRequest P app rw r
  = let rw := Header_Set "Content-Type" "application/json" rw in
    if negb (svc_a.isValidCEP (cep_field req))
    then ret (svc_a.respondWithError rw StatusUnprocessableEntity "invalid zipcode")
    else
      bind (svc_a.callServiceB P app (cep_field req))
        (fun r =>
           match r with
           | (_, _, Some err) =>
               ret (svc_a.respondWithError rw StatusInternalServerError
                      ("error calling service B: " ++ Error err))
           | (response, statusCode, None) =>
               bind (WriteHeader_checked statusCode rw)
                 (fun rw => ret (Write response rw))
           end).
Proof.
  intros M F U. unfold svc_a.HandleWeatherRequest.
  rewrite M. cbn [String.eqb negb]. rewrite String.eqb_refl. cbn [negb].
  unfold io_ReadAll. rewrite F. cbn [option_map]. rewrite U. reflexivity.
Qed.



(** The last two statements of [HandleWeatherRequest],
    [w.WriteHeader(statusCode)] and [w.Write(response)], on a writer
    whose status is open. *)
Lemma relay_step (code : Z) (body : string) (rw : ResponseWriter) (w : World) :
  status rw = None ->
  bind (WriteHeader_checked code rw) (fun rw => ret (Write body rw)) w
  = if (code <? 100) || (code >? 999)
    then (Panicked ("invalid WriteHeader code " ++ GoString.Itoa code), w)
    else if (100 <=? code) && (code <=? 199) && negb (code =? 101)
    then (Normal (mkResponseWriter (header rw) (Some 200) (written rw ++ body)), w)
    else (Normal (mkResponseWriter (header rw) (Some code)
                    (if bodyAllowedForStatus code then written rw ++ body
                     else written rw)), w).
Proof.
  intros U. unfold WriteHeader_checked, checkWriteHeaderCode. rewrite U.
  destruct ((code <? 100) || (code >? 999)); [reflexivity |].
  unfold StatusSwitchingProtocols.
  destruct ((100 <=? code) && (code <=? 199) && negb (code =? 101));
    unfold bind, ret; cbv beta iota.
  - unfold Write, WriteHeader, bodyAllowed. rewrite U. reflexivity.
  - rewrite (WriteHeader_unwritten code rw U).
    unfold Write, WriteHeader, bodyAllowed. cbn [status header written].
    now destruct (bodyAllowedForStatus code).
Qed.


Lemma accepted_code (code : Z) :
  100 <= code <= 999 -> (code <? 100) || (code >? 999) = false.
Proof.
  intros R. apply orb_false_iff. rewrite Z.gtb_ltb, !Z.ltb_ge. lia.
Qed.


Lemma final_code (code : Z) :
  code = 101 \/ 200 <= code <= 999 ->
  (100 <=? code) && (code <=? 199) && negb (code =? 101) = false.
Proof.
  intros [-> | R]; [reflexivity |].
  apply andb_false_iff. left. apply andb_false_iff. right.
  apply Z.leb_gt. lia.
Qed.

(** On a code that [net/http] takes as the status of a response, and
    so on each status constant of the program, [WriteHeader] in full
    neither panics nor sends an interim response: it is the function
    [WriteHeader]. *)
Lemma WriteHeader_checked_final (code : Z) (rw : ResponseWriter) (w : World) :
  code = 101 \/ 200 <= code <= 999 ->
  WriteHeader_checked code rw w = (Normal (WriteHeader code rw), w).
Proof.
  intros Fi. unfold WriteHeader_checked, WriteHeader, checkWriteHeaderCode.
  destruct (status rw); [reflexivity |].
  rewrite (accepted_code code) by lia.
  unfold bind, ret, StatusSwitchingProtocols. now rewrite (final_code code Fi).
Qed.

(** The handler on a POST whose postal code passes [isValidCEP]: what
    [callServiceB] returns decides the answer. *)
Lemma HandleWeatherRequest_forwarded (app : svc_a.App) (rw : ResponseWriter)
  (r : svc_a.Inbound) (req : CepRequest) (w : World) :
  svc_a.InMethod r = MethodPost ->
  fault (svc_a.InBody r) = None ->
  Unmarshal_CepRequest P (data (svc_a.InBody r)) = inl req ->
  svc_a.isValidCEP (cep_field req) = true ->
  svc_a.HandleWeatherRequest P app rw r w
  = match svc_a.callServiceB P app (cep_field req) w with
    | (Normal (_, _, Some err), w') =>
        (Normal (svc_a.respondWithError
                   (Header_Set "Content-Type" "application/json" rw)
                   StatusInternalServerError
                   ("error calling service B: " ++ Error err)), w')
    | (Normal (response, statusCode, None), w') =>
        bind (WriteHeader_checked statusCode
                (Header_Set "Content-Type" "application/json" rw))
          (fun rw => ret (Write response rw)) w'
    | (Panicked reason, w') => (Panicked reason, w')
    end.
Proof.
  intros M F U V.
  rewrite (HandleWeatherRequest_decoded app rw r req M F U).
  cbv zeta. rewrite V. cbn [negb]. unfold bind at 1.
  destruct (svc_a.callServiceB P app (cep_field req) w)
    as [[[[response statusCode] [err |]] | reason] w']; reflexivity.
Qed.


(** A postal code that fails [isValidCEP] is answered 422 on the spot. *)
Lemma HandleWeatherRequest_rejects (app : svc_a.App) (rw : ResponseWriter)
  (r : svc_a.Inbound) (req : CepRequest) (w : World) :
  svc_a.InMethod r = MethodPost ->
  fault (svc_a.InBody r) = None ->
  Unmarshal_CepRequest P (data (svc_a.InBody r)) = inl req ->
  svc_a.isValidCEP (cep_field req) = false ->
  svc_a.HandleWeatherRequest P app rw r w
  = (Normal (svc_a.respondWithError
               (Header_Set "Content-Type" "application/json" rw)
               StatusUnprocessableEntity "invalid zipcode"), w).
Proof.
  intros M F U V.
  rewrite (HandleWeatherRequest_decoded app rw r req M F U).
  cbv zeta. now rewrite V.
Qed.

End EdgeFacts.

(** ** The validation of svc-b *)

Section InternalValidation.
Context (P : Platform).
Import services.

(** A postal code that does not normalise to eight bytes is answered
    422 before anything else happens. *)
Lemma svc_b_GET_rejects (rw : ResponseWriter) (raw : string) (w : World) :
  passes_validation raw = false ->
  svc_b.GET P rw raw w
  = (Normal (handlers.respondWithError P
               (Header_Set "Content-Type" "application/json" rw)
               StatusUnprocessableEntity "invalid zipcode"), w).
Proof.
  intros V. unfold svc_b.GET, handlers.GetWeatherByCEP. cbv zeta.
  change (GoString.ReplaceAll (GoString.ReplaceAll raw "-" "") "." "")
    with (normalize raw).
  unfold handlers.processWeatherRequest.
  unfold passes_validation in V. now rewrite V.
Qed.

Lemma svc_b_POST_rejects (rw : ResponseWriter) (body : Reader) (req : CepRequest)
  (w : World) :
  fault body = None ->
  Unmarshal_CepRequest P (data body) = inl req ->
  passes_validation (cep_field req) = false ->
  svc_b.POST P rw body w
  = (Normal (handlers.respondWithError P
               (Header_Set "Content-Type" "application/json" rw)
               StatusUnprocessableEntity "invalid zipcode"), w).
Proof.
  intros F U V. unfold svc_b.POST, handlers.GetWeatherByCEPPost. cbv zeta.
  unfold io_ReadAll. rewrite F. cbn [option_map]. rewrite U.
  change (GoString.ReplaceAll (GoString.ReplaceAll (cep_field req) "-" "") "." "")
    with (normalize (cep_field req)).
  unfold handlers.processWeatherRequest.
  unfold passes_validation in V. now rewrite V.
Qed.

(** On a code that normalises to eight bytes [GetCityByCEP] never
    reports an invalid postal code, and it does not panic. *)
Lemma GetCityByCEP_never_invalid (s : ViaCEP.ViaCEPService http_Client)
  (cep : string) (w : World) :
  GoString.len (normalize cep) = 8 ->
  exists r w',
    ViaCEP.GetCityByCEP P s cep w = (Normal r, w')
    /\ forall err, snd r = Some err -> errors_Is err ErrInvalidZipCode = false.
Proof.
  intros L.
  destruct (NewRequestWithContext P "GET"
              (GoString.Sprintf (ViaCEP.baseURL s) [normalize cep]) "")
    as [req | err0] eqn:B.
  - rewrite (GetCityByCEP_sent P s cep w req L B).
    destruct (upstream w (trace w) req) as [resp | oresp text].
    + destruct (negb (StatusCode resp =? StatusOK)).
      { eexists; eexists; split; [reflexivity |].
        intros err E; inversion E; reflexivity. }
      destruct (fault (Body resp)).
      { eexists; eexists; split; [reflexivity |].
        intros err E; inversion E; reflexivity. }
      destruct (Unmarshal_ViaCEPResponse P (data (Body resp))) as [v | e].
      * destruct (Erro v); [| destruct (String.eqb (Localidade v) "")];
          eexists; eexists; (split; [reflexivity |]);
          intros err E; inversion E; reflexivity.
      * eexists; eexists; split; [reflexivity |].
        intros err E; inversion E; reflexivity.
    + eexists; eexists; split; [reflexivity |].
      intros err E; inversion E; reflexivity.
  - rewrite (GetCityByCEP_not_built P s cep w err0 L B).
    destruct (NewRequest_error_external P _ _ _ _ B) as [text ->].
    eexists; eexists; split; [reflexivity |].
    intros err E; inversion E; reflexivity.
Qed.

Lemma handleCEPError_status (err : error) (rw : ResponseWriter) :
  status rw = None ->
  errors_Is err ErrInvalidZipCode = false ->
  status (handlers.handleCEPError P rw err) = Some StatusNotFound
  \/ status (handlers.handleCEPError P rw err) = Some StatusInternalServerError.
Proof.
  intros U I.
  destruct (errors_Is err ErrZipCodeNotFound) eqn:N.
  - left. exact (proj1 (handleCEPError_not_found P err I N rw U)).
  - right. exact (proj1 (handleCEPError_other P err I N rw U)).
Qed.

Lemma respondWithJSON_status (code : Z) (v : handlers.payload) (rw : ResponseWriter) :
  status rw = None ->
  status (handlers.respondWithJSON P rw code v) = Some code
  \/ status (handlers.respondWithJSON P rw code v) = Some StatusInternalServerError.
Proof.
  intros U. unfold handlers.respondWithJSON.
  destruct (handlers.json_Marshal P v) as [doc | e];
    rewrite Write_status by exact U; [left | right]; reflexivity.
Qed.

(** A postal code that normalises to eight bytes, digits or not, is
    never answered 422: it is looked up. *)
Lemma svc_b_GET_accepts (rw rw' : ResponseWriter) (raw : string) (w w' : World) :
  passes_validation raw = true ->
  status rw = None ->
  svc_b.GET P rw raw w = (Normal rw', w') ->
  status rw' <> Some StatusUnprocessableEntity.
Proof.
  intros V U. unfold svc_b.GET, handlers.GetWeatherByCEP. cbv zeta.
  change (GoString.ReplaceAll (GoString.ReplaceAll raw "-" "") "." "")
    with (normalize raw).
  unfold handlers.processWeatherRequest.
  unfold passes_validation in V. rewrite V. cbn [negb].
  unfold bind.
  change (GetCityByCEP (handlers.cepService svc_b.handler) (normalize raw) w)
    with (ViaCEP.GetCityByCEP P svc_b.cep_service (normalize raw) w).
  assert (L : GoString.len (normalize (normalize raw)) = 8)
    by (rewrite normalize_idempotent; now apply Z.eqb_eq).
  destruct (GetCityByCEP_never_invalid svc_b.cep_service (normalize raw) w L)
    as ([city oerr] & w1 & E & NI).
  rewrite E. pose proof (Header_Set_unwritten "Content-Type" "application/json" rw U) as U'.
  destruct oerr as [err |].
  - intros R. inversion R; subst.
    destruct (handleCEPError_status err _ U' (NI err eq_refl)) as [S | S];
      rewrite S; discriminate.
  - destruct (GetTemperature (handlers.weatherService svc_b.handler) city w1)
      as [[[otemp oerr] | reason] w2]; [| discriminate].
    destruct oerr as [err |].
    + destruct otemp as [temp |]; intros R; inversion R; subst;
        destruct (handleWeatherError_status P err _ U') as [S | S];
        rewrite S; discriminate.
    + destruct otemp as [temp |]; [| discriminate].
      intros R. inversion R; subst.
      destruct (respondWithJSON_status StatusOK
                  (handlers.WeatherResponse city (models.TempC temp)
                     (models.TempF temp) (models.TempK temp)) _ U') as [S | S];
        rewrite S; discriminate.
Qed.

(** The URL the geocoder is asked for. *)
Lemma viacep_URL (cep : string) :
  GoString.Sprintf (ViaCEP.baseURL svc_b.cep_service) [cep]
  = "https://viacep.com.br/ws/" ++ cep ++ "/json/".
Proof. reflexivity. Qed.

(** When a request can be built for a postal code that normalises to
    eight bytes, it is the first thing the handler adds to the trace. *)
Lemma svc_b_GET_first_request (rw : ResponseWriter) (raw : string) (w : World)
  (req : Request) :
  passes_validation raw = true ->
  NewRequestWithContext P "GET"
    ("https://viacep.com.br/ws/" ++ normalize raw ++ "/json/") "" = inl req ->
  exists later,
    added w (snd (svc_b.GET P rw raw w))
      (later ++ [EvDo req (upstream w (trace w) req)]).
Proof.
  intros V B. unfold svc_b.GET, handlers.GetWeatherByCEP. cbv zeta.
  change (GoString.ReplaceAll (GoString.ReplaceAll raw "-" "") "." "")
    with (normalize raw).
  unfold handlers.processWeatherRequest.
  unfold passes_validation in V. rewrite V. cbn [negb].
  unfold bind.
  change (GetCityByCEP (handlers.cepService svc_b.handler) (normalize raw) w)
    with (ViaCEP.GetCityByCEP P svc_b.cep_service (normalize raw) w).
  assert (L : GoString.len (normalize (normalize raw)) = 8)
    by (rewrite normalize_idempotent; now apply Z.eqb_eq).
  assert (B' : NewRequestWithContext P "GET"
                 (GoString.Sprintf (ViaCEP.baseURL svc_b.cep_service)
                    [normalize (normalize raw)]) "" = inl req)
    by (now rewrite viacep_URL, normalize_idempotent).
  rewrite (GetCityByCEP_sent P svc_b.cep_service (normalize raw) w req L B').
  set (answer := upstream w (trace w) req).
  set (w1 := record (EvDo req answer) w).
  assert (Now : added w w1 ([] ++ [EvDo req answer])) by reflexivity.
  assert (Lookup : forall city,
             exists later,
               added w
                 (snd (match WeatherAPI.GetTemperature P svc_b.weather_service city w1 with
                       | (Normal t, w2) =>
                           match t with
                           | (_, Some err) => ret (handlers.handleWeatherError P
                                 (Header_Set "Content-Type" "application/json" rw) err)
                           | (None, None) => panic nil_dereference
                           | (Some temp, None) =>
                               ret (handlers.respondWithJSON P
                                      (Header_Set "Content-Type" "application/json" rw)
                                      StatusOK
                                      (handlers.WeatherResponse city (models.TempC temp)
                                         (models.TempF temp) (models.TempK temp)))
                           end w2
                       | (Panicked r, w2) => (Panicked r, w2)
                       end))
                 (later ++ [EvDo req answer])).
  { intros city.
    destruct (GetTemperature_added P svc_b.weather_service city w1) as (new & Ad).
    exists new.
    destruct (WeatherAPI.GetTemperature P svc_b.weather_service city w1)
      as [[[otemp oerr] | reason] w2]; cbn [snd] in *.
    - assert (A2 : added w w2 (new ++ [EvDo req answer]))
        by (unfold added in *; rewrite Ad; cbn [w1 record trace];
            now rewrite <- app_assoc).
      destruct otemp as [temp |], oerr as [err |]; exact A2.
    - unfold added in *. rewrite Ad. cbn [w1 record trace].
      now rewrite <- app_assoc. }
  destruct answer as [resp | oresp text]; [| now exists []].
  destruct (negb (StatusCode resp =? StatusOK)); [now exists [] |].
  destruct (fault (Body resp)); [now exists [] |].
  destruct (Unmarshal_ViaCEPResponse P (data (Body resp))) as [v | e]; [| now exists []].
  destruct (Erro v); [now exists [] |].
  destruct (String.eqb (Localidade v) ""); [now exists [] |].
  exact (Lookup (Localidade v)).
Qed.

End InternalValidation.

(** ** The two validations compared *)

Section ValidationClaims.
Import services.

(** C1, what the code does.  Eight letters pass the validation of svc-b:
    the request is not answered 422, the geocoder is asked about the
    code, and the caller gets what the geocoder's answer maps to. *)
Theorem svc_b_accepts_letters :
  let run :=
    svc_b.GET Sample.platform fresh "abcdefgh"
      (Sample.world "k" (Sample.internet (Sample.ok (Sample.weather_doc "25.0" "77.0")))) in
  all_digits "abcdefgh" = false
  /\ passes_validation "abcdefgh" = true
  /\ fst run
     = Normal (mkResponseWriter [("Content-Type", "application/json")]
                 (Some 404) (error_body "can not find zipcode"))
  /\ trace (snd run)
     = [EvDo (mkRequest "GET" "https://viacep.com.br/ws/abcdefgh/json/" [] "")
          (DoOk (mkResponse 400 (mkReader "<h2>Bad Request (400)</h2>" None)))].
Proof. vm_compute. repeat split. Qed.

(** C2, refuted as stated: a postal code written with its separator is
    turned away by the edge service and accepted by svc-b. *)
Lemma validations_disagree_on_separators :
  svc_a.isValidCEP "12345-678" = false
  /\ passes_validation "12345-678" = true.
Proof. split; reflexivity. Qed.

(** C2, as amended.  The edge service strips nothing: it accepts exactly
    the strings of eight bytes that are all decimal digits.  Whatever it
    accepts passes the validation of svc-b as well. *)
Theorem edge_validation_implies_internal (raw : string) :
  (svc_a.isValidCEP raw = true
   <-> String.length raw = 8%nat /\ all_digits raw = true)
  /\ (svc_a.isValidCEP raw = true -> passes_validation raw = true).
Proof.
  rewrite isValidCEP_spec, andb_true_iff, Nat.eqb_eq.
  split; [reflexivity |].
  intros [L D]. unfold passes_validation.
  rewrite (normalize_digits raw D), len_eight. now apply Nat.eqb_eq.
Qed.

(** The postal code of the README passes both validations. *)
Lemma edge_validation_implies_internal_witness :
  svc_a.isValidCEP "35780000" = true /\ passes_validation "35780000" = true.
Proof.
  split; [reflexivity |].
  apply (proj2 (edge_validation_implies_internal "35780000")). reflexivity.
Defined.

End ValidationClaims.

(** ** Rounding *)

Section RoundingClaims.
Import services.

(** C5, what the code does.  With -20 degrees Celsius and no Fahrenheit
    value from the upstream, the derived Fahrenheit value is exactly -4,
    and the reading carries -3.99 (and -19.99 for the Celsius value):
    adding one half and truncating towards zero rounds a negative
    number the wrong way. *)
Theorem GetTemperature_truncates_negative_fahrenheit :
  (-20 * 1.8 + 32 = -4)%float
  /\ fst (WeatherAPI.GetTemperature Sample.platform svc_b.weather_service "Curitiba"
            (Sample.world "k"
               (Sample.internet (Sample.ok (Sample.weather_doc_celsius "-20.0")))))
     = Normal (Some (models.mkTemperature (-19.99) (-3.99) 253.15), None)
  /\ PrimFloat.eqb (-3.99) (-4) = false.
Proof. vm_compute. repeat split. Qed.

(** C10, refuted as stated: the Kelvin value of a reading need not be
    the rounding of the reading's own Celsius value plus 273.15.  With
    -0.3 degrees from the upstream the reading carries -0.29 and 272.85,
    while -0.29 + 273.15 rounds to 272.86; with 0.005 degrees it carries
    0.01 and 273.15, while 0.01 + 273.15 rounds to 273.16. *)
Lemma kelvin_not_from_rounded_celsius :
  fst (WeatherAPI.GetTemperature Sample.platform svc_b.weather_service "Curitiba"
         (Sample.world "k"
            (Sample.internet (Sample.ok (Sample.weather_doc "-0.3" "31.5")))))
  = Normal (Some (models.mkTemperature (-0.29) 31.5 272.85), None)
  /\ WeatherAPI.round (-0.29 + 273.15) 2 = 272.86%float
  /\ PrimFloat.eqb 272.85 272.86 = false
  /\ fst (WeatherAPI.GetTemperature Sample.platform svc_b.weather_service "Curitiba"
            (Sample.world "k"
               (Sample.internet (Sample.ok (Sample.weather_doc "0.005" "32.0")))))
     = Normal (Some (models.mkTemperature 0.01 32 273.15), None)
  /\ WeatherAPI.round (0.01 + 273.15) 2 = 273.16%float
  /\ PrimFloat.eqb 273.15 273.16 = false.
Proof. vm_compute. repeat split. Qed.

End RoundingClaims.

(** ** The theorems at work on sample surroundings *)

Section Witnesses.
Import services.

(** No credential, network down: the error comes back and nothing was sent. *)
Lemma GetTemperature_missing_key_witness :
  environ (Sample.world "" Sample.down) "WEATHER_API_KEY" = ""
  /\ WeatherAPI.GetTemperature Sample.platform svc_b.weather_service "Rio de Janeiro"
       (Sample.world "" Sample.down)
     = (Normal (None, Some ErrAPIKeyNotConfigured), Sample.world "" Sample.down).
Proof.
  split; [reflexivity |].
  exact (proj1 (GetTemperature_missing_key Sample.platform svc_b.weather_service
                  "Rio de Janeiro" (Sample.world "" Sample.down) eq_refl)).
Defined.

(** A credential, network down: the call panics. *)
Lemma GetTemperature_panics_when_all_attempts_fail_witness :
  environ (Sample.world "k" Sample.down) "WEATHER_API_KEY" <> ""
  /\ (forall history req,
        exists text, upstream (Sample.world "k" Sample.down) history req = DoErr None text)
  /\ exists w' new,
       WeatherAPI.GetTemperature Sample.platform svc_b.weather_service "Rio de Janeiro"
         (Sample.world "k" Sample.down)
       = (Panicked nil_dereference, w')
       /\ added (Sample.world "k" Sample.down) w' new
       /\ (List.length (answers new) <= 3)%nat.
Proof.
  assert (K : environ (Sample.world "k" Sample.down) "WEATHER_API_KEY" <> "")
    by (intros E; vm_compute in E; discriminate E).
  assert (D : forall history req,
             exists text,
               upstream (Sample.world "k" Sample.down) history req = DoErr None text)
    by (intros history req; eexists; reflexivity).
  split; [exact K |]. split; [exact D |].
  exact (GetTemperature_panics_when_all_attempts_fail Sample.platform
           svc_b.weather_service "Rio de Janeiro" (Sample.world "k" Sample.down) K D).
Defined.

(** The geocoder flags the postal code 99999-999 as unknown. *)
Lemma GetCityByCEP_classification_witness :
  GoString.len (normalize "99999-999") = 8
  /\ exists r w',
       ViaCEP.GetCityByCEP Sample.platform svc_b.cep_service "99999-999"
         (Sample.world "k" (Sample.internet (Sample.ok (Sample.weather_doc "25.0" "77.0"))))
       = (Normal r, w')
       /\ geo_not_found r.
Proof.
  split; [reflexivity |].
  destruct (proj1 (GetCityByCEP_classification Sample.platform svc_b.cep_service
                     "99999-999"
                     (Sample.world "k"
                        (Sample.internet (Sample.ok (Sample.weather_doc "25.0" "77.0"))))
                     eq_refl))
    as (r & w' & E & _ & Sent).
  exists r, w'. split; [exact E |].
  destruct (Sent (mkRequest "GET" "https://viacep.com.br/ws/99999999/json/" [] "") eq_refl)
    as (_ & _ & Answered).
  destruct (Answered (mkResponse 200 (mkReader Sample.viacep_erro None)) eq_refl)
    as (_ & _ & Parsed).
  exact (proj1 (Parsed (mkViaCEPResponse "" "" "" "" "" "" true) eq_refl
                  (conj eq_refl eq_refl)) eq_refl).
Defined.

(** The weather service answers 400 with its code 1006. *)
Lemma GetTemperature_error_classification_witness :
  let w := Sample.world "k"
             (Sample.internet (mkResponse 400 (mkReader Sample.weather_no_match None))) in
  environ w "WEATHER_API_KEY" <> ""
  /\ exists w',
       WeatherAPI.GetTemperature Sample.platform svc_b.weather_service "Atlantis" w
       = (Normal (None, Some ErrCityNotFound), w').
Proof.
  cbv zeta.
  assert (K : environ (Sample.world "k"
                         (Sample.internet
                            (mkResponse 400 (mkReader Sample.weather_no_match None))))
                "WEATHER_API_KEY" <> "")
    by (intros E; vm_compute in E; discriminate E).
  split; [exact K |].
  exists (snd (WeatherAPI.retry_loop Sample.platform
                 (WeatherAPI.client svc_b.weather_service)
                 (weather_URL (WeatherAPI.baseURL svc_b.weather_service) "k" "Atlantis")
                 3 None None
                 (Sample.world "k"
                    (Sample.internet
                       (mkResponse 400 (mkReader Sample.weather_no_match None)))))).
  refine (proj1 (proj1 (GetTemperature_error_classification Sample.platform
                          svc_b.weather_service "Atlantis" _ _
                          (mkResponse 400 (mkReader Sample.weather_no_match None))
                          (mkWeatherAPIResponse (mkCurrent 0 0)
                             (mkAPIError 1006 "No matching location found."))
                          K _ _) _ _)).
  - vm_compute. reflexivity.
  - reflexivity.
  - cbn. lia.
  - reflexivity.
Defined.



(** 25 degrees Celsius with an upstream Fahrenheit value of 100. *)
Lemma GetTemperature_kelvin_from_upstream_celsius_witness :
  let w := Sample.world "k"
             (Sample.internet (Sample.ok (Sample.weather_doc "25.0" "100.0"))) in
  environ w "WEATHER_API_KEY" <> ""
  /\ exists temp w',
       WeatherAPI.GetTemperature Sample.platform svc_b.weather_service "Rio de Janeiro" w
       = (Normal (Some temp, None), w')
       /\ models.TempK temp = WeatherAPI.round (25 + 273.15)%float 2
       /\ models.TempC temp = WeatherAPI.round 25 2.
Proof.
  cbv zeta.
  assert (K : environ (Sample.world "k"
                         (Sample.internet (Sample.ok (Sample.weather_doc "25.0" "100.0"))))
                "WEATHER_API_KEY" <> "")
    by (intros E; vm_compute in E; discriminate E).
  split; [exact K |].
  assert (L : WeatherAPI.retry_loop Sample.platform
                (WeatherAPI.client svc_b.weather_service)
                (weather_URL (WeatherAPI.baseURL svc_b.weather_service)
                   (environ (Sample.world "k"
                               (Sample.internet
                                  (Sample.ok (Sample.weather_doc "25.0" "100.0"))))
                      "WEATHER_API_KEY") "Rio de Janeiro")
                (Z.to_nat WeatherAPI.maxRetries) None None
                (Sample.world "k"
                   (Sample.internet (Sample.ok (Sample.weather_doc "25.0" "100.0"))))
              = (Normal (Some (Sample.ok (Sample.weather_doc "25.0" "100.0")), None),
                 snd (WeatherAPI.retry_loop Sample.platform
                        (WeatherAPI.client svc_b.weather_service)
                        (weather_URL (WeatherAPI.baseURL svc_b.weather_service) "k"
                           "Rio de Janeiro")
                        3 None None
                        (Sample.world "k"
                           (Sample.internet
                              (Sample.ok (Sample.weather_doc "25.0" "100.0")))))))
    by (vm_compute; reflexivity).
  destruct (proj1 (GetTemperature_kelvin_from_upstream_celsius Sample.platform
                     svc_b.weather_service "Rio de Janeiro" _ _ _
                     (mkWeatherAPIResponse (mkCurrent 25 100) Sample.no_error)
                     K L eq_refl eq_refl))
    as (temp & E & TK & TC & _).
  exists temp. eexists. split; [exact E |]. split; assumption.
Defined.

End Witnesses.

(** ** Two runs of the whole pipeline *)

Section Runs.
Import services.

(** A geocoding answer with the city Rio de Janeiro and a weather answer
    of 25 degrees give the reply 200 with the three readings. *)
Example svc_b_round_trip :
  fst (svc_b.GET Sample.platform fresh "35780-000"
         (Sample.world "k" (Sample.internet (Sample.ok (Sample.weather_doc "25.0" "77.0")))))
  = Normal (mkResponseWriter [("Content-Type", "application/json")] (Some 200)
              ("{" ++ json_key "city" ++ GoString.quote ++ "Rio de Janeiro" ++ GoString.quote
                ++ "," ++ json_key "temp_C" ++ "25"
                ++ "," ++ json_key "temp_F" ++ "77"
                ++ "," ++ json_key "temp_K" ++ "298.15}")).
Proof. vm_compute. reflexivity. Qed.

(** Two transport failures and then an answer: the reading is that of
    the third attempt, after pauses of 100 and 200 milliseconds. *)
Example GetTemperature_third_attempt :
  let run :=
    WeatherAPI.GetTemperature Sample.platform svc_b.weather_service "Rio de Janeiro"
      (Sample.world "k" (Sample.flaky (Sample.ok (Sample.weather_doc "25.0" "77.0")))) in
  fst run = Normal (Some (models.mkTemperature 25 77 298.15), None)
  /\ rev (sleeps_latest_first (trace (snd run))) = [100; 200]
  /\ List.length (answers (trace (snd run))) = 3%nat.
Proof. vm_compute. repeat split. Qed.

End Runs.

(* ================================================================== *)
(** * Part III. Further properties of the code *)
(* ================================================================== *)

(** ** The entry points of svc-b *)

Section EntryPoints.
Context (P : Platform) {CS WS : Type}
  `{services.CEPService CS} `{services.WeatherService WS}.

(** X1. A POST whose body is read and decoded is handled exactly as the
    GET whose path variable is the [cep] member of the body, whatever
    the two services behind the handler are. *)
Theorem GetWeatherByCEPPost_as_GetWeatherByCEP
  (h : handlers.WeatherHandler CS WS) (rw : ResponseWriter)
  (body : Reader) (req : CepRequest) :
  fault body = None ->
  Unmarshal_CepRequest P (data body) = inl req ->
  handlers.GetWeatherByCEPPost P h rw body
  = handlers.GetWeatherByCEP P h rw (cep_field req).
Proof.
  intros F U. unfold handlers.GetWeatherByCEPPost, handlers.GetWeatherByCEP.
  cbv zeta. unfold io_ReadAll. rewrite F. cbn [option_map].
  now rewrite U.
Qed.

(** The handler sees a postal code only through its normal form:
    two spellings that differ in their separators get the same
    treatment, in the same world. *)
Theorem GetWeatherByCEP_ignores_separators
  (h : handlers.WeatherHandler CS WS) (rw : ResponseWriter) (raw raw' : string) :
  normalize raw = normalize raw' ->
  handlers.GetWeatherByCEP P h rw raw = handlers.GetWeatherByCEP P h rw raw'.
Proof.
  intros E. unfold handlers.GetWeatherByCEP. cbv zeta.
  change (GoString.ReplaceAll (GoString.ReplaceAll raw "-" "") "." "")
    with (normalize raw).
  change (GoString.ReplaceAll (GoString.ReplaceAll raw' "-" "") "." "")
    with (normalize raw').
  now rewrite E.
Qed.

(** X2. A POST whose body cannot be read to its end, or does not decode,
    is answered 400 with a fixed document, and neither service is
    called: the world is left as it was. *)
Theorem GetWeatherByCEPPost_malformed
  (h : handlers.WeatherHandler CS WS) (body : Reader) (w : World) :
  (fault body <> None ->
     handlers.GetWeatherByCEPPost P h fresh body w
     = (Normal (mkResponseWriter [("Content-Type", "application/json")]
                  (Some 400) (error_body "invalid request body")), w))
  /\ (fault body = None ->
      forall e, Unmarshal_CepRequest P (data body) = inr e ->
        handlers.GetWeatherByCEPPost P h fresh body w
        = (Normal (mkResponseWriter [("Content-Type", "application/json")]
                     (Some 400) (error_body "invalid request format")), w)).
Proof.
  unfold handlers.GetWeatherByCEPPost, io_ReadAll. cbv zeta. split.
  - intros F. destruct (fault body) as [text |]; [reflexivity | now elim F].
  - intros F e U. rewrite F. cbn [option_map]. now rewrite U.
Qed.

End EntryPoints.

Section EntryPointWitnesses.

(** The body of a POST for the postal code of the README. *)
Lemma GetWeatherByCEPPost_as_GetWeatherByCEP_witness :
  svc_b.POST Sample.platform fresh
    (mkReader (svc_a.Marshal_CepRequest "35780-000") None)
  = svc_b.GET Sample.platform fresh "35780-000".
Proof.
  exact (@GetWeatherByCEPPost_as_GetWeatherByCEP Sample.platform _ _
           (services.ViaCEP.ViaCEPService_CEPService Sample.platform)
           (services.WeatherAPI.WeatherAPIService_WeatherService Sample.platform)
           svc_b.handler fresh
           (mkReader (svc_a.Marshal_CepRequest "35780-000") None)
           (mkCepRequest "35780-000") eq_refl eq_refl).
Defined.

Lemma GetWeatherByCEP_ignores_separators_witness :
  normalize "35780-000" = normalize "35.780.000"
  /\ svc_b.GET Sample.platform fresh "35780-000"
     = svc_b.GET Sample.platform fresh "35.780.000".
Proof.
  split; [reflexivity |].
  exact (@GetWeatherByCEP_ignores_separators Sample.platform _ _
           (services.ViaCEP.ViaCEPService_CEPService Sample.platform)
           (services.WeatherAPI.WeatherAPIService_WeatherService Sample.platform)
           svc_b.handler fresh "35780-000" "35.780.000" eq_refl).
Defined.

End EntryPointWitnesses.

Section InvalidZipcode.
Context (P : Platform).

(** X3. svc-b, wired as it runs, answers 422 exactly to the postal codes
    that do not normalise to eight bytes: such a code gets 422 with the
    document [{"error":"invalid zipcode"}] and nothing is sent; a code
    that does normalise to eight bytes is never answered 422. *)
Theorem svc_b_invalid_zipcode_iff (raw : string) (w : World) :
  (passes_validation raw = false ->
     svc_b.GET P fresh raw w
     = (Normal (mkResponseWriter [("Content-Type", "application/json")]
                  (Some 422) (error_body "invalid zipcode")), w))
  /\ (passes_validation raw = true ->
      forall rw' w', svc_b.GET P fresh raw w = (Normal rw', w') ->
        status rw' <> Some 422).
Proof.
  split.
  - intros V. now rewrite (svc_b_GET_rejects P fresh raw w V).
  - intros V rw' w' R.
    exact (svc_b_GET_accepts P fresh rw' raw w w' V eq_refl R).
Qed.

End InvalidZipcode.

(** ** The geocoding step, once more *)

Section GeoFurther.
Context (P : Platform).
Import services.

(** X4. [GetCityByCEP] sends at most one request and never pauses: there
    is no retry on this leg.  The request, when one is sent, is the GET
    of the URL made from the normalised postal code; none is sent for a
    code that does not normalise to eight bytes. *)
Theorem GetCityByCEP_one_request
  (s : ViaCEP.ViaCEPService http_Client) (cep : string) (w : World) :
  exists new,
    added w (snd (ViaCEP.GetCityByCEP P s cep w)) new
    /\ (new = []
        \/ new = [EvDo (mkRequest "GET"
                          (GoString.Sprintf (ViaCEP.baseURL s) [normalize cep]) [] "")
                    (upstream w (trace w)
                       (mkRequest "GET"
                          (GoString.Sprintf (ViaCEP.baseURL s) [normalize cep]) [] ""))])
    /\ (GoString.len (normalize cep) <> 8 -> new = []).
Proof.
  destruct (Z.eq_dec (GoString.len (normalize cep)) 8) as [L | L].
  - destruct (NewRequestWithContext P "GET"
                (GoString.Sprintf (ViaCEP.baseURL s) [normalize cep]) "")
      as [req | err0] eqn:B.
    + rewrite (GetCityByCEP_sent P s cep w req L B).
      assert (R : req = mkRequest "GET"
                          (GoString.Sprintf (ViaCEP.baseURL s) [normalize cep]) [] "").
      { unfold NewRequestWithContext in B.
        destruct (url_Parse_error P _); inversion B; reflexivity. }
      subst req.
      eexists. split; [| split; [right; reflexivity | intros N; now elim N]].
      destruct (upstream w (trace w) _) as [resp | oresp text]; [| reflexivity].
      destruct (negb (StatusCode resp =? StatusOK)); [reflexivity |].
      destruct (fault (Body resp)); [reflexivity |].
      destruct (Unmarshal_ViaCEPResponse P (data (Body resp))) as [v | e];
        [| reflexivity].
      destruct (Erro v); [reflexivity |].
      destruct (String.eqb (Localidade v) ""); reflexivity.
    + rewrite (GetCityByCEP_not_built P s cep w err0 L B).
      exists []. split; [reflexivity |]. split; [now left | reflexivity].
  - rewrite (GetCityByCEP_too_short_or_long P s cep w L).
    exists []. split; [reflexivity |]. split; [now left | reflexivity].
Qed.

(** X5. [GetCityByCEP] returns: it does not panic.  It returns either a
    city that is not the empty string and no error, or the empty string
    and an error; never both, never neither. *)
Theorem GetCityByCEP_city_or_error
  (s : ViaCEP.ViaCEPService http_Client) (cep : string) (w : World) :
  exists city err w',
    ViaCEP.GetCityByCEP P s cep w = (Normal (city, err), w')
    /\ ((city <> "" /\ err = None) \/ (city = "" /\ err <> None)).
Proof.
  destruct (Z.eq_dec (GoString.len (normalize cep)) 8) as [L | L].
  - destruct (NewRequestWithContext P "GET"
                (GoString.Sprintf (ViaCEP.baseURL s) [normalize cep]) "")
      as [req | err0] eqn:B.
    + rewrite (GetCityByCEP_sent P s cep w req L B).
      destruct (upstream w (trace w) req) as [resp | oresp text].
      * destruct (negb (StatusCode resp =? StatusOK)).
        { do 3 eexists. split; [reflexivity |]. right. now split. }
        destruct (fault (Body resp)).
        { do 3 eexists. split; [reflexivity |]. right. now split. }
        destruct (Unmarshal_ViaCEPResponse P (data (Body resp))) as [v | e].
        -- destruct (Erro v).
           { do 3 eexists. split; [reflexivity |]. right. now split. }
           destruct (String.eqb (Localidade v) "") eqn:Lo.
           { do 3 eexists. split; [reflexivity |]. right. now split. }
           apply String.eqb_neq in Lo.
           do 3 eexists. split; [reflexivity |]. left. now split.
        -- do 3 eexists. split; [reflexivity |]. right. now split.
      * do 3 eexists. split; [reflexivity |]. right. now split.
    + rewrite (GetCityByCEP_not_built P s cep w err0 L B).
      do 3 eexists. split; [reflexivity |]. right. now split.
  - rewrite (GetCityByCEP_too_short_or_long P s cep w L).
    do 3 eexists. split; [reflexivity |]. right. now split.
Qed.

(** [GetCityByCEP] normalises its argument itself, so it treats two
    spellings of a postal code alike, with any HTTP client; a handler
    that has normalised the code already changes nothing by it. *)
Theorem GetCityByCEP_ignores_separators {C : Type} `{HTTPClient C}
  (s : ViaCEP.ViaCEPService C) (cep cep' : string) :
  normalize cep = normalize cep' ->
  ViaCEP.GetCityByCEP P s cep = ViaCEP.GetCityByCEP P s cep'.
Proof.
  intros E. unfold ViaCEP.GetCityByCEP. cbv zeta.
  change (GoString.ReplaceAll (GoString.ReplaceAll cep "-" "") "." "")
    with (normalize cep).
  change (GoString.ReplaceAll (GoString.ReplaceAll cep' "-" "") "." "")
    with (normalize cep').
  now rewrite E.
Qed.

End GeoFurther.

Section GeoFurtherWitnesses.
Import services.

(** The code of the README with a separator, and normalised. *)
Lemma GetCityByCEP_ignores_separators_witness :
  normalize "35780-000" = normalize (normalize "35780-000")
  /\ ViaCEP.GetCityByCEP Sample.platform svc_b.cep_service "35780-000"
     = ViaCEP.GetCityByCEP Sample.platform svc_b.cep_service (normalize "35780-000").
Proof.
  split; [reflexivity |].
  exact (GetCityByCEP_ignores_separators Sample.platform svc_b.cep_service
           "35780-000" (normalize "35780-000") eq_refl).
Defined.

End GeoFurtherWitnesses.

(** ** The weather step, once more *)

Section RetryFurther.
Context (P : Platform).
Import services.

Lemma last_carried_cons (initial : option Response) (a : DoResult) (l : list DoResult) :
  last_carried initial (a :: l) = last_carried (carried a) l.
Proof.
  unfold last_carried. cbn [rev].
  destruct (rev l) as [| x xs]; reflexivity.
Qed.

Lemma answers_sleep (e : Z) (new : list event) :
  answers (new ++ [EvSleep e]) = answers new.
Proof. now rewrite answers_app. Qed.

(** The response the loop hands on is the one the last request sent
    brought back (none, if it brought none). *)
Lemma retry_loop_last (client : http_Client) (reqURL : string) (remaining : nat)
  (resp : option Response) (err : option error) (w : World) :
  exists resp' w' new,
    WeatherAPI.retry_loop P client reqURL remaining resp err w = (Normal (resp', err), w')
    /\ added w w' new
    /\ resp' = last_carried resp (answers new).
Proof.
  revert resp w.
  induction remaining as [| k IH]; intros resp w; cbn [WeatherAPI.retry_loop].
  - exists resp, w, []. repeat split.
  - destruct (NewRequestWithContext P "GET" reqURL "") as [req | e].
    + unfold bind. rewrite Do_http_Client.
      destruct (upstream w (trace w) req) as [resp' | resp' text] eqn:A.
      * exists (Some resp'), (record (EvDo req (DoOk resp')) w), [EvDo req (DoOk resp')].
        repeat split.
      * destruct (WeatherAPI.maxRetries - Z.of_nat k <? WeatherAPI.maxRetries).
        -- unfold time_Sleep; cbv beta iota.
           destruct (IH resp'
                       (record (EvSleep ((WeatherAPI.maxRetries - Z.of_nat k) * 100))
                          (record (EvDo req (DoErr resp' text)) w)))
             as (r' & w' & new & E & Ad & La).
           exists r', w',
             (new ++ [EvSleep ((WeatherAPI.maxRetries - Z.of_nat k) * 100);
                      EvDo req (DoErr resp' text)])%list.
           split; [exact E |]. split.
           ++ unfold added in *. rewrite Ad. cbn [record trace].
              now rewrite <- app_assoc.
           ++ rewrite answers_app.
              change (answers [EvSleep ((WeatherAPI.maxRetries - Z.of_nat k) * 100);
                               EvDo req (DoErr resp' text)])
                with [DoErr resp' text].
              cbn [app]. now rewrite last_carried_cons.
        -- unfold ret; cbv beta iota.
           destruct (IH resp' (record (EvDo req (DoErr resp' text)) w))
             as (r' & w' & new & E & Ad & La).
           exists r', w', (new ++ [EvDo req (DoErr resp' text)])%list.
           split; [exact E |]. split.
           ++ unfold added in *. rewrite Ad. cbn [record trace].
              now rewrite <- app_assoc.
           ++ rewrite answers_app.
              change (answers [EvDo req (DoErr resp' text)]) with [DoErr resp' text].
              cbn [app]. now rewrite last_carried_cons.
    + unfold bind, time_Sleep; cbv beta iota.
      destruct (IH resp (record (EvSleep ((WeatherAPI.maxRetries - Z.of_nat k) * 100)) w))
        as (r' & w' & new & E & Ad & La).
      exists r', w', (new ++ [EvSleep ((WeatherAPI.maxRetries - Z.of_nat k) * 100)])%list.
      split; [exact E |]. split.
      * unfold added in *. rewrite Ad. cbn [record trace].
        now rewrite <- app_assoc.
      * now rewrite answers_sleep.
Qed.

(** X6. With a credential configured, [GetTemperature] panics exactly
    when the last request it sent brought back no response, or when it
    could send none; in every other case it returns.  The first request
    being refused is therefore harmless as long as a later one is
    answered. *)
Theorem GetTemperature_panics_iff_no_response
  (s : WeatherAPI.WeatherAPIService http_Client) (city : string) (w : World) :
  environ w "WEATHER_API_KEY" <> "" ->
  exists new,
    added w (snd (WeatherAPI.GetTemperature P s city w)) new
    /\ (fst (WeatherAPI.GetTemperature P s city w) = Panicked nil_dereference
        <-> last_carried None (answers new) = None)
    /\ (last_carried None (answers new) <> None ->
        exists r, fst (WeatherAPI.GetTemperature P s city w) = Normal r).
Proof.
  intros K. rewrite (GetTemperature_unfold P s city w K). unfold bind.
  destruct (retry_loop_last (WeatherAPI.client s)
              (weather_URL (WeatherAPI.baseURL s) (environ w "WEATHER_API_KEY") city)
              (Z.to_nat WeatherAPI.maxRetries) None None w)
    as (resp' & w' & new & E & Ad & La).
  rewrite E. exists new. rewrite <- La.
  destruct resp' as [resp |].
  - destruct (Decode_WeatherAPIResponse P (Body resp)) as [wr | de];
      [destruct (negb (StatusCode resp =? StatusOK));
       [destruct (Code (Error_ wr) =? 1006) |] |];
      (split; [exact Ad |]; split;
       [split; discriminate | intros _; eexists; reflexivity]).
  - split; [exact Ad |]. split.
    + split; reflexivity.
    + intros N. now elim N.
Qed.

End RetryFurther.

Section BackoffFurther.
Context (P : Platform).
Import services.

(** Past the loop nothing touches the world any more. *)
Lemma GetTemperature_world {C : Type} `{HTTPClient C}
  (s : WeatherAPI.WeatherAPIService C) (city : string) (w : World) :
  environ w "WEATHER_API_KEY" <> "" ->
  snd (WeatherAPI.GetTemperature P s city w)
  = snd (WeatherAPI.retry_loop P (WeatherAPI.client s)
           (weather_URL (WeatherAPI.baseURL s) (environ w "WEATHER_API_KEY") city)
           (Z.to_nat WeatherAPI.maxRetries) None None w).
Proof.
  intros K. rewrite (GetTemperature_unfold P s city w K). unfold bind.
  destruct (WeatherAPI.retry_loop P (WeatherAPI.client s)
              (weather_URL (WeatherAPI.baseURL s) (environ w "WEATHER_API_KEY") city)
              (Z.to_nat WeatherAPI.maxRetries) None None w)
    as [[[resp' err'] | reason] w1]; [| reflexivity].
  destruct resp' as [resp |], err' as [err |]; try reflexivity.
  destruct (Decode_WeatherAPIResponse P (Body resp)) as [wr | de]; [| reflexivity].
  destruct (negb (StatusCode resp =? StatusOK)); [| reflexivity].
  destruct (Code (Error_ wr) =? 1006); reflexivity.
Qed.

(** The three iterations of the loop, spelled out. *)
Lemma retry_loop_pauses (client : http_Client) (reqURL : string) (w : World) :
  exists new,
    added w (snd (WeatherAPI.retry_loop P client reqURL 3 None None w)) new
    /\ (forall req, NewRequestWithContext P "GET" reqURL "" = inl req ->
          pauses new = firstn (failures (answers new)) [100; 200])
    /\ (forall e, NewRequestWithContext P "GET" reqURL "" = inr e ->
          pauses new = [100; 200; 300] /\ answers new = []).
Proof.
  cbn [WeatherAPI.retry_loop].
  change (WeatherAPI.maxRetries - Z.of_nat 2) with 1.
  change (WeatherAPI.maxRetries - Z.of_nat 1) with 2.
  change (WeatherAPI.maxRetries - Z.of_nat 0) with 3.
  change (1 <? WeatherAPI.maxRetries) with true.
  change (2 <? WeatherAPI.maxRetries) with true.
  change (3 <? WeatherAPI.maxRetries) with false.
  change (1 * 100) with 100. change (2 * 100) with 200. change (3 * 100) with 300.
  destruct (NewRequestWithContext P "GET" reqURL "") as [req | e].
  - unfold bind. rewrite Do_http_Client.
    destruct (upstream w (trace w) req) as [r1 | o1 t1].
    { exists [EvDo req (DoOk r1)]. split; [reflexivity |].
      split; [intros; reflexivity | intros e E; discriminate E]. }
    unfold time_Sleep at 1. cbv beta iota. rewrite Do_http_Client.
    set (w1 := record (EvSleep 100) (record (EvDo req (DoErr o1 t1)) w)).
    destruct (upstream w1 (trace w1) req) as [r2 | o2 t2].
    { exists [EvDo req (DoOk r2); EvSleep 100; EvDo req (DoErr o1 t1)].
      split; [reflexivity |].
      split; [intros; reflexivity | intros e E; discriminate E]. }
    unfold time_Sleep at 1. cbv beta iota. rewrite Do_http_Client.
    set (w2 := record (EvSleep 200) (record (EvDo req (DoErr o2 t2)) w1)).
    destruct (upstream w2 (trace w2) req) as [r3 | o3 t3].
    { exists [EvDo req (DoOk r3); EvSleep 200; EvDo req (DoErr o2 t2);
              EvSleep 100; EvDo req (DoErr o1 t1)].
      split; [reflexivity |].
      split; [intros; reflexivity | intros e E; discriminate E]. }
    exists [EvDo req (DoErr o3 t3); EvSleep 200; EvDo req (DoErr o2 t2);
            EvSleep 100; EvDo req (DoErr o1 t1)].
    split; [reflexivity |].
    split; [intros; reflexivity | intros e E; discriminate E].
  - exists [EvSleep 300; EvSleep 200; EvSleep 100].
    split; [reflexivity |].
    split; [intros req E; discriminate E | intros; split; reflexivity].
Qed.

(** X7. The pauses of [GetTemperature].  When the request can be built,
    the call pauses 100 ms after a first failed request and 200 ms
    after a second one, and not after the third: the pauses are the
    first [n] of 100, 200 for [n] failed requests.  When the request
    cannot be built, the call sends nothing and pauses 100, 200 and
    300 ms, the last pause before giving up included. *)
Theorem GetTemperature_pauses
  (s : WeatherAPI.WeatherAPIService http_Client) (city : string) (w : World) :
  environ w "WEATHER_API_KEY" <> "" ->
  let reqURL :=
    weather_URL (WeatherAPI.baseURL s) (environ w "WEATHER_API_KEY") city in
  exists new,
    added w (snd (WeatherAPI.GetTemperature P s city w)) new
    /\ (forall req, NewRequestWithContext P "GET" reqURL "" = inl req ->
          pauses new = firstn (failures (answers new)) [100; 200])
    /\ (forall e, NewRequestWithContext P "GET" reqURL "" = inr e ->
          pauses new = [100; 200; 300] /\ answers new = []).
Proof.
  intros K reqURL. rewrite (GetTemperature_world s city w K).
  exact (retry_loop_pauses (WeatherAPI.client s) reqURL w).
Qed.

(** X8. [GetTemperature] either panics on the nil response, or returns
    a reading and no error, or returns no reading and one of four
    errors: the missing credential, the city not found, a body that
    does not decode, the failure the upstream reports.  It never
    returns both a reading and an error, nor neither. *)
Theorem GetTemperature_reading_or_error
  (s : WeatherAPI.WeatherAPIService http_Client) (city : string) (w : World) :
  exists w',
    WeatherAPI.GetTemperature P s city w = (Panicked nil_dereference, w')
    \/ (exists temp,
          WeatherAPI.GetTemperature P s city w = (Normal (Some temp, None), w'))
    \/ (exists e,
          WeatherAPI.GetTemperature P s city w = (Normal (None, Some e), w')
          /\ weather_error e).
Proof.
  destruct (String.eqb (environ w "WEATHER_API_KEY") "") eqn:K.
  - exists w. right. right. exists ErrAPIKeyNotConfigured.
    split; [| now left].
    unfold WeatherAPI.GetTemperature, bind, os_Getenv. now rewrite K.
  - apply String.eqb_neq in K. rewrite (GetTemperature_unfold P s city w K).
    unfold bind.
    destruct (retry_loop_returns P (WeatherAPI.client s)
                (weather_URL (WeatherAPI.baseURL s) (environ w "WEATHER_API_KEY") city)
                (Z.to_nat WeatherAPI.maxRetries) None None w
                (net_Do_total (WeatherAPI.client s)))
      as (resp' & w1 & E).
    rewrite E. exists w1.
    destruct resp' as [resp |]; [| now left].
    right.
    destruct (Decode_WeatherAPIResponse P (Body resp)) as [wr | de].
    + destruct (negb (StatusCode resp =? StatusOK)).
      * right. destruct (Code (Error_ wr) =? 1006).
        -- exists ErrCityNotFound. split; [reflexivity |]. right. now left.
        -- eexists. split; [reflexivity |]. right. right. right. now eexists.
      * left. now eexists.
    + right. eexists. split; [reflexivity |]. right. right. left. now eexists.
Qed.

End BackoffFurther.

(** ** The URL of the weather request *)

Section QueryFacts.

Lemma append_empty (s : string) : s ++ "" = s.
Proof. induction s as [| c s IH]; cbn; [reflexivity | now rewrite IH]. Qed.

Lemma code_ascii_of_N (n : Z) :
  0 <= n < 256 -> GoString.code (ascii_of_N (Z.to_N n)) = n.
Proof.
  intros B. unfold GoString.code.
  rewrite N_ascii_embedding by lia. lia.
Qed.

Lemma hex_upper_query_byte (n : Z) :
  0 <= n < 16 -> query_byte (GoString.hex_upper n) = true.
Proof.
  intros B. unfold query_byte, GoString.hex_upper, GoString.unreserved,
    GoString.is_alnum, GoString.in_range.
  destruct (n <? 10) eqn:D; range_facts; rewrite code_ascii_of_N by lia.
  - replace (48 <=? 48 + n) with true by (symmetry; apply Z.leb_le; lia).
    replace (48 + n <=? 57) with true by (symmetry; apply Z.leb_le; lia).
    reflexivity.
  - replace (65 <=? 55 + n) with true by (symmetry; apply Z.leb_le; lia).
    replace (55 + n <=? 90) with true by (symmetry; apply Z.leb_le; lia).
    now rewrite !orb_true_r.
Qed.

(** What [url.QueryEscape] puts out holds only unreserved bytes, [+]
    and [%]. *)
Lemma QueryEscape_query_bytes (city : string) :
  every_byte query_byte (GoString.QueryEscape city) = true.
Proof.
  induction city as [| c rest IH]; [reflexivity |].
  cbn [GoString.QueryEscape]. cbv zeta.
  pose proof (code_bounds c) as B.
  destruct (GoString.code c =? 32); [cbn [every_byte]; now rewrite IH |].
  destruct (GoString.unreserved (GoString.code c)) eqn:U.
  - cbn [every_byte]. unfold query_byte at 1. now rewrite U, IH.
  - cbn [every_byte].
    rewrite (hex_upper_query_byte (GoString.code c / 16))
      by (split; [apply Z.div_pos | apply Z.div_lt_upper_bound]; lia).
    rewrite (hex_upper_query_byte (GoString.code c mod 16))
      by (apply Z.mod_pos_bound; lia).
    now rewrite IH.
Qed.

Lemma weather_URL_parts (base apiKey city : string) :
  weather_URL base apiKey city
  = base ++ "?key=" ++ apiKey ++ "&q=" ++ GoString.QueryEscape city.
Proof. unfold weather_URL. cbn [GoString.Sprintf]. now rewrite append_empty. Qed.

Lemma requests_app (a b : list event) :
  requests (a ++ b) = (requests a ++ requests b)%list.
Proof.
  induction a as [| e a IH]; [reflexivity |].
  destruct e; cbn [app requests]; now rewrite IH.
Qed.

End QueryFacts.

Section QueryFurther.
Context (P : Platform).
Import services.

(** Every request of the retry loop is the GET of the one URL the loop
    was given. *)
Lemma retry_loop_requests (client : http_Client) (reqURL : string) (remaining : nat)
  (resp : option Response) (err : option error) (w : World) :
  exists new,
    added w (snd (WeatherAPI.retry_loop P client reqURL remaining resp err w)) new
    /\ Forall (fun req => req = mkRequest "GET" reqURL [] "") (requests new).
Proof.
  revert resp w.
  induction remaining as [| k IH]; intros resp w; cbn [WeatherAPI.retry_loop].
  - exists []. split; [reflexivity | constructor].
  - destruct (NewRequestWithContext P "GET" reqURL "") as [req | e] eqn:B.
    + assert (R : req = mkRequest "GET" reqURL [] "").
      { unfold NewRequestWithContext in B.
        destruct (url_Parse_error P reqURL); inversion B; reflexivity. }
      unfold bind. rewrite Do_http_Client.
      destruct (upstream w (trace w) req) as [resp' | resp' text] eqn:A.
      * exists [EvDo req (DoOk resp')]. split; [reflexivity |].
        cbn [requests]. now repeat constructor.
      * destruct (WeatherAPI.maxRetries - Z.of_nat k <? WeatherAPI.maxRetries).
        -- unfold time_Sleep; cbv beta iota.
           destruct (IH resp'
                       (record (EvSleep ((WeatherAPI.maxRetries - Z.of_nat k) * 100))
                          (record (EvDo req (DoErr resp' text)) w)))
             as (new & Ad & Rq).
           exists (new ++ [EvSleep ((WeatherAPI.maxRetries - Z.of_nat k) * 100);
                           EvDo req (DoErr resp' text)])%list.
           split.
           ++ unfold added in *. rewrite Ad. cbn [record trace].
              now rewrite <- app_assoc.
           ++ rewrite requests_app. apply Forall_app. split; [exact Rq |].
              cbn [requests]. now repeat constructor.
        -- unfold ret; cbv beta iota.
           destruct (IH resp' (record (EvDo req (DoErr resp' text)) w))
             as (new & Ad & Rq).
           exists (new ++ [EvDo req (DoErr resp' text)])%list.
           split.
           ++ unfold added in *. rewrite Ad. cbn [record trace].
              now rewrite <- app_assoc.
           ++ rewrite requests_app. apply Forall_app. split; [exact Rq |].
              cbn [requests]. now repeat constructor.
    + unfold bind, time_Sleep; cbv beta iota.
      destruct (IH resp (record (EvSleep ((WeatherAPI.maxRetries - Z.of_nat k) * 100)) w))
        as (new & Ad & Rq).
      exists (new ++ [EvSleep ((WeatherAPI.maxRetries - Z.of_nat k) * 100)])%list.
      split.
      * unfold added in *. rewrite Ad. cbn [record trace].
        now rewrite <- app_assoc.
      * rewrite requests_app. apply Forall_app. split; [exact Rq | constructor].
Qed.

(** X9. Every request [GetTemperature] sends is the GET of one URL: the
    base, the credential as the value of [key], and the escaped city as
    the value of [q], in this order.  The escaped city holds only
    unreserved bytes, [+] and [%]: no [&], [=], [#] or space, so the
    name of a city can neither end the parameter [q] nor add another
    one to a request. *)
Theorem GetTemperature_city_is_escaped
  (s : WeatherAPI.WeatherAPIService http_Client) (city : string) (w : World) :
  exists new q,
    added w (snd (WeatherAPI.GetTemperature P s city w)) new
    /\ q = GoString.QueryEscape city
    /\ every_byte query_byte q = true
    /\ Forall (fun req =>
                 req = mkRequest "GET"
                         (WeatherAPI.baseURL s ++ "?key=" ++ environ w "WEATHER_API_KEY"
                            ++ "&q=" ++ q) [] "")
         (requests new).
Proof.
  destruct (String.eqb (environ w "WEATHER_API_KEY") "") eqn:K.
  - exists [], (GoString.QueryEscape city).
    unfold WeatherAPI.GetTemperature, bind, os_Getenv. rewrite K.
    split; [reflexivity |]. split; [reflexivity |].
    split; [apply QueryEscape_query_bytes | constructor].
  - apply String.eqb_neq in K. rewrite (GetTemperature_world P s city w K).
    destruct (retry_loop_requests (WeatherAPI.client s)
                (weather_URL (WeatherAPI.baseURL s) (environ w "WEATHER_API_KEY") city)
                (Z.to_nat WeatherAPI.maxRetries) None None w)
      as (new & Ad & Rq).
    exists new, (GoString.QueryEscape city).
    split; [exact Ad |]. split; [reflexivity |].
    split; [apply QueryEscape_query_bytes |].
    now rewrite <- weather_URL_parts.
Qed.

End QueryFurther.

(** ** The replies of svc-b *)

Section ReplyFurther.
Context (P : Platform).
Import services.

Lemma handleCEPError_fixed (err : error) :
  exists code message,
    In (code, message) geo_error_replies
    /\ replies (fun rw => handlers.handleCEPError P rw err) code (error_body message).
Proof.
  destruct (errors_Is err ErrInvalidZipCode) eqn:I.
  - exists 422, "invalid zipcode". split; [cbn; tauto |].
    now apply handleCEPError_invalid.
  - destruct (errors_Is err ErrZipCodeNotFound) eqn:N.
    + exists 404, "can not find zipcode". split; [cbn; tauto |].
      now apply handleCEPError_not_found.
    + exists 500, "internal server error". split; [cbn; tauto |].
      now apply handleCEPError_other.
Qed.

Lemma handleWeatherError_fixed (err : error) :
  exists code message,
    In (code, message) weather_error_replies
    /\ replies (fun rw => handlers.handleWeatherError P rw err) code (error_body message).
Proof.
  destruct (errors_Is err ErrAPIKeyNotConfigured) eqn:K.
  - exists 500, "weather service configuration error". split; [cbn; tauto |].
    now apply handleWeatherError_configuration.
  - destruct (errors_Is err ErrCityNotFound) eqn:N.
    + exists 404, "city not found in weather service". split; [cbn; tauto |].
      now apply handleWeatherError_city_not_found.
    + exists 500, "failed to get weather data". split; [cbn; tauto |].
      now apply handleWeatherError_other.
Qed.

(** X10. Whatever error a service returns, and whatever text a library
    put into it, the reply of [handleCEPError] is one of three fixed
    documents and the reply of [handleWeatherError] one of three others:
    the text of the error never reaches the caller.  An error that
    wraps none of the two values a handler singles out is answered 500
    by that handler; such are [ErrInternalServer], every library error
    however it is wrapped, and the wrapped [ErrWeatherAPIFailed] with
    the message of the weather service. *)
Theorem error_replies_are_fixed (err : error) :
  (exists code message,
      In (code, message) geo_error_replies
      /\ replies (fun rw => handlers.handleCEPError P rw err) code (error_body message))
  /\ (exists code message,
        In (code, message) weather_error_replies
        /\ replies (fun rw => handlers.handleWeatherError P rw err) code
             (error_body message))
  /\ (errors_Is err ErrInvalidZipCode = false ->
      errors_Is err ErrZipCodeNotFound = false ->
      replies (fun rw => handlers.handleCEPError P rw err)
        500 (error_body "internal server error"))
  /\ (errors_Is err ErrAPIKeyNotConfigured = false ->
      errors_Is err ErrCityNotFound = false ->
      replies (fun rw => handlers.handleWeatherError P rw err)
        500 (error_body "failed to get weather data"))
  /\ replies (fun rw => handlers.handleCEPError P rw ErrInternalServer)
       500 (error_body "internal server error")
  /\ (forall before text after,
        replies (fun rw => handlers.handleCEPError P rw
                             (Errorf_w before (External text) after))
          500 (error_body "internal server error")
        /\ replies (fun rw => handlers.handleWeatherError P rw
                                (Errorf_w before (External text) after))
             500 (error_body "failed to get weather data"))
  /\ (forall message,
        replies (fun rw => handlers.handleWeatherError P rw
                             (Errorf_w "" ErrWeatherAPIFailed (": " ++ message)))
          500 (error_body "failed to get weather data")).
Proof.
  split; [| split; [| split; [| split; [| split; [| split]]]]].
  - destruct (handleCEPError_fixed err) as (code & message & I & R).
    now exists code, message.
  - destruct (handleWeatherError_fixed err) as (code & message & I & R).
    now exists code, message.
  - intros I N. now apply handleCEPError_other.
  - intros K N. now apply handleWeatherError_other.
  - now apply handleCEPError_other.
  - intros before text after. split.
    + now apply handleCEPError_other.
    + now apply handleWeatherError_other.
  - intros message. now apply handleWeatherError_other.
Qed.

Lemma respondWithJSON_cases (code : Z) (v : handlers.payload) (rw : ResponseWriter) :
  status rw = None ->
  header (handlers.respondWithJSON P rw code v) = header rw
  /\ (status (handlers.respondWithJSON P rw code v) = Some code
      \/ (status (handlers.respondWithJSON P rw code v) = Some 500
          /\ written (handlers.respondWithJSON P rw code v)
             = written rw ++ error_body "internal server error")).
Proof.
  intros U. unfold handlers.respondWithJSON.
  destruct (handlers.json_Marshal P v) as [doc | e].
  - split; [| left; now apply Write_status].
    rewrite Write_header. now rewrite (WriteHeader_unwritten code rw U).
  - rewrite (Write_after_WriteHeader StatusInternalServerError _ rw U eq_refl).
    split; [reflexivity | right; now split].
Qed.


End ReplyFurther.

(** ** One inbound request to svc-b *)

Section PipelineFurther.
Context (P : Platform).
Import services.

Lemma GetCityByCEP_run (s : ViaCEP.ViaCEPService http_Client) (cep : string) (w : World) :
  exists r w' new,
    ViaCEP.GetCityByCEP P s cep w = (Normal r, w')
    /\ added w w' new
    /\ (List.length (answers new) <= 1)%nat.
Proof.
  destruct (Z.eq_dec (GoString.len (normalize cep)) 8) as [L | L].
  - destruct (NewRequestWithContext P "GET"
                (GoString.Sprintf (ViaCEP.baseURL s) [normalize cep]) "")
      as [req | err0] eqn:B.
    + rewrite (GetCityByCEP_sent P s cep w req L B).
      assert (A : added w (record (EvDo req (upstream w (trace w) req)) w)
                    [EvDo req (upstream w (trace w) req)]) by reflexivity.
      destruct (upstream w (trace w) req) as [resp | oresp text];
        [| do 3 eexists; split; [reflexivity | split; [exact A | cbn; lia]]].
      destruct (negb (StatusCode resp =? StatusOK));
        [do 3 eexists; split; [reflexivity | split; [exact A | cbn; lia]] |].
      destruct (fault (Body resp));
        [do 3 eexists; split; [reflexivity | split; [exact A | cbn; lia]] |].
      destruct (Unmarshal_ViaCEPResponse P (data (Body resp))) as [v | e];
        [| do 3 eexists; split; [reflexivity | split; [exact A | cbn; lia]]].
      destruct (Erro v);
        [do 3 eexists; split; [reflexivity | split; [exact A | cbn; lia]] |].
      destruct (String.eqb (Localidade v) "");
        do 3 eexists; (split; [reflexivity | split; [exact A | cbn; lia]]).
    + rewrite (GetCityByCEP_not_built P s cep w err0 L B).
      exists ("", Some (Errorf_w "failed to create request: " err0 "")), w, [].
      repeat split. cbn. lia.
  - rewrite (GetCityByCEP_too_short_or_long P s cep w L).
    exists ("", Some ErrInvalidZipCode), w, [].
    repeat split. cbn. lia.
Qed.

Lemma GetTemperature_added_bound
  (s : WeatherAPI.WeatherAPIService http_Client) (city : string) (w : World) :
  exists new,
    added w (snd (WeatherAPI.GetTemperature P s city w)) new
    /\ (List.length (answers new) <= 3)%nat.
Proof.
  destruct (String.eqb (environ w "WEATHER_API_KEY") "") eqn:K.
  - exists []. unfold WeatherAPI.GetTemperature, bind, os_Getenv. rewrite K.
    split; [reflexivity | cbn; lia].
  - apply String.eqb_neq in K. rewrite (GetTemperature_world P s city w K).
    destruct (retry_loop_trace P (WeatherAPI.client s)
                (weather_URL (WeatherAPI.baseURL s) (environ w "WEATHER_API_KEY") city)
                (Z.to_nat WeatherAPI.maxRetries) None None w)
      as (new & Ad & Len & _).
    now exists new.
Qed.

(** X12. One GET to svc-b, wired as it runs, causes at most four
    outbound requests (one to the geocoder, three to the weather
    service).  When the handler returns, the reply has the JSON content
    type and either the status 200, or one of the six fixed error
    documents with its status 422, 404 or 500. *)
Theorem svc_b_GET_answers (raw : string) (w : World) :
  exists new,
    added w (snd (svc_b.GET P fresh raw w)) new
    /\ (List.length (answers new) <= 4)%nat
    /\ forall rw', fst (svc_b.GET P fresh raw w) = Normal rw' ->
         header rw' = [("Content-Type", "application/json")]
         /\ (status rw' = Some 200
             \/ exists code message,
                  In (code, message) (geo_error_replies ++ weather_error_replies)
                  /\ status rw' = Some code
                  /\ written rw' = error_body message).
Proof.
  destruct (passes_validation raw) eqn:V.
  2: { rewrite (svc_b_GET_rejects P fresh raw w V).
       exists []. split; [reflexivity |]. split; [cbn; lia |].
       intros rw' R. inversion R; subst. split; [reflexivity |].
       right. exists 422, "invalid zipcode". split; [cbn; tauto | now split]. }
  unfold svc_b.GET, handlers.GetWeatherByCEP. cbv zeta.
  change (GoString.ReplaceAll (GoString.ReplaceAll raw "-" "") "." "")
    with (normalize raw).
  unfold handlers.processWeatherRequest.
  unfold passes_validation in V. rewrite V. cbn [negb]. unfold bind.
  change (GetCityByCEP (handlers.cepService svc_b.handler) (normalize raw) w)
    with (ViaCEP.GetCityByCEP P svc_b.cep_service (normalize raw) w).
  destruct (GetCityByCEP_run svc_b.cep_service (normalize raw) w)
    as ([city oerr] & w1 & new1 & E1 & A1 & L1).
  rewrite E1.
  set (rw0 := Header_Set "Content-Type" "application/json" fresh).
  assert (U0 : status rw0 = None) by reflexivity.
  destruct oerr as [err |].
  - exists new1. split; [exact A1 |]. split; [lia |].
    intros rw' R. inversion R; subst rw'.
    destruct (handleCEPError_fixed P err) as (code & message & I & Rep).
    destruct (Rep rw0 U0) as (S & W & H).
    split; [exact H |]. right. exists code, message.
    split; [apply in_or_app; now left |]. now split.
  - change (GetTemperature (handlers.weatherService svc_b.handler) city w1)
      with (WeatherAPI.GetTemperature P svc_b.weather_service city w1).
    destruct (GetTemperature_added_bound svc_b.weather_service city w1)
      as (new2 & A2 & L2).
    exists (new2 ++ new1)%list.
    assert (A12 : added w (snd (WeatherAPI.GetTemperature P svc_b.weather_service city w1))
                    (new2 ++ new1)) by (now apply (added_trans w w1)).
    assert (L12 : (List.length (answers (new2 ++ new1)) <= 4)%nat)
      by (rewrite answers_app, length_app; lia).
    destruct (WeatherAPI.GetTemperature P svc_b.weather_service city w1)
      as [[[otemp oerr] | reason] w2]; cbn [snd] in *.
    + destruct otemp as [temp |], oerr as [err |]; cbn [fst snd].
      * split; [exact A12 |]. split; [exact L12 |].
        intros rw' R. inversion R; subst rw'.
        destruct (handleWeatherError_fixed P err) as (code & message & I & Rep).
        destruct (Rep rw0 U0) as (S & W & H).
        split; [exact H |]. right. exists code, message.
        split; [apply in_or_app; now right |]. now split.
      * split; [exact A12 |]. split; [exact L12 |].
        intros rw' R. inversion R; subst rw'.
        destruct (respondWithJSON_cases P StatusOK
                    (handlers.WeatherResponse city (models.TempC temp)
                       (models.TempF temp) (models.TempK temp)) rw0 U0)
          as (H & [S | [S W]]).
        -- split; [exact H |]. now left.
        -- split; [exact H |]. right. exists 500, "internal server error".
           split; [cbn; tauto |]. now split.
      * split; [exact A12 |]. split; [exact L12 |].
        intros rw' R. inversion R; subst rw'.
        destruct (handleWeatherError_fixed P err) as (code & message & I & Rep).
        destruct (Rep rw0 U0) as (S & W & H).
        split; [exact H |]. right. exists code, message.
        split; [apply in_or_app; now right |]. now split.
      * split; [exact A12 |]. split; [exact L12 |].
        intros rw' R. discriminate R.
    + split; [exact A12 |]. split; [exact L12 |].
      intros rw' R. discriminate R.
Qed.

End PipelineFurther.

(** ** One inbound request to the edge service *)

Section EdgeFurther.
Context (P : Platform).

(** An answer of the edge service made by [respondWithError]. *)
Lemma edge_replied (run : outcome ResponseWriter * World) (w : World)
  (rw0 : ResponseWriter) (code : Z) (message : string) :
  status rw0 = None ->
  run = (Normal (svc_a.respondWithError rw0 code message), w) ->
  snd run = w
  /\ (forall rw, fst run = Normal rw -> status rw = Some code)
  /\ exists rw, fst run = Normal rw /\ status rw = Some code.
Proof.
  intros U ->. cbn [fst snd]. split; [reflexivity |].
  pose proof (svc_a_respondWithError_status code message rw0 U) as S.
  split; [| eexists; split; [reflexivity | exact S]].
  intros rw R. inversion R; subst rw. exact S.
Qed.

(** X13. [HandleWeatherRequest] sends at most one request, and sends it
    only for a POST whose body decodes to a postal code accepted by
    [isValidCEP]: that request is a POST to the configured address of
    svc-b, with the JSON content type and the postal code as its body.
    When nothing is sent the handler returns with the status 405, 400,
    422 or 500.  When the request is sent the handler returns with a
    status written, in every case but one: it panics exactly when the
    request is answered by a response whose body can be read and whose
    status code is below 100 or above 999. *)
Theorem HandleWeatherRequest_answers_once (app : svc_a.App) (r : svc_a.Inbound)
  (w : World) :
  let run := svc_a.HandleWeatherRequest P app fresh r w in
  exists new,
    added w (snd run) new
    /\ (forall rw, fst run = Normal rw -> status rw <> None)
    /\ ((new = []
         /\ exists rw, fst run = Normal rw
              /\ In (status rw) [Some 405; Some 400; Some 422; Some 500])
        \/ exists cep answer,
             new = [EvDo (Request_Header_Set "Content-Type" "application/json"
                            (mkRequest "POST" (svc_a.ServiceBURL (svc_a.config app)) []
                               (svc_a.Marshal_CepRequest cep)))
                      answer]
             /\ svc_a.InMethod r = "POST"
             /\ Unmarshal_CepRequest P (data (svc_a.InBody r)) = inl (mkCepRequest cep)
             /\ svc_a.isValidCEP cep = true
             /\ ((exists reason, fst run = Panicked reason)
                 <-> exists resp,
                       answer = DoOk resp
                       /\ fault (Body resp) = None
                       /\ (StatusCode resp < 100 \/ 999 < StatusCode resp))).
Proof.
  cbv zeta.
  assert (Unsent : forall rw0 code message,
             status rw0 = None ->
             In (Some code) [Some 405; Some 400; Some 422; Some 500] ->
             svc_a.HandleWeatherRequest P app fresh r w
             = (Normal (svc_a.respondWithError rw0 code message), w) ->
             exists new,
               added w (snd (svc_a.HandleWeatherRequest P app fresh r w)) new
               /\ (forall rw, fst (svc_a.HandleWeatherRequest P app fresh r w) = Normal rw ->
                     status rw <> None)
               /\ ((new = []
                    /\ exists rw, fst (svc_a.HandleWeatherRequest P app fresh r w) = Normal rw
                         /\ In (status rw) [Some 405; Some 400; Some 422; Some 500])
                   \/ exists cep answer,
                        new = [EvDo (Request_Header_Set "Content-Type" "application/json"
                                       (mkRequest "POST"
                                          (svc_a.ServiceBURL (svc_a.config app)) []
                                          (svc_a.Marshal_CepRequest cep)))
                                 answer]
                        /\ svc_a.InMethod r = "POST"
                        /\ Unmarshal_CepRequest P (data (svc_a.InBody r))
                           = inl (mkCepRequest cep)
                        /\ svc_a.isValidCEP cep = true
                        /\ ((exists reason,
                               fst (svc_a.HandleWeatherRequest P app fresh r w)
                               = Panicked reason)
                            <-> exists resp,
                                  answer = DoOk resp
                                  /\ fault (Body resp) = None
                                  /\ (StatusCode resp < 100 \/ 999 < StatusCode resp)))).
  { intros rw0 code message U I E.
    destruct (edge_replied _ w rw0 code message U E) as (W & S & rw & R & Sr).
    exists []. split; [unfold added; now rewrite W |].
    split; [intros rw' R'; rewrite (S rw' R'); discriminate |].
    left. split; [reflexivity |]. exists rw. split; [exact R |]. now rewrite Sr. }
  destruct (String.eqb (svc_a.InMethod r) MethodPost) eqn:M.
  2: { apply (Unsent fresh StatusMethodNotAllowed "only POST method is allowed");
         [reflexivity | cbn; tauto |].
       unfold svc_a.HandleWeatherRequest. now rewrite M. }
  apply String.eqb_eq in M.
  destruct (fault (svc_a.InBody r)) as [text |] eqn:F.
  { apply (Unsent (Header_Set "Content-Type" "application/json" fresh)
             StatusBadRequest "invalid request body");
      [reflexivity | cbn; tauto |].
    unfold svc_a.HandleWeatherRequest. rewrite M. cbn [String.eqb negb].
    rewrite String.eqb_refl. cbn [negb]. unfold io_ReadAll. now rewrite F. }
  destruct (Unmarshal_CepRequest P (data (svc_a.InBody r))) as [[cep] | e] eqn:U.
  2: { apply (Unsent (Header_Set "Content-Type" "application/json" fresh)
                StatusBadRequest "invalid request format");
         [reflexivity | cbn; tauto |].
       unfold svc_a.HandleWeatherRequest. rewrite M. cbn [String.eqb negb].
       rewrite String.eqb_refl. cbn [negb]. unfold io_ReadAll. rewrite F.
       cbn [option_map]. now rewrite U. }
  destruct (svc_a.isValidCEP cep) eqn:V.
  2: { apply (Unsent (Header_Set "Content-Type" "application/json" fresh)
                StatusUnprocessableEntity "invalid zipcode");
         [reflexivity | cbn; tauto |].
       exact (HandleWeatherRequest_rejects P app fresh r (mkCepRequest cep) w M F U V). }
  pose proof (HandleWeatherRequest_forwarded P app fresh r (mkCepRequest cep) w M F U V)
    as Fw.
  cbn [cep_field] in Fw.
  destruct (NewRequestWithContext P MethodPost (svc_a.ServiceBURL (svc_a.config app))
              (svc_a.Marshal_CepRequest cep)) as [out | err0] eqn:B.
  2: { rewrite (callServiceB_not_built P app cep w err0 B) in Fw.
       exact (Unsent (Header_Set "Content-Type" "application/json" fresh)
                StatusInternalServerError _ eq_refl
                ltac:(cbn; tauto) Fw). }
  pose proof (callServiceB_sent P app cep w out B) as E. cbv zeta in E.
  rewrite E in Fw. clear E.
  assert (R : out = mkRequest "POST" (svc_a.ServiceBURL (svc_a.config app)) []
                      (svc_a.Marshal_CepRequest cep)).
  { unfold NewRequestWithContext in B.
    destruct (url_Parse_error P _); inversion B; reflexivity. }
  subst out.
  set (sent := Request_Header_Set "Content-Type" "application/json" _) in *.
  set (rw0 := Header_Set "Content-Type" "application/json" fresh) in *.
  assert (U0 : status rw0 = None) by reflexivity.
  destruct (upstream w (trace w) sent) as [resp | oresp text'] eqn:A.
  - destruct (fault (Body resp)) as [ftext |] eqn:Fb.
    + exists [EvDo sent (DoOk resp)]. rewrite Fw. cbn [fst snd].
      split; [reflexivity |]. split.
      { intros rw Rw. inversion Rw; subst rw.
        now rewrite (svc_a_respondWithError_status _ _ rw0 U0). }
      right. exists cep, (DoOk resp). repeat split; try assumption.
      * intros [reason Pa]. discriminate Pa.
      * intros (resp' & Eq & Fn & _). inversion Eq; subst resp'.
        rewrite Fb in Fn. discriminate Fn.
    + rewrite (relay_step (StatusCode resp) (data (Body resp)) rw0 _ U0) in Fw.
      exists [EvDo sent (DoOk resp)].
      destruct ((StatusCode resp <? 100) || (StatusCode resp >? 999)) eqn:Re.
      * rewrite Fw. cbn [fst snd].
        split; [reflexivity |]. split; [intros rw Rw; discriminate Rw |].
        right. exists cep, (DoOk resp). repeat split; try assumption.
        -- intros _. exists resp. split; [reflexivity |]. split; [exact Fb |].
           apply orb_true_iff in Re. rewrite Z.gtb_ltb, !Z.ltb_lt in Re. lia.
        -- intros _. eexists. reflexivity.
      * assert (Ok : ~ (StatusCode resp < 100 \/ 999 < StatusCode resp)).
        { apply orb_false_iff in Re. rewrite Z.gtb_ltb, !Z.ltb_ge in Re. lia. }
        destruct ((100 <=? StatusCode resp) && (StatusCode resp <=? 199)
                  && negb (StatusCode resp =? 101));
          rewrite Fw; cbn [fst snd];
          (split; [reflexivity |]);
          (split; [intros rw Rw; inversion Rw; subst rw; discriminate |]);
          right; exists cep, (DoOk resp); repeat split; try assumption;
          try (intros [reason Pa]; discriminate Pa);
          intros (resp' & Eq & _ & Bad); inversion Eq; subst resp'; now elim Ok.
  - exists [EvDo sent (DoErr oresp text')]. rewrite Fw. cbn [fst snd].
    split; [reflexivity |]. split.
    { intros rw Rw. inversion Rw; subst rw.
      now rewrite (svc_a_respondWithError_status _ _ rw0 U0). }
    right. exists cep, (DoErr oresp text'). repeat split; try assumption.
    + intros [reason Pa]. discriminate Pa.
    + intros (resp' & Eq & _). discriminate Eq.
Qed.

End EdgeFurther.

(** ** The configuration of the edge service *)

Section ConfigFurther.
Context (Sscanf_d : string -> Z + error).

Lemma getEnv_not_empty (key defaultValue : string) (w : World) :
  defaultValue <> "" ->
  exists value,
    svc_a_config.getEnv key defaultValue w = (Normal value, w)
    /\ value <> ""
    /\ (environ w key = "" -> value = defaultValue)
    /\ (environ w key <> "" -> value = environ w key).
Proof.
  intros D. unfold svc_a_config.getEnv, bind, os_Getenv.
  destruct (String.eqb (environ w key) "") eqn:E; cbn [negb].
  - apply String.eqb_eq in E. exists defaultValue.
    repeat split; [exact D | intros N; now elim N].
  - apply String.eqb_neq in E. exists (environ w key).
    repeat split; [exact E | intros Z; now elim E].
Qed.

(** X14. [LoadConfig] only reads the environment, and whatever the
    environment holds, none of the port, the two addresses and the
    service name it returns is empty: a variable that is unset or
    empty gives way to the default. *)
Theorem LoadConfig_fields_not_empty (w : World) :
  exists c,
    svc_a_config.LoadConfig Sscanf_d w = (Normal c, w)
    /\ svc_a.Port c <> ""
    /\ svc_a.ZipkinURL c <> ""
    /\ svc_a.ServiceBURL c <> ""
    /\ svc_a.ServiceName c <> ""
    /\ (environ w "PORT" = "" -> svc_a.Port c = "8080")
    /\ (environ w "SERVICE_B_URL" = "" ->
        svc_a.ServiceBURL c = "http://svc-b:8081/weather").
Proof.
  unfold svc_a_config.LoadConfig.
  destruct (getEnv_not_empty "PORT" "8080" w ltac:(discriminate))
    as (port & E1 & N1 & D1 & _).
  destruct (getEnv_not_empty "ZIPKIN_URL" "http://zipkin:9411/api/v2/spans" w
              ltac:(discriminate)) as (zipkin & E2 & N2 & _).
  destruct (getEnv_not_empty "SERVICE_B_URL" "http://svc-b:8081/weather" w
              ltac:(discriminate)) as (serviceB & E3 & N3 & D3 & _).
  destruct (getEnv_not_empty "SERVICE_NAME" "svc-a" w ltac:(discriminate))
    as (name & E4 & N4 & _).
  unfold bind at 1. rewrite E1. unfold bind at 1. rewrite E2.
  unfold bind at 1. rewrite E3. unfold bind at 1. rewrite E4.
  unfold bind, svc_a_config.getEnvAsInt, bind, os_Getenv.
  destruct (negb (String.eqb (environ w "TIMEOUT_SECONDS") ""));
    [destruct (svc_a_config.getIntFromString Sscanf_d (environ w "TIMEOUT_SECONDS"))
       as [n [e |]] |];
    (eexists; split; [reflexivity |]; cbn; repeat split; assumption).
Qed.

(** X15. The timeout of the configuration.  It is ten seconds when
    [TIMEOUT_SECONDS] is unset, empty or does not scan as an integer.
    When it scans as [n], the timeout is [n] seconds for every [n]
    whose nanoseconds fit in an [int64]; no lower bound is applied, so
    a value that is zero or negative comes through as it is. *)
Theorem LoadConfig_timeout (w : World) :
  exists c,
    svc_a_config.LoadConfig Sscanf_d w = (Normal c, w)
    /\ (environ w "TIMEOUT_SECONDS" = "" ->
        svc_a.Timeout c = 10 * svc_a_config.Second)
    /\ (forall e, Sscanf_d (environ w "TIMEOUT_SECONDS") = inr e ->
        svc_a.Timeout c = 10 * svc_a_config.Second)
    /\ (forall n,
          environ w "TIMEOUT_SECONDS" <> "" ->
          Sscanf_d (environ w "TIMEOUT_SECONDS") = inl n ->
          - 9223372036 <= n <= 9223372036 ->
          svc_a.Timeout c = n * svc_a_config.Second).
Proof.
  unfold svc_a_config.LoadConfig.
  destruct (getEnv_not_empty "PORT" "8080" w ltac:(discriminate))
    as (port & E1 & _).
  destruct (getEnv_not_empty "ZIPKIN_URL" "http://zipkin:9411/api/v2/spans" w
              ltac:(discriminate)) as (zipkin & E2 & _).
  destruct (getEnv_not_empty "SERVICE_B_URL" "http://svc-b:8081/weather" w
              ltac:(discriminate)) as (serviceB & E3 & _).
  destruct (getEnv_not_empty "SERVICE_NAME" "svc-a" w ltac:(discriminate))
    as (name & E4 & _).
  unfold bind at 1. rewrite E1. unfold bind at 1. rewrite E2.
  unfold bind at 1. rewrite E3. unfold bind at 1. rewrite E4.
  unfold bind, svc_a_config.getEnvAsInt, bind, os_Getenv,
    svc_a_config.getIntFromString.
  destruct (String.eqb (environ w "TIMEOUT_SECONDS") "") eqn:T; cbn [negb].
  - apply String.eqb_eq in T.
    eexists. split; [reflexivity |]. cbn [svc_a.Timeout]. split; [reflexivity |].
    split; [reflexivity |]. intros n N. now elim N.
  - apply String.eqb_neq in T.
    destruct (Sscanf_d (environ w "TIMEOUT_SECONDS")) as [n | e].
    + eexists. split; [reflexivity |]. cbn [svc_a.Timeout].
      split; [intros Z; now elim T |]. split; [intros e E; discriminate E |].
      intros n' _ E B. inversion E; subst n'.
      unfold svc_a_config.wrap64, svc_a_config.Second.
      rewrite Z.mod_small by lia. lia.
    + eexists. split; [reflexivity |]. cbn [svc_a.Timeout].
      split; [reflexivity |]. split; [reflexivity |].
      intros n _ E. discriminate E.
Qed.

End ConfigFurther.

(** ** The further properties at work *)

Section FurtherWitnesses.
Import services.

(** A body whose reading breaks off. *)
Lemma GetWeatherByCEPPost_malformed_witness :
  svc_b.POST Sample.platform fresh (mkReader "{" (Some "unexpected EOF"))
    (Sample.world "k" Sample.down)
  = (Normal (mkResponseWriter [("Content-Type", "application/json")]
               (Some 400) (error_body "invalid request body")),
     Sample.world "k" Sample.down).
Proof.
  refine (proj1 (@GetWeatherByCEPPost_malformed Sample.platform _ _
                   (ViaCEP.ViaCEPService_CEPService Sample.platform)
                   (WeatherAPI.WeatherAPIService_WeatherService Sample.platform)
                   svc_b.handler (mkReader "{" (Some "unexpected EOF"))
                   (Sample.world "k" Sample.down)) _).
  discriminate.
Defined.

(** Three digits are no postal code. *)
Lemma svc_b_invalid_zipcode_iff_witness :
  passes_validation "123" = false
  /\ svc_b.GET Sample.platform fresh "123" (Sample.world "k" Sample.down)
     = (Normal (mkResponseWriter [("Content-Type", "application/json")]
                  (Some 422) (error_body "invalid zipcode")),
        Sample.world "k" Sample.down).
Proof.
  split; [reflexivity |].
  exact (proj1 (svc_b_invalid_zipcode_iff Sample.platform "123"
                  (Sample.world "k" Sample.down)) eq_refl).
Defined.

(** Two refused requests and then an answer: the call returns. *)
Lemma GetTemperature_panics_iff_no_response_witness :
  let w := Sample.world "k" (Sample.flaky (Sample.ok (Sample.weather_doc "25.0" "77.0"))) in
  environ w "WEATHER_API_KEY" <> ""
  /\ exists r,
       fst (WeatherAPI.GetTemperature Sample.platform svc_b.weather_service
              "Rio de Janeiro" w) = Normal r.
Proof.
  cbv zeta.
  assert (K : environ (Sample.world "k"
                         (Sample.flaky (Sample.ok (Sample.weather_doc "25.0" "77.0"))))
                "WEATHER_API_KEY" <> "")
    by (intros E; vm_compute in E; discriminate E).
  split; [exact K |].
  destruct (GetTemperature_panics_iff_no_response Sample.platform svc_b.weather_service
              "Rio de Janeiro"
              (Sample.world "k"
                 (Sample.flaky (Sample.ok (Sample.weather_doc "25.0" "77.0")))) K)
    as (new & Ad & _ & Ret).
  unfold added in Ad. cbn [Sample.world trace] in Ad. rewrite app_nil_r in Ad.
  apply Ret. rewrite <- Ad. vm_compute. discriminate.
Defined.

(** Two refused requests and then an answer: pauses of 100 and 200 ms. *)
Lemma GetTemperature_pauses_witness :
  let w := Sample.world "k" (Sample.flaky (Sample.ok (Sample.weather_doc "25.0" "77.0"))) in
  environ w "WEATHER_API_KEY" <> ""
  /\ pauses (trace (snd (WeatherAPI.GetTemperature Sample.platform
                           svc_b.weather_service "Rio de Janeiro" w)))
     = [100; 200].
Proof.
  cbv zeta.
  assert (K : environ (Sample.world "k"
                         (Sample.flaky (Sample.ok (Sample.weather_doc "25.0" "77.0"))))
                "WEATHER_API_KEY" <> "")
    by (intros E; vm_compute in E; discriminate E).
  split; [exact K |].
  destruct (GetTemperature_pauses Sample.platform svc_b.weather_service
              "Rio de Janeiro"
              (Sample.world "k"
                 (Sample.flaky (Sample.ok (Sample.weather_doc "25.0" "77.0")))) K)
    as (new & Ad & Built & _).
  unfold added in Ad. cbn [Sample.world trace] in Ad. rewrite app_nil_r in Ad.
  rewrite Ad.
  rewrite (Built (mkRequest "GET"
                    "https://api.weatherapi.com/v1/current.json?key=k&q=Rio+de+Janeiro"
                    [] "") eq_refl).
  rewrite <- Ad. vm_compute. reflexivity.
Defined.


(** [TIMEOUT_SECONDS=30] gives thirty seconds. *)
Lemma LoadConfig_timeout_witness :
  exists c,
    svc_a_config.LoadConfig Sample2.scan (Sample2.world "" "30")
    = (Normal c, Sample2.world "" "30")
    /\ svc_a.Timeout c = 30000000000.
Proof.
  destruct (LoadConfig_timeout Sample2.scan (Sample2.world "" "30"))
    as (c & E & _ & _ & Scanned).
  exists c. split; [exact E |].
  assert (N : environ (Sample2.world "" "30") "TIMEOUT_SECONDS" <> "")
    by (intros Z; vm_compute in Z; discriminate Z).
  refine (Scanned 30 N eq_refl _). lia.
Defined.

End FurtherWitnesses.

(** ** Normalisation, forwarding, and where a reading comes from *)

Section NormalizeFurther.

(** The two [ReplaceAll] of the program, one after the other, keep the
    bytes that are no separator and drop the others. *)
Lemma normalize_without_separators (raw : string) :
  normalize raw = without_separators raw.
Proof.
  rewrite normalize_strip.
  induction raw as [| a rest IH]; [reflexivity |].
  cbn [strip without_separators]. unfold no_separator.
  destruct (Ascii.eqb a "-"%char) eqn:D; cbn [orb negb]; [exact IH |].
  cbn [strip]. destruct (Ascii.eqb a "."%char); cbn [negb]; [exact IH |].
  now rewrite IH.
Qed.

End NormalizeFurther.

Section SeparatorsFurther.
Context (P : Platform) {CS WS : Type}
  `{services.CEPService CS} `{services.WeatherService WS}.
Import services.

(** X16. What the program removes from a postal code is every [-] and
    every [.], and nothing else: both handlers hand to
    [processWeatherRequest] the bytes of the code that are neither, in
    their order, and [GetCityByCEP] tests the length of that string and
    puts that string into the URL it asks for. *)
Theorem separators_removed_and_nothing_else
  (h : handlers.WeatherHandler CS WS) (rw : ResponseWriter) (raw : string) :
  handlers.GetWeatherByCEP P h rw raw
  = handlers.processWeatherRequest P h
      (Header_Set "Content-Type" "application/json" rw) (without_separators raw)
  /\ (forall body,
        fault body = None ->
        Unmarshal_CepRequest P (data body) = inl (mkCepRequest raw) ->
        handlers.GetWeatherByCEPPost P h rw body
        = handlers.processWeatherRequest P h
            (Header_Set "Content-Type" "application/json" rw) (without_separators raw))
  /\ (forall (s : ViaCEP.ViaCEPService http_Client) (w : World),
        (GoString.len (without_separators raw) <> 8 ->
           ViaCEP.GetCityByCEP P s raw w = (Normal ("", Some ErrInvalidZipCode), w))
        /\ (GoString.len (without_separators raw) = 8 ->
            forall req,
              NewRequestWithContext P "GET"
                (GoString.Sprintf (ViaCEP.baseURL s) [without_separators raw]) ""
                = inl req ->
              trace (snd (ViaCEP.GetCityByCEP P s raw w))
              = EvDo req (upstream w (trace w) req) :: trace w)).
Proof.
  split; [| split].
  - unfold handlers.GetWeatherByCEP. cbv zeta.
    change (GoString.ReplaceAll (GoString.ReplaceAll raw "-" "") "." "")
      with (normalize raw).
    now rewrite normalize_without_separators.
  - intros body F U.
    unfold handlers.GetWeatherByCEPPost. cbv zeta.
    unfold io_ReadAll. rewrite F. cbn [option_map]. rewrite U. cbn [cep_field].
    change (GoString.ReplaceAll (GoString.ReplaceAll raw "-" "") "." "")
      with (normalize raw).
    now rewrite normalize_without_separators.
  - intros s w. rewrite <- normalize_without_separators. split.
    + intros L. now apply GetCityByCEP_too_short_or_long.
    + intros L req B. rewrite (GetCityByCEP_sent P s raw w req L B).
      destruct (upstream w (trace w) req) as [resp | oresp text]; [| reflexivity].
      destruct (negb (StatusCode resp =? StatusOK)); [reflexivity |].
      destruct (fault (Body resp)); [reflexivity |].
      destruct (Unmarshal_ViaCEPResponse P (data (Body resp))) as [v | e];
        [| reflexivity].
      destruct (Erro v); [reflexivity |].
      destruct (String.eqb (Localidade v) ""); reflexivity.
Qed.

End SeparatorsFurther.

Section GeocoderFurther.
Context (P : Platform).
Import services.

(** X19. A postal code that has eight bytes once its separators are
    removed, digits or not, is put into the URL of the geocoder as it
    is.  When a request can be built from that URL, its GET is the first
    thing the handler adds to the trace; when none can be built (the
    URL does not parse), nothing is sent and the answer is 500 with the
    document [{"error":"internal server error"}]. *)
Theorem svc_b_GET_asks_geocoder (rw : ResponseWriter) (raw : string) (w : World) :
  GoString.len (without_separators raw) = 8 ->
  let url := "https://viacep.com.br/ws/" ++ without_separators raw ++ "/json/" in
  (forall req,
     NewRequestWithContext P "GET" url "" = inl req ->
     exists later,
       added w (snd (svc_b.GET P rw raw w))
         (later ++ [EvDo req (upstream w (trace w) req)]))
  /\ (forall err,
        NewRequestWithContext P "GET" url "" = inr err ->
        svc_b.GET P rw raw w
        = (Normal (handlers.respondWithError P
                     (Header_Set "Content-Type" "application/json" rw)
                     StatusInternalServerError "internal server error"), w)).
Proof.
  intros L url. subst url. rewrite <- normalize_without_separators in *.
  assert (V : passes_validation raw = true) by (now apply Z.eqb_eq).
  split.
  - intros req B. exact (svc_b_GET_first_request P rw raw w req V B).
  - intros err B.
    unfold svc_b.GET, handlers.GetWeatherByCEP. cbv zeta.
    change (GoString.ReplaceAll (GoString.ReplaceAll raw "-" "") "." "")
      with (normalize raw).
    unfold handlers.processWeatherRequest.
    unfold passes_validation in V. rewrite V. cbn [negb]. unfold bind.
    change (GetCityByCEP (handlers.cepService svc_b.handler) (normalize raw) w)
      with (ViaCEP.GetCityByCEP P svc_b.cep_service (normalize raw) w).
    assert (L' : GoString.len (normalize (normalize raw)) = 8)
      by (now rewrite normalize_idempotent).
    assert (B' : NewRequestWithContext P "GET"
                   (GoString.Sprintf (ViaCEP.baseURL svc_b.cep_service)
                      [normalize (normalize raw)]) "" = inr err)
      by (now rewrite viacep_URL, normalize_idempotent).
    rewrite (GetCityByCEP_not_built P svc_b.cep_service (normalize raw) w err L' B').
    destruct (NewRequest_error_external P _ _ _ _ B) as [text ->].
    reflexivity.
Qed.

End GeocoderFurther.


Section ForwardFurther.
Context (P : Platform).
Import services.

(** X17. What the edge service forwards is never turned away by svc-b as
    an invalid postal code: if [isValidCEP] accepts the code and the
    decoder of svc-b reads back the body the edge made of it, the POST
    to svc-b is not answered 422. *)
Theorem forwarded_code_is_looked_up (cep : string) (w w' : World)
  (rw' : ResponseWriter) :
  svc_a.isValidCEP cep = true ->
  Unmarshal_CepRequest P (svc_a.Marshal_CepRequest cep) = inl (mkCepRequest cep) ->
  svc_b.POST P fresh (mkReader (svc_a.Marshal_CepRequest cep) None) w = (Normal rw', w') ->
  status rw' <> Some 422.
Proof.
  intros V U R.
  rewrite isValidCEP_spec in V. apply andb_true_iff in V as [L D].
  assert (Pass : passes_validation cep = true).
  { unfold passes_validation. rewrite (normalize_digits cep D).
    now rewrite len_eight. }
  unfold svc_b.POST, handlers.GetWeatherByCEPPost in R. cbv zeta in R.
  unfold io_ReadAll in R. cbn [fault data option_map] in R. rewrite U in R.
  cbn [cep_field] in R.
  exact (svc_b_GET_accepts P fresh rw' cep w w' Pass eq_refl R).
Qed.

(** X18. A reading comes from a response with status 200 only: when
    [GetTemperature] returns a reading, the last request it sent was
    answered with status 200 and a body that decodes, and the Celsius
    value of the reading is the rounding of the one in that body. *)
Theorem GetTemperature_reading_from_last_response
  (s : WeatherAPI.WeatherAPIService http_Client) (city : string) (w w' : World)
  (temp : models.Temperature) :
  WeatherAPI.GetTemperature P s city w = (Normal (Some temp, None), w') ->
  exists new resp weatherResp,
    added w w' new
    /\ last_carried None (answers new) = Some resp
    /\ StatusCode resp = 200
    /\ Decode_WeatherAPIResponse P (Body resp) = inl weatherResp
    /\ models.TempC temp = WeatherAPI.round (temp_c (Current weatherResp)) 2.
Proof.
  destruct (String.eqb (environ w "WEATHER_API_KEY") "") eqn:K.
  - unfold WeatherAPI.GetTemperature, bind, os_Getenv. rewrite K.
    intros R. inversion R.
  - apply String.eqb_neq in K. rewrite (GetTemperature_unfold P s city w K).
    unfold bind.
    destruct (retry_loop_last P (WeatherAPI.client s)
                (weather_URL (WeatherAPI.baseURL s) (environ w "WEATHER_API_KEY") city)
                (Z.to_nat WeatherAPI.maxRetries) None None w)
      as (resp' & w1 & new & E & Ad & La).
    rewrite E. destruct resp' as [resp |]; [| intros R; inversion R].
    destruct (Decode_WeatherAPIResponse P (Body resp)) as [wr | de] eqn:D;
      [| intros R; inversion R].
    destruct (StatusCode resp =? StatusOK) eqn:S; cbn [negb].
    + intros R. inversion R; subst. apply Z.eqb_eq in S.
      exists new, resp, wr.
      split; [exact Ad |]. split; [now symmetry |]. split; [exact S |].
      split; [exact D | reflexivity].
    + destruct (Code (Error_ wr) =? 1006); intros R; inversion R.
Qed.

End ForwardFurther.

Section ForwardWitnesses.
Import services.

(** The postal code of the README, forwarded. *)
Lemma forwarded_code_is_looked_up_witness :
  svc_a.isValidCEP "35780000" = true
  /\ status (mkResponseWriter [("Content-Type", "application/json")] (Some 500)
               (error_body "internal server error"))
     <> Some 422.
Proof.
  split; [reflexivity |].
  refine (forwarded_code_is_looked_up Sample.platform "35780000"
            (Sample.world "k" Sample.down) _ _ eq_refl eq_refl _).
  vm_compute. reflexivity.
Defined.

(** 25 degrees, read from the answer with status 200. *)
Lemma GetTemperature_reading_from_last_response_witness :
  exists resp,
    StatusCode resp = 200
    /\ Decode_WeatherAPIResponse Sample.platform (Body resp)
       = inl (mkWeatherAPIResponse (mkCurrent 25 77) Sample.no_error).
Proof.
  assert (R : WeatherAPI.GetTemperature Sample.platform svc_b.weather_service
                "Rio de Janeiro"
                (Sample.world "k"
                   (Sample.internet (Sample.ok (Sample.weather_doc "25.0" "77.0"))))
              = (Normal (Some (models.mkTemperature 25 77 298.15), None),
                 snd (WeatherAPI.GetTemperature Sample.platform svc_b.weather_service
                        "Rio de Janeiro"
                        (Sample.world "k"
                           (Sample.internet
                              (Sample.ok (Sample.weather_doc "25.0" "77.0")))))))
    by (vm_compute; reflexivity).
  destruct (GetTemperature_reading_from_last_response Sample.platform
              svc_b.weather_service "Rio de Janeiro" _ _ _ R)
    as (new & resp & wr & Ad & La & S & D & _).
  exists resp. split; [exact S |].
  assert (T : trace (snd (WeatherAPI.GetTemperature Sample.platform svc_b.weather_service
                            "Rio de Janeiro"
                            (Sample.world "k"
                               (Sample.internet
                                  (Sample.ok (Sample.weather_doc "25.0" "77.0"))))))
              = [EvDo (mkRequest "GET"
                         "https://api.weatherapi.com/v1/current.json?key=k&q=Rio+de+Janeiro"
                         [] "")
                   (DoOk (Sample.ok (Sample.weather_doc "25.0" "77.0")))])
    by (vm_compute; reflexivity).
  unfold added in Ad. rewrite T in Ad. cbn [Sample.world trace] in Ad.
  rewrite app_nil_r in Ad. subst new.
  change (Some (Sample.ok (Sample.weather_doc "25.0" "77.0")) = Some resp) in La.
  inversion La; subst resp. reflexivity.
Defined.

(** Eight letters reach the geocoder. *)
Lemma svc_b_GET_asks_geocoder_witness :
  GoString.len (without_separators "abcdefgh") = 8
  /\ exists later,
       added (Sample.world "k" Sample.down)
         (snd (svc_b.GET Sample.platform fresh "abcdefgh" (Sample.world "k" Sample.down)))
         (later ++ [EvDo (mkRequest "GET" "https://viacep.com.br/ws/abcdefgh/json/" [] "")
                      (DoErr None "dial tcp: connection refused")]).
Proof.
  split; [reflexivity |].
  exact (proj1 (svc_b_GET_asks_geocoder Sample.platform fresh "abcdefgh"
                  (Sample.world "k" Sample.down) eq_refl)
           (mkRequest "GET" "https://viacep.com.br/ws/abcdefgh/json/" [] "")
           eq_refl).
Defined.

End ForwardWitnesses.
